(** * domino: orchestration scripts of the slice-discovery experiments

    A shallow embedding of
      - [src/scratch/sabri/archive/21-07/train.py]   (module [Train]),
      - [src/domino/pipelines/imagenet.py] and
        [src/scratch/sabri/10-03_imagenet_synthetic_method.py]
                                                       (module [Pipelines]),
    together with the properties the specification states about them.

    The scripts are glue: they call collaborators (meerkat, torch, ray,
    terra, nltk and the rest of the domino package) whose code is not part
    of the files above.  A collaborator is a parameter of the model: a
    function from the arguments of the call to its outcome, which is a
    value or a raised exception.  Every call is recorded in a trace, so
    that "is called", "is not called" and "is called before" are
    statements about a list of events. *)

From Stdlib Require Import ZArith QArith Lia Ascii String Sorted Uint63 PrimFloat.
From stdpp Require Import base option list strings pretty gmap.

Set Warnings "-register-all,-inexact-float".

Local Open Scope Z_scope.
Local Open Scope string_scope.
Local Open Scope list_scope.

(** ** Python values, exceptions and outcomes *)

(** The scalar values that travel through the metadata dictionaries and
    the cells of a data panel.  A Python float is a binary64 number. *)
Inductive pyval :=
| VNone
| VBool (b : bool)
| VInt (z : Z)
| VFloat (x : float)
| VStr (s : string).

(** Exceptions, by class.  [OtherError] stands for any class that the
    scripts never name. *)
Inductive exn :=
| ValueError (msg : string)
| TypeError (msg : string)
| LookupError (msg : string)
| KeyError (key : string)
| IndexError (msg : string)
| CorrelationImpossibleError (msg : string)
| OtherError (cls msg : string).

(** [except LookupError] also catches the subclasses [KeyError] and
    [IndexError]. *)
Definition is_LookupError (e : exn) : bool :=
  match e with
  | LookupError _ | KeyError _ | IndexError _ => true
  | _ => false
  end.

Inductive result (A : Type) :=
| Return (a : A)
| Raise (e : exn).
Arguments Return {A} a.
Arguments Raise {A} e.

Definition returns {A} (r : result A) : bool :=
  match r with Return _ => true | Raise _ => false end.

(** ** Calls with a trace

    [M E A] is a computation that leaves a trace of events of type [E]
    and ends with a value of type [A] or with a raised exception. *)
Module Run.
Section WithEvents.
Context {E : Type}.

Definition M (A : Type) : Type := (list E * result A)%type.

Definition ret {A} (a : A) : M A := ([], Return a).

Definition raise {A} (e : exn) : M A := ([], Raise e).

Definition bind {A B} (m : M A) (f : A -> M B) : M B :=
  match snd m with
  | Return a => (fst m ++ fst (f a), snd (f a))
  | Raise e => (fst m, Raise e)
  end.

(** A pure step that may raise (a builtin, an indexing operation). *)
Definition lift {A} (r : result A) : M A := ([], r).

(** A call of a collaborator: the event is recorded, then the outcome
    of the call is the outcome of the computation. *)
Definition call {A} (ev : E) (outcome : result A) : M A := ([ev], outcome).

(** [try: m  except <classes matched by h>: h e].  The handler [h]
    answers [None] for an exception the [except] clause does not name,
    which then propagates. *)
Definition try_except {A} (m : M A) (h : exn -> option (M A)) : M A :=
  match snd m with
  | Return a => m
  | Raise e =>
      match h e with
      | Some k => (fst m ++ fst k, snd k)
      | None => m
      end
  end.

Definition trace {A} (m : M A) : list E := fst m.
Definition outcome {A} (m : M A) : result A := snd m.

(** [observed g m pre Q]: of the events of [m], [g] keeps what is
    observed; running [m] after the observations [pre] gives observations
    and an outcome that satisfy [Q]. *)
Definition observed {A V} (g : E -> option V) (m : M A) (pre : list V)
    (Q : list V -> result A -> Prop) : Prop :=
  Q (pre ++ omap g (trace m)) (outcome m).
End WithEvents.
Arguments M : clear implicits.
End Run.

Notation "'do' x <- m ; k" := (Run.bind m (fun x => k))
  (at level 10, x name, m at level 100, k at level 200).
Notation "'do' ' pat <- m ; k" :=
  (Run.bind m (fun x => match x with pat => k end))
  (at level 10, pat pattern, m at level 100, k at level 200).
Notation "'run' m ; k" := (Run.bind m (fun _ => k))
  (at level 10, m at level 100, k at level 200).

(** ** Builtins of Python used by the scripts *)
Module Py.

(** [posixpath.basename]: the text after the last ['/'], the whole path
    when it has none ([p[p.rfind('/') + 1:]]). *)
Fixpoint after_last_slash (p : string) : option string :=
  match p with
  | EmptyString => None
  | String c r =>
      match after_last_slash r with
      | Some t => Some t
      | None => if Ascii.eqb c "/"%char then Some r else None
      end
  end.

Definition basename_str (p : string) : string :=
  default p (after_last_slash p).

(** [os.path.basename(run_dir)]; [run_dir] is [None] by default, which
    [os.fspath] rejects. *)
Definition basename (p : option string) : result string :=
  match p with
  | Some s => Return (basename_str s)
  | None =>
      Raise (TypeError "expected str, bytes or os.PathLike object, not NoneType")
  end.

(** [int(s)] in base 10, for a text of ASCII characters: the white space
    around (space, tab, line feed, vertical tab, form feed, carriage
    return) is dropped, one sign is allowed, and the digits may be
    separated by single underscores.  (Python also accepts the decimal
    digits and the white space of other scripts of Unicode; a text with
    such characters is outside this model.) *)
Definition is_space (c : ascii) : bool :=
  let n := N_of_ascii c in
  ((9 <=? n) && (n <=? 13) || (n =? 32))%N.

Definition digit_of (c : ascii) : option Z :=
  let n := N_of_ascii c in
  if ((48 <=? n) && (n <=? 57))%N then Some (Z.of_N n - 48) else None.

Fixpoint lstrip (s : string) : string :=
  match s with
  | String c r => if is_space c then lstrip r else s
  | EmptyString => EmptyString
  end.

Fixpoint rstrip (s : string) : string :=
  match s with
  | EmptyString => EmptyString
  | String c r =>
      match rstrip r with
      | EmptyString => if is_space c then EmptyString else String c EmptyString
      | r' => String c r'
      end
  end.

Definition strip (s : string) : string := rstrip (lstrip s).

(** The digits of a literal, read from the left.  [acc] is the value
    read so far; [after_digit] tells whether the character before was a
    digit, the only place where an underscore or the end may come. *)
Fixpoint digits (s : string) (acc : Z) (after_digit : bool) : option Z :=
  match s with
  | EmptyString => if after_digit then Some acc else None
  | String c r =>
      match digit_of c with
      | Some d => digits r (10 * acc + d) true
      | None =>
          if Ascii.eqb c "_"%char && after_digit then digits r acc false else None
      end
  end.

Definition int_literal (s : string) : option Z :=
  match strip s with
  | String "+"%char r => digits r 0 false
  | String "-"%char r => Z.opp <$> digits r 0 false
  | r => digits r 0 false
  end.

Definition int (s : string) : result Z :=
  match int_literal s with
  | Some z => Return z
  | None => Raise (ValueError ("invalid literal for int() with base 10: '" ++ s ++ "'"))
  end.

End Py.

(** ** What the language and the libraries leave open

    The order in which a Python [set] is iterated is not specified (for
    strings it changes with the hash seed of the process), and the
    exception that meerkat raises for a missing column has changed from
    one release to the next.  A [runtime] fixes them:
    [set_difference xs ys] is [list(set(xs) - set(ys))], which holds the
    elements of [xs] that are not in [ys], once each, in some order;
    [missing_column name] is what [dp[name]] raises for a name that is not
    a column of [dp], and [missing_columns names] is what [dp[cols]] raises
    when the names [names] of the list [cols] are not columns of [dp]. *)
Record runtime := {
  missing_column : string -> exn;
  missing_columns : list string -> exn;
  set_difference : list string -> list string -> list string;
  set_difference_NoDup : forall xs ys, NoDup (set_difference xs ys);
  elem_of_set_difference :
    forall xs ys x, x ∈ set_difference xs ys <-> x ∈ xs /\ x ∉ ys
}.

(** [list(map(f, xs))] for an [f] that may raise: the elements are built
    from the left and the first exception ends the construction. *)
Fixpoint map_result {A B} (f : A -> result B) (xs : list A) : result (list B) :=
  match xs with
  | [] => Return []
  | x :: r =>
      match f x with
      | Raise e => Raise e
      | Return y =>
          match map_result f r with
          | Raise e => Raise e
          | Return ys => Return (y :: ys)
          end
      end
  end.

(** ** Data panels (meerkat)

    A data panel is a table held by columns: the names in order, each with
    its cells.  Only the operations the scripts apply to a panel are
    modelled. *)
Module Meerkat.

Record DataPanel := { dp_data : list (string * list pyval) }.

(** [dp.columns] *)
Definition columns (dp : DataPanel) : list string := (dp_data dp).*1.

Fixpoint assoc {A} (k : string) (l : list (string * A)) : option A :=
  match l with
  | [] => None
  | (k', v) :: r => if String.eqb k k' then Some v else assoc k r
  end.

(** [dp[name].data] *)
Definition column (rt : runtime) (dp : DataPanel) (name : string)
    : result (list pyval) :=
  match assoc name (dp_data dp) with
  | Some c => Return c
  | None => Raise (missing_column rt name)
  end.

(** The names of [cols] that are not columns of [dp]. *)
Definition lacking (dp : DataPanel) (cols : list string) : list string :=
  List.filter (fun c => negb (bool_decide (c ∈ columns dp))) cols.

(** [dp[cols]] for a list of names: the named columns, in the order of
    the list; one exception for all the names that [dp] lacks. *)
Definition select_columns (rt : runtime) (dp : DataPanel) (cols : list string)
    : result DataPanel :=
  match map_result (fun c => match column rt dp c with
                             | Return d => Return (c, d)
                             | Raise e => Raise e
                             end) cols with
  | Return d => Return {| dp_data := d |}
  | Raise _ => Raise (missing_columns rt (lacking dp cols))
  end.

(** The cells kept by a boolean mask. *)
Fixpoint masked {A} (mask : list bool) (cells : list A) : list A :=
  match mask, cells with
  | b :: m, x :: r => if b then x :: masked m r else masked m r
  | _, _ => []
  end.

(** [dp.lz[mask]] for a boolean mask: the rows where the mask holds. *)
Definition lz_mask (dp : DataPanel) (mask : list bool) : DataPanel :=
  {| dp_data := (fun nc => (nc.1, masked mask nc.2)) <$> dp_data dp |}.

(** [dp.lz[indices]] for row numbers: the rows at these positions; a
    position outside the panel raises. *)
Definition lz_rows (dp : DataPanel) (indices : list nat) : result DataPanel :=
  if forallb (fun nc => forallb (fun i => (i <? length nc.2)%nat) indices) (dp_data dp)
  then Return {| dp_data := (fun nc => (nc.1, omap (fun i => nc.2 !! i) indices))
                              <$> dp_data dp |}
  else Raise (IndexError "index out of range").

End Meerkat.
Export Meerkat.

(** ** [numpy.linspace]

    [np.linspace(start, stop, num)] with the default [endpoint=True], for
    two numbers [start] and [stop], in binary64 as numpy computes it:
    [arange(0, num)] is multiplied by [step = (stop - start) / (num - 1)],
    or divided by [num - 1] and multiplied by [stop - start] when [step]
    is zero; [start] is added, and the last entry is set to [stop].  The
    positions of an array are below [2^63]. *)
Module Np.

Definition float_of_Z (z : Z) : float := PrimFloat.of_uint63 (Uint63.of_Z z).

Definition linspace (start stop : float) (num : Z) : result (list float) :=
  if (num <? 0)%Z then
    Raise (ValueError ("Number of samples, " ++ pretty num
                         ++ ", must be non-negative."))
  else
    let div := (num - 1)%Z in
    let delta := (stop - start)%float in
    let y := (fun i => float_of_Z (Z.of_nat i)) <$> seq 0 (Z.to_nat num) in
    let y :=
      if (0 <? div)%Z then
        let step := (delta / float_of_Z div)%float in
        if PrimFloat.eqb step 0
        then (fun v => v / float_of_Z div * delta)%float <$> y
        else (fun v => v * step)%float <$> y
      else (fun v => v * delta)%float <$> y in
    let y := (fun v => v + start)%float <$> y in
    Return (if (1 <? num)%Z then <[Nat.pred (length y) := stop]> y else y).


End Np.

(** ** Tensors, for running the reductions

    A tensor as nested sequences of numbers, with [torch.mean] over the
    last two dimensions ([dim=[-1, -2]], the only [dim] the scripts pass;
    a tensor is returned as it is for another [dim] or with fewer than two
    dimensions, which the scripts never ask for). *)
Module Torch.
Local Open Scope Q_scope.

Inductive tensor :=
| Scalar (x : Q)
| Stack (ts : list tensor).

(** The number of dimensions, read along the first entries. *)
Fixpoint ndim (t : tensor) : nat :=
  match t with
  | Scalar _ => 0
  | Stack [] => 1
  | Stack (t' :: _) => S (ndim t')
  end.

(** All numbers of a tensor, in order. *)
Fixpoint entries (t : tensor) : list Q :=
  match t with
  | Scalar x => [x]
  | Stack ts => (fix go (l : list tensor) : list Q :=
                   match l with
                   | [] => []
                   | t' :: r => entries t' ++ go r
                   end) ts
  end.

Definition sum (l : list Q) : Q := foldr Qplus 0 l.

Definition average (l : list Q) : Q := Qred (sum l / inject_Z (Z.of_nat (length l))).

(** The largest of the numbers of a list ([None] when it is empty). *)
Fixpoint largest (l : list Q) : option Q :=
  match l with
  | [] => None
  | x :: r =>
      match largest r with
      | None => Some x
      | Some m => Some (if Qle_bool x m then m else x)
      end
  end.

(** Reducing the last two dimensions by [f]. *)
Fixpoint reduce_last2 (f : list Q -> Q) (t : tensor) : tensor :=
  match t with
  | Scalar x => Scalar x
  | Stack ts =>
      if (ndim t =? 2)%nat then Scalar (f (entries t))
      else Stack (reduce_last2 f <$> ts)
  end.

(** [torch.mean(t, dim=dim)] *)
Definition mean (t : tensor) (dim : list Z) : tensor :=
  match dim with
  | [(-1)%Z; (-2)%Z] => reduce_last2 average t
  | _ => t
  end.

(** Modelled from the spec: the reduction that the name ["max"] asks
    for, the maximum over the last two dimensions ([torch.amax]); the
    scripts never call it. *)
Definition spec_max (t : tensor) : tensor :=
  reduce_last2 (fun l => default 0 (largest l)) t.

End Torch.

(** ** [scratch/sabri/archive/21-07/train.py] *)
Module Train.

(** The mapping built as [metadata] by [train_model] and [score_model]. *)
Abbreviation Metadata := (gmap string pyval).

(** [**kwargs]: keyword arguments handed on unchanged. *)
Abbreviation Kwargs := (list (string * pyval)).

(** [split] of [score_model]: a name; a list or a tuple of names; or a
    set of names, which [np.isin] does not take as a sequence. *)
Inductive split_arg :=
| SplitStr (s : string)
| SplitColl (l : list string)
| SplitSet (l : list string).

Section Collaborators.
(** [domino.vision.Classifier], [torch.nn.Module], [torch.Tensor]. *)
Variables Classifier NNModule Tensor : Type.

(** [functools.partial(func, dim=...)] with the [__name__] that
    [_get_reduction_fn] sets on it. *)
Record partial := {
  p_func : Tensor -> list Z -> Tensor;
  p_dim : list Z;
  p_name : option string
}.

(** Calling a partial object on an activation tensor. *)
Definition call_partial (p : partial) (t : Tensor) : Tensor :=
  p_func p t (p_dim p).

Definition set_name (p : partial) (name : string) : partial :=
  {| p_func := p_func p; p_dim := p_dim p; p_name := Some name |}.

(** The keyword arguments of the three calls into domino. *)
Record induce_args := {
  ic_dp : DataPanel;
  ic_corr : pyval;
  ic_attr_a : string;
  ic_attr_b : string;
  ic_n : pyval;
  ic_match_mu : bool
}.

Record train_args := {
  tr_dp : DataPanel;
  tr_input_column : string;
  tr_id_column : string;
  tr_target_column : string;
  tr_run_dir : option string;
  tr_wandb_config : Metadata;
  tr_kwargs : Kwargs
}.

Record score_args := {
  sc_model : Classifier;
  sc_dp : DataPanel;
  sc_input_column : string;
  sc_id_column : string;
  sc_target_column : string;
  sc_run_dir : option string;
  sc_layers : option (list (string * NNModule));
  sc_wandb_config : Metadata;
  sc_reduction_fns : option (list partial);
  sc_kwargs : Kwargs
}.

(** The [config] argument of [tune.run] in [train_linear_slices]: one
    [tune.grid_search] per key. *)
Record search_space := {
  ss_corr : list float;
  ss_target_correlate : list (string * string)
}.

(** One configuration handed to the trainable. *)
Record config := {
  cfg_corr : float;
  cfg_target_correlate : string * string
}.

Inductive event :=
| EInduceCorrelation (a : induce_args)
| EPrint (e : exn)
| ETrain (a : train_args)
| ENestedGetattr (model : Classifier) (layer : string)
| EScore (a : score_args)
| ERayInit (num_gpus num_cpus : Z)
| ETerraOut (run_id : Z)
| ETuneRun (space : search_space) (num_samples : nat)
           (resources_per_trial : list (string * Z)).

(** The collaborators: [torch.mean], [domino.utils.nested_getattr],
    [domino.evaluate.linear.induce_correlation] and
    [domino.vision.train], [domino.vision.score]. *)
Variable torch_mean : Tensor -> list Z -> Tensor.
Variable nested_getattr : Classifier -> string -> result NNModule.
Variable induce_correlation : induce_args -> result (list nat).
Variable train : train_args -> result unit.
Variable score : score_args -> result DataPanel.
Variable rt : runtime.

(** [int(os.path.basename(run_dir))] *)
Definition run_id_of (run_dir : option string) : result Z :=
  match Py.basename run_dir with
  | Return b => Py.int b
  | Raise e => Raise e
  end.

(** The dictionary literal bound to [metadata] (lines 33-39 and
    140-146). *)
Definition mk_metadata (target correlate : string) (corr num_examples : pyval)
    (run_id : Z) : Metadata :=
  <["target" := VStr target]>
    (<["correlate" := VStr correlate]>
      (<["corr" := corr]>
        (<["num_examples" := num_examples]>
          (<["run_id" := VInt run_id]> ∅)))).

(** [train_model] (lines 19-63).  The result is [None] for the bare
    [return] of the handler and [Some metadata] for [return metadata]. *)
Definition train_model (dp : DataPanel) (target_correlate : string * string)
    (corr num_examples : pyval) (input_column id_column : string)
    (run_dir : option string) (kwargs : Kwargs)
    : Run.M event (option Metadata) :=
  let '(target, correlate) := target_correlate in
  do run_id <- Run.lift (run_id_of run_dir);
  let metadata := mk_metadata target correlate corr num_examples run_id in
  let ic := {| ic_dp := dp; ic_corr := corr; ic_attr_a := target;
               ic_attr_b := correlate; ic_n := num_examples;
               ic_match_mu := true |} in
  do got <- Run.try_except
              (do indices <- Run.call (EInduceCorrelation ic) (induce_correlation ic);
               Run.ret (Some indices))
              (fun e => match e with
                        | CorrelationImpossibleError _ =>
                            Some (run Run.call (EPrint e) (Return tt);
                                  Run.ret None)
                        | _ => None
                        end);
  match got with
  | None => Run.ret None
  | Some indices =>
      do rows <- Run.lift (lz_rows dp indices);
      let tr := {| tr_dp := rows; tr_input_column := input_column;
                   tr_id_column := id_column; tr_target_column := target;
                   tr_run_dir := run_dir; tr_wandb_config := metadata;
                   tr_kwargs := kwargs |} in
      run Run.call (ETrain tr) (train tr);
      Run.ret (Some metadata)
  end.

(** [_get_reduction_fn] (lines 127-135). *)
Definition _get_reduction_fn (reduction_name : string) : result partial :=
  match
    (if String.eqb reduction_name "max" then
       Return {| p_func := torch_mean; p_dim := [-1; -2]; p_name := None |}
     else if String.eqb reduction_name "mean" then
       Return {| p_func := torch_mean; p_dim := [-1; -2]; p_name := None |}
     else
       Raise (ValueError ("reduction_fn " ++ reduction_name ++ " not supported.")))
  with
  | Return reduction_fn => Return (set_name reduction_fn reduction_name)
  | Raise e => Raise e
  end.

(** The dictionary comprehension of line 123: one [nested_getattr]
    call per item of [layers]. *)
Fixpoint resolve_layers (model : Classifier) (layers : list (string * string))
    : Run.M event (list (string * NNModule)) :=
  match layers with
  | [] => Run.ret []
  | (name, layer) :: r =>
      do m <- Run.call (ENestedGetattr model layer) (nested_getattr model layer);
      do ms <- resolve_layers model r;
      Run.ret ((name, m) :: ms)
  end.

(** Lines 122-123: [layers] stays [None] when it is [None]. *)
Definition layers_of (model : Classifier) (layers : option (list (string * string)))
    : Run.M event (option (list (string * NNModule))) :=
  match layers with
  | Some items => do ms <- resolve_layers model items; Run.ret (Some ms)
  | None => Run.ret None
  end.

(** Lines 125-137: [list(map(_get_reduction_fn, reduction_fns))] when
    [reduction_fns] is not [None]. *)
Definition reduction_fns_of (reduction_fns : option (list string))
    : result (option (list partial)) :=
  match reduction_fns with
  | Some names =>
      match map_result _get_reduction_fn names with
      | Return fs => Return (Some fs)
      | Raise e => Raise e
      end
  | None => Return None
  end.

(** [split_mask] (lines 148-152): [==] against a name, [np.isin]
    against anything else.  [np.isin] looks for the cell among the
    elements of a list or a tuple; a set it takes as one object, which no
    cell is equal to. *)
Definition cell_is (s : string) (v : pyval) : bool :=
  match v with VStr s' => String.eqb s' s | _ => false end.

Definition in_split (split : split_arg) (v : pyval) : bool :=
  match split with
  | SplitStr s => cell_is s v
  | SplitColl l => existsb (fun s => cell_is s v) l
  | SplitSet _ => false
  end.

Definition split_mask_of (dp : DataPanel) (split : split_arg) : result (list bool) :=
  match column rt dp "split" with
  | Return data => Return (in_split split <$> data)
  | Raise e => Raise e
  end.

(** [list(set(score_dp.columns) - set(dp.columns))], in the order of
    the runtime. *)
Definition new_columns (score_dp dp : DataPanel) : list string :=
  set_difference rt (columns score_dp) (columns dp).

(** [score_model] (lines 105-169). *)
Definition score_model (dp : DataPanel) (model : Classifier)
    (target correlate : string) (corr num_examples : pyval)
    (split : split_arg) (input_column id_column : string)
    (layers : option (list (string * string)))
    (reduction_fns : option (list string))
    (run_dir : option string) (kwargs : Kwargs)
    : Run.M event (DataPanel * Metadata) :=
  do layers <- layers_of model layers;
  do reduction_fns <- Run.lift (reduction_fns_of reduction_fns);
  do run_id <- Run.lift (run_id_of run_dir);
  let metadata := mk_metadata target correlate corr num_examples run_id in
  do split_mask <- Run.lift (split_mask_of dp split);
  let sc := {| sc_model := model; sc_dp := lz_mask dp split_mask;
               sc_input_column := input_column; sc_id_column := id_column;
               sc_target_column := target; sc_run_dir := run_dir;
               sc_layers := layers; sc_wandb_config := metadata;
               sc_reduction_fns := reduction_fns; sc_kwargs := kwargs |} in
  do score_dp <- Run.call (EScore sc) (score sc);
  let cols := [id_column; target; correlate; "split"] ++ new_columns score_dp dp in
  do out <- Run.lift (select_columns rt score_dp cols);
  Run.ret (out, metadata).

(** [ray.init], [terra.out], and the run directory that the
    [terra.Task] wrapper hands to the task it runs, by trial number. *)
Variable ray_init : Z -> Z -> result unit.
Variable terra_out : Z -> result DataPanel.
Variable terra_run_dir : nat -> option string.

(** Ray Tune expands the [grid_search] entries of a search space to
    their Cartesian product; the entry written first, [corr], varies
    fastest. *)
Definition grid_configs (space : search_space) : list config :=
  p ← ss_target_correlate space;
  (fun c => {| cfg_corr := c; cfg_target_correlate := p |}) <$> ss_corr space.

(** The trials of [tune.run]: the whole grid, [num_samples] times. *)
Definition trials (space : search_space) (num_samples : nat) : list config :=
  mjoin (replicate num_samples (grid_configs space)).

(** What a trial ends with. *)
Record trial := {
  trial_config : config;
  trial_result : result (option Metadata)
}.

(** A row of [analysis.dataframe()]: the configuration of a trial and
    the mapping it returned. *)
Record row := {
  row_config : config;
  row_result : Metadata
}.

(** The trials taken one after the other, in the order in which Ray
    starts them (Ray may run several at a time, each in a process of its
    own); an exception of a trial is kept and the next trial still
    runs. *)
Fixpoint run_trials (trainable : nat -> config -> Run.M event (option Metadata))
    (i : nat) (cfgs : list config) : list event * list trial :=
  match cfgs with
  | [] => ([], [])
  | c :: r =>
      let '(t, res) := trainable i c in
      let '(t', rs) := run_trials trainable (S i) r in
      (t ++ t', {| trial_config := c; trial_result := res |} :: rs)
  end.

(** The rows of the trials that returned a mapping; a trial that
    returned [None] has reported no result and has no row. *)
Definition rows_of (rs : list trial) : list row :=
  omap (fun t => match trial_result t with
                 | Return (Some metadata) =>
                     Some {| row_config := trial_config t; row_result := metadata |}
                 | _ => None
                 end) rs.

(** [tune.run(trainable, config=space, num_samples=...)] followed by
    [analysis.dataframe()].  With the default [raise_on_failed_trial] a
    trial that raised makes [tune.run] raise once all trials are over. *)
Definition tune_run (trainable : nat -> config -> Run.M event (option Metadata))
    (space : search_space) (num_samples : nat)
    (resources_per_trial : list (string * Z))
    : Run.M event (list row) :=
  let '(t, rs) := run_trials trainable 0 (trials space num_samples) in
  (ETuneRun space num_samples resources_per_trial :: t,
   if forallb (fun r => returns (trial_result r)) rs
   then Return (rows_of rs)
   else Raise (OtherError "TuneError" "Trials did not complete")).

(** [train_linear_slices] (lines 66-102), with its inner
    [_train_model]. *)
Definition _train_model (dp_run_id : Z) (input_column id_column : string)
    (num_examples : pyval) (kwargs : Kwargs) (i : nat) (cfg : config)
    : Run.M event (option Metadata) :=
  do dp <- Run.call (ETerraOut dp_run_id) (terra_out dp_run_id);
  if existsb (fun k => bool_decide (k ∈ kwargs.*1))
             ["pbar"; "corr"; "target_correlate"; "dp"]
  then Run.raise (TypeError "got multiple values for keyword argument")
  else train_model dp (cfg_target_correlate cfg) (VFloat (cfg_corr cfg))
         num_examples input_column id_column (terra_run_dir i)
         (("pbar", VBool false) :: kwargs).

Definition train_linear_slices (dp_run_id : Z)
    (target_correlate_pairs : list (string * string))
    (input_column id_column : string) (max_corr : float) (num_corrs : Z)
    (num_examples : pyval) (num_samples : nat) (kwargs : Kwargs)
    : Run.M event (list row) :=
  run Run.call (ERayInit 4 32) (ray_init 4 32);
  do corrs <- Run.lift (Np.linspace 0 max_corr num_corrs);
  tune_run (_train_model dp_run_id input_column id_column num_examples kwargs)
    {| ss_corr := corrs; ss_target_correlate := target_correlate_pairs |}
    num_samples [("gpu", 1)].

End Collaborators.

Arguments p_func {Tensor} _.
Arguments p_dim {Tensor} _.
Arguments p_name {Tensor} _.
Arguments call_partial {Tensor} _ _.
Arguments set_name {Tensor} _ _.
Arguments sc_model {Classifier NNModule Tensor} _.
Arguments sc_dp {Classifier NNModule Tensor} _.
Arguments sc_input_column {Classifier NNModule Tensor} _.
Arguments sc_id_column {Classifier NNModule Tensor} _.
Arguments sc_target_column {Classifier NNModule Tensor} _.
Arguments sc_run_dir {Classifier NNModule Tensor} _.
Arguments sc_layers {Classifier NNModule Tensor} _.
Arguments sc_wandb_config {Classifier NNModule Tensor} _.
Arguments sc_reduction_fns {Classifier NNModule Tensor} _.
Arguments sc_kwargs {Classifier NNModule Tensor} _.
Arguments EInduceCorrelation {Classifier NNModule Tensor} _.
Arguments EPrint {Classifier NNModule Tensor} _.
Arguments ETrain {Classifier NNModule Tensor} _.
Arguments ENestedGetattr {Classifier NNModule Tensor} _ _.
Arguments EScore {Classifier NNModule Tensor} _.
Arguments ERayInit {Classifier NNModule Tensor} _ _.
Arguments ETerraOut {Classifier NNModule Tensor} _.
Arguments ETuneRun {Classifier NNModule Tensor} _ _ _.
Arguments train_model {Classifier NNModule Tensor} _ _ _ _ _ _ _ _ _ _.
Arguments _get_reduction_fn {Tensor} _ _.
Arguments reduction_fns_of {Tensor} _ _.
Arguments resolve_layers {Classifier NNModule Tensor} _ _ _.
Arguments layers_of {Classifier NNModule Tensor} _ _ _.
Arguments score_model {Classifier NNModule Tensor} _ _ _ _ _ _ _ _ _ _ _ _ _ _ _ _ _.
Arguments run_trials {Classifier NNModule Tensor} _ _ _.
Arguments tune_run {Classifier NNModule Tensor} _ _ _ _.
Arguments _train_model {Classifier NNModule Tensor} _ _ _ _ _ _ _ _ _ _ _.
Arguments train_linear_slices {Classifier NNModule Tensor} _ _ _ _ _ _ _ _ _ _ _ _ _ _.
End Train.

(** ** The pipeline scripts

    [domino/pipelines/imagenet.py] and
    [scratch/sabri/10-03_imagenet_synthetic_method.py] are module bodies:
    a sequence of calls whose results are only handed to later calls.  A
    result is therefore kept as the call that produced it ([PRet]), and
    the environment decides for every call whether it raises. *)
Module Pipelines.
Local Open Scope Q_scope.

(** Python expressions as the scripts build them. *)
Inductive pyv :=
| PNone
| PBool (b : bool)
| PInt (z : Z)
| PFloat (q : Q)
| PStr (s : string)
| PList (l : list pyv)
| PTuple (l : list pyv)
| PDict (items : list (string * pyv))
| PName (n : string)
| PFStr (parts : list pyv)
| PRet (f : string) (args : list pyv) (kwargs : list (string * pyv))
| PItem (v : pyv) (i : nat).

Inductive event :=
| ECall (f : string) (args : list pyv) (kwargs : list (string * pyv))
| EPrint (args : list pyv).

(** The five categories of collaborators of the specification. *)
Inductive stage := Dataset | Embedding | Settings | TrainScore | Discovery.

Definition rank (s : stage) : nat :=
  match s with
  | Dataset => 1 | Embedding => 2 | Settings => 3 | TrainScore => 4
  | Discovery => 5
  end.

Definition named (f : string) (names : list string) : bool :=
  existsb (String.eqb f) names.

(** The category of a called function, by the module it is imported
    from; [None] for a call that belongs to no category ([print], [len],
    ray, nltk, torch, psutil, numpy, methods of a panel). *)
Definition stage_of (f : string) : option stage :=
  if named f ["get_imagenet_dp"; "split_dp"] then Some Dataset
  else if named f ["get_wiki_words"; "embed_words"; "embed_images"] then Some Embedding
  else if named f ["collect_settings"; "concat_settings"; "random_filter_settings"]
  then Some Settings
  else if named f ["synthetic_score_settings"; "train_settings"; "score_settings"]
  then Some TrainScore
  else if named f ["run_sdms"; "score_sdms"] then Some Discovery
  else None.

Definition event_stage (ev : event) : option stage :=
  match ev with
  | ECall f _ _ => stage_of f
  | EPrint _ => None
  end.

(** The categories a trace goes through, call by call. *)
Definition stages (t : list event) : list stage := omap event_stage t.

(** A sequence of categories that never steps back to an earlier one. *)
Fixpoint nondecreasing (l : list nat) : bool :=
  match l with
  | [] => true
  | x :: r => forallb (Nat.leb x) r && nondecreasing r
  end.

Definition downstream (t : list event) : Prop :=
  StronglySorted le (rank <$> stages t).

(** The calls of a trace, without what is printed. *)
Definition is_call (ev : event) : bool :=
  match ev with ECall _ _ _ => true | EPrint _ => false end.

Definition calls (t : list event) : list event := List.filter is_call t.

(** The names of the functions called, in order. *)
Definition call_name (ev : event) : option string :=
  match ev with ECall f _ _ => Some f | EPrint _ => None end.

Definition called (t : list event) : list string := omap call_name t.

(** The functions of one category called, in order. *)
Definition in_stage (s : stage) (f : string) : bool :=
  match stage_of f with
  | Some s' => (rank s' =? rank s)%nat
  | None => false
  end.

Definition stage_calls (s : stage) (t : list event) : list string :=
  List.filter (in_stage s) (called t).

Fixpoint starts_with (next l : list string) : bool :=
  match next, l with
  | [], _ => true
  | n :: next', x :: l' => String.eqb n x && starts_with next' l'
  | _ :: _, [] => false
  end.

(** Wherever [f] is called, the calls that follow begin with [next]. *)
Fixpoint followed_by (f : string) (next : list string) (l : list string) : bool :=
  match l with
  | [] => true
  | x :: r => (if String.eqb x f then starts_with next r else true)
              && followed_by f next r
  end.

(** Two runs with the same calls and the same outcome. *)
Definition same_calls {A} (m m' : Run.M event A) : Prop :=
  calls (Run.trace m) = calls (Run.trace m') /\ Run.outcome m = Run.outcome m'.

(** What [parse_pipeline_args()] returns: the flags of the command
    line. *)
Record pipeline_args := {
  worker_idx : Z;
  num_workers : Z;
  sanity : bool;
  synthetic : bool
}.

Section Scripts.
(** The environment: [raises f args kwargs] is the exception that the
    call raises, if it raises. *)
Variable raises : string -> list pyv -> list (string * pyv) -> option exn.

Definition invoke (f : string) (args : list pyv) (kwargs : list (string * pyv))
    : Run.M event pyv :=
  Run.call (ECall f args kwargs)
    (match raises f args kwargs with
     | Some e => Raise e
     | None => Return (PRet f args kwargs)
     end).

Definition print (args : list pyv) : Run.M event unit :=
  Run.call (EPrint args) (Return tt).

(** Lines 36-40 of the pipeline, 50-54 of the scratch script. *)
Definition find_wordnet : Run.M event unit :=
  Run.try_except
    (run invoke "nltk.data.find" [PStr "corpora/wordnet"] [];
     Run.ret tt)
    (fun e => if is_LookupError e
              then Some (run invoke "nltk.download" [PStr "wordnet"] [];
                         Run.ret tt)
              else None).

(** [domino/pipelines/imagenet.py] *)
Definition imagenet_pipeline : Run.M event unit :=
  do NUM_GPUS <- invoke "torch.cuda.device_count" [] [];
  do NUM_CPUS <- invoke "psutil.cpu_count" [] [];
  run print [PFStr [PStr "Found NUM_GPUS="; NUM_GPUS; PStr ", NUM_CPUS="; NUM_CPUS]];
  run find_wordnet;
  do data_dp <- invoke "get_imagenet_dp" [] [];
  do split <- invoke "split_dp" [] [("dp", data_dp); ("split_on", PStr "image_id")];
  do words_dp <- invoke "get_wiki_words" []
                   [("top_k", PInt 10000); ("eng_only", PBool true)];
  do words_dp <- invoke "embed_words" [] [("words_dp", words_dp)];
  do bit <- invoke "embed_images" []
              [("emb_type", PStr "bit"); ("dp", data_dp); ("split_dp", split);
               ("splits", PList [PStr "valid"; PStr "test"]);
               ("img_column", PStr "image"); ("num_workers", PInt 7);
               ("mmap", PBool true)];
  do imagenet <- invoke "embed_images" []
              [("emb_type", PStr "imagenet"); ("dp", data_dp); ("split_dp", split);
               ("layers", PDict [("emb", PStr "layer4")]);
               ("splits", PList [PStr "valid"; PStr "test"]);
               ("img_column", PStr "image"); ("num_workers", PInt 7);
               ("mmap", PBool true)];
  do random <- invoke "embed_images" []
              [("emb_type", PStr "imagenet"); ("dp", data_dp); ("split_dp", split);
               ("layers", PDict [("emb", PStr "layer4")]);
               ("splits", PList [PStr "valid"; PStr "test"]);
               ("img_column", PStr "image"); ("num_workers", PInt 7);
               ("mmap", PBool true); ("model", PStr "resnet50_random")];
  do clip <- invoke "embed_images" []
              [("emb_type", PStr "clip"); ("dp", data_dp); ("split_dp", split);
               ("splits", PList [PStr "valid"; PStr "test"]);
               ("img_column", PStr "image"); ("num_workers", PInt 7);
               ("mmap", PBool true)];
  let embs := PDict [("bit", bit); ("imagenet", imagenet); ("random", random);
                     ("clip", clip)] in
  do rare <- invoke "collect_settings" []
              [("dataset", PStr "imagenet"); ("slice_category", PStr "rare");
               ("data_dp", data_dp); ("num_slices", PInt 1); ("words_dp", words_dp);
               ("min_slice_frac", PFloat (3 # 100));
               ("max_slice_frac", PFloat (3 # 100)); ("n", PInt 30000)];
  do noisy <- invoke "collect_settings" []
              [("dataset", PStr "imagenet"); ("slice_category", PStr "noisy_label");
               ("data_dp", data_dp); ("num_slices", PInt 1); ("words_dp", words_dp);
               ("min_error_rate", PFloat (1 # 10));
               ("max_error_rate", PFloat (5 # 10)); ("n", PInt 30000);
               ("skip_terra_cache", PBool true)];
  do setting_dp <- invoke "concat_settings" [PList [rare; noisy]] [];
  do setting_dp <- invoke "setting_dp.load" [setting_dp] [];
  do size <- invoke "len" [setting_dp] [];
  do choice <- invoke "np.random.choice" [size; PInt 16] [];
  do setting_dp <- invoke "setting_dp.lz.__getitem__" [setting_dp; choice] [];
  do setting_dp <-
    (if false then
       invoke "synthetic_score_settings" []
         [("setting_dp", setting_dp); ("data_dp", data_dp); ("split_dp", split);
          ("synthetic_kwargs",
           PDict [("sensitivity", PFloat (8 # 10));
                  ("slice_sensitivities", PFloat (4 # 10));
                  ("specificity", PFloat (8 # 10));
                  ("slice_specificities", PFloat (4 # 10))])]
     else
       do trained <- invoke "train_settings" []
              [("setting_dp", setting_dp); ("data_dp", data_dp); ("split_dp", split);
               ("model_config", PDict [("pretrained", PBool false)]);
               ("batch_size", PInt 256); ("val_check_interval", PInt 50);
               ("max_epochs", PInt 1); ("ckpt_monitor", PStr "valid_auroc");
               ("num_gpus", NUM_GPUS); ("num_cpus", NUM_CPUS)];
       let setting_dp := PItem trained 0 in
       do scored <- invoke "score_settings" []
              [("model_dp", setting_dp);
               ("layers", PDict [("layer4", PStr "model.layer4")]);
               ("batch_size", PInt 512); ("reduction_fns", PList [PStr "mean"]);
               ("num_gpus", NUM_GPUS); ("num_cpus", NUM_CPUS);
               ("split", PList [PStr "test"; PStr "valid"])];
       Run.ret (PItem scored 0));
  do grid <- invoke "tune.grid_search" [PList [PTuple [PStr "clip"; PStr "emb"]]] [];
  let common_config := [("n_slices", PInt 5); ("emb", grid);
                        ("xmodal_emb", PStr "emb")] in
  do setting_dp <- invoke "run_sdms" []
              [("setting_dp", setting_dp); ("emb_dp", embs); ("xmodal_emb_dp", clip);
               ("word_dp", words_dp);
               ("sdm_config",
                PList [PDict [("sdm_class", PName "ConfusionSDM");
                              ("sdm_config", PDict common_config)]]);
               ("num_gpus", NUM_GPUS); ("num_cpus", NUM_CPUS);
               ("skip_terra_cache", PBool false)];
  do slices_df <- invoke "score_sdms" []
              [("setting_dp", setting_dp);
               ("spec_columns",
                PList [PStr "emb_group"; PStr "alpha"; PStr "sdm_class"]);
               ("skip_terra_cache", PBool true)];
  Run.ret tt.

(** [scratch/sabri/10-03_imagenet_synthetic_method.py]; [argv] is
    what [parse_pipeline_args()] returns when it returns. *)
Definition imagenet_synthetic_method (argv : pipeline_args) : Run.M event unit :=
  do args <- Run.call (ECall "parse_pipeline_args" [] [])
               (match raises "parse_pipeline_args" [] [] with
                | Some e => Raise e
                | None => Return argv
                end);
  let '(worker_idx, num_workers) := (worker_idx args, num_workers args) in
  run print [PFStr [PStr "worker_idx="; PInt worker_idx;
                    PStr ", num_workers="; PInt num_workers]];
  do NUM_GPUS <- invoke "torch.cuda.device_count" [] [];
  do cpu_count <- invoke "psutil.cpu_count" [] [];
  do NUM_CPUS <- invoke "min" [cpu_count; PInt 64] [];
  run print [PFStr [PStr "Found NUM_GPUS="; NUM_GPUS; PStr ", NUM_CPUS="; NUM_CPUS]];
  run invoke "ray.init" []
        [("num_gpus", NUM_GPUS); ("num_cpus", NUM_CPUS);
         ("ignore_reinit_error", PBool true)];
  run find_wordnet;
  do data_dp <- invoke "get_imagenet_dp" [] [];
  do split <- invoke "split_dp" [] [("dp", data_dp); ("split_on", PStr "image_id")];
  do words_dp <- invoke "get_wiki_words" []
                   [("top_k", PInt 10000); ("eng_only", PBool true)];
  do words_dp <- invoke "embed_words" [] [("words_dp", words_dp)];
  do bit <- invoke "embed_images" []
              [("emb_type", PStr "bit"); ("dp", data_dp); ("split_dp", split);
               ("splits", PList [PStr "valid"; PStr "test"]);
               ("img_column", PStr "image"); ("num_workers", PInt 7);
               ("mmap", PBool true)];
  do random <- invoke "embed_images" []
              [("emb_type", PStr "imagenet"); ("dp", data_dp); ("split_dp", split);
               ("layers", PDict [("emb", PStr "layer4")]);
               ("splits", PList [PStr "valid"; PStr "test"]);
               ("img_column", PStr "image"); ("num_workers", PInt 7);
               ("mmap", PBool true); ("model", PStr "resnet50_random")];
  do clip <- invoke "embed_images" []
              [("emb_type", PStr "clip"); ("dp", data_dp); ("split_dp", split);
               ("splits", PList [PStr "valid"; PStr "test"]);
               ("img_column", PStr "image"); ("num_workers", PInt 7);
               ("mmap", PBool true)];
  let embs := PDict [("bit", bit); ("random", random); ("clip", clip)] in
  do rare <- invoke "collect_settings" []
              [("dataset", PStr "imagenet"); ("slice_category", PStr "rare");
               ("data_dp", data_dp); ("num_slices", PInt 1); ("num_frac", PInt 4);
               ("words_dp", words_dp);
               ("min_slice_frac", PFloat (1 # 100));
               ("max_slice_frac", PFloat (5 # 100)); ("n", PInt 30000)];
  do noisy <- invoke "collect_settings" []
              [("dataset", PStr "imagenet"); ("slice_category", PStr "noisy_label");
               ("data_dp", data_dp); ("num_samples", PInt 4); ("words_dp", words_dp);
               ("min_error_rate", PFloat (1 # 10));
               ("max_error_rate", PFloat (4 # 10)); ("n", PInt 30000)];
  do setting_dp <- invoke "concat_settings" [PList [rare; noisy]] [];
  do loaded <- invoke "setting_dp.load" [setting_dp] [];
  do size <- invoke "len" [loaded] [];
  run print [size];
  do setting_dp <-
    (if sanity args
     then invoke "random_filter_settings" [setting_dp] [("subset_size", PInt 64)]
     else Run.ret setting_dp);
  do setting_dp <-
    (if synthetic args then
       invoke "synthetic_score_settings" []
         [("setting_dp", setting_dp); ("data_dp", data_dp); ("split_dp", split);
          ("synthetic_kwargs",
           PDict [("sensitivity", PFloat (75 # 100));
                  ("slice_sensitivities", PFloat (4 # 10));
                  ("specificity", PFloat (75 # 100));
                  ("slice_specificities", PFloat (4 # 10))])]
     else Run.raise (ValueError ""));
  do grid <- invoke "tune.grid_search" [PList [PTuple [PStr "clip"; PStr "emb"]]] [];
  let common_config := [("n_slices", PInt 5); ("emb", grid);
                        ("xmodal_emb", PStr "emb")] in
  do setting_dp <- invoke "run_sdms" []
              [("setting_dp", setting_dp); ("emb_dp", embs); ("xmodal_emb_dp", clip);
               ("word_dp", words_dp);
               ("sdm_config",
                PList [PDict [("sdm_class", PName "SpotlightSDM");
                              ("sdm_config",
                               PDict (("learning_rate", PFloat (1 # 1000))
                                      :: ("device", PStr "cpu") :: common_config))];
                       PDict [("sdm_class", PName "MultiaccuracySDM");
                              ("sdm_config", PDict common_config)];
                       PDict [("sdm_class", PName "GeorgeSDM");
                              ("sdm_config", PDict common_config)];
                       PDict [("sdm_class", PName "MixtureModelSDM");
                              ("sdm_config",
                               PDict (("weight_y_log_likelihood", PInt 10)
                                      :: common_config))];
                       PDict [("sdm_class", PName "ConfusionSDM");
                              ("sdm_config", PDict common_config)]]);
               ("skip_terra_cache", PBool true)];
  do slices_df <- invoke "score_sdms" []
              [("setting_dp", setting_dp);
               ("spec_columns",
                PList [PStr "emb_group"; PStr "alpha"; PStr "sdm_class"]);
               ("skip_terra_cache", PBool true)];
  Run.ret tt.

Abbreviation find := (raises "nltk.data.find" [PStr "corpora/wordnet"] []).
Abbreviation download := (raises "nltk.download" [PStr "wordnet"] []).

(** What holds of the calls of either script around the look-up of
    WordNet: a [LookupError] is followed by the download and, when the
    download returns, by the first call of the pipeline; another exception
    of the look-up ends the script, with no download. *)
Definition wordnet_handled (names : list string) (r : result unit) : Prop :=
  (forall e, find = Some e -> is_LookupError e = true ->
     followed_by "nltk.data.find" ["nltk.download"] names = true
     /\ (download = None ->
         followed_by "nltk.data.find" ["nltk.download"; "get_imagenet_dp"] names
         = true)
     /\ (forall e', download = Some e' ->
           if named "nltk.download" names
           then r = Raise e' /\ last names = Some "nltk.download"
           else True))
  /\ (forall e, find = Some e -> is_LookupError e = false ->
      named "nltk.download" names = false
      /\ if named "nltk.data.find" names
         then r = Raise e /\ last names = Some "nltk.data.find"
         else True).

End Scripts.

(** An environment in which no call raises, and one in which only the
    look-up of the WordNet corpus fails. *)
Definition all_return : string -> list pyv -> list (string * pyv) -> option exn :=
  fun _ _ _ => None.

Definition wordnet_missing : string -> list pyv -> list (string * pyv) -> option exn :=
  fun f _ _ =>
    if String.eqb f "nltk.data.find"
    then Some (LookupError "Resource wordnet not found.")
    else None.

End Pipelines.

(** ** The grid of [train_linear_slices] as the specification words it

    [num_corrs] correlation values, evenly spaced, from 0 to [max_corr]
    inclusive, and [num_corrs * len(target_correlate_pairs)] distinct
    configurations. *)
Module StatedGrid.
Import Train.



End StatedGrid.

(** ** Concrete inputs

    A small panel and collaborators that answer on it, for running the
    tasks of [train.py]. *)
Module Demo.
Import Train.

Definition dp : DataPanel :=
  {| dp_data :=
       [("file", [VStr "a.png"; VStr "b.png"; VStr "c.png"; VStr "d.png"]);
        ("input", [VInt 10; VInt 11; VInt 12; VInt 13]);
        ("split", [VStr "train"; VStr "test"; VStr "valid"; VStr "test"]);
        ("smiling", [VInt 1; VInt 0; VInt 1; VInt 0]);
        ("male", [VInt 0; VInt 0; VInt 1; VInt 1]);
        ("age", [VInt 31; VInt 45; VInt 27; VInt 60])] |}.

Definition run_dir : option string := Some "/terra/tasks/train_model/_runs/1207".

Abbreviation event := (Train.event unit unit Torch.tensor).

Definition nested_getattr (model : unit) (layer : string) : result unit :=
  if String.eqb layer "model.layer4" then Return tt
  else Raise (OtherError "AttributeError" layer).

(** A correlation of 1 cannot be induced; any other is induced by the
    rows 0 and 3. *)
Definition induce_correlation (a : induce_args) : result (list nat) :=
  match ic_corr a with
  | VFloat x =>
      if PrimFloat.eqb x 1
      then Raise (CorrelationImpossibleError "corr=1 is not achievable")
      else Return [0%nat; 3%nat]
  | _ => Return [0%nat; 3%nat]
  end.

Definition train (a : train_args) : result unit := Return tt.

(** Scoring adds the columns ["pred"] and ["activation_layer4"]. *)
Definition score (a : score_args unit unit Torch.tensor) : result DataPanel :=
  let n := length (default [] (head (dp_data (sc_dp a)).*2)) in
  Return {| dp_data := dp_data (sc_dp a)
                         ++ [("pred", replicate n (VFloat 0.5));
                             ("activation_layer4", replicate n (VFloat 0))] |}.

(** A runtime: the new columns come in the order of their names, and a
    missing column is reported as a [KeyError] with a sentence. *)
Definition rt : runtime.
Proof.
  refine {| missing_column := fun name => KeyError ("column not found: " ++ name);
            missing_columns :=
              fun names => KeyError ("columns not found: "
                                       ++ String.concat ", " names);
            set_difference :=
              fun xs ys => elements ((list_to_set xs : gset string) ∖ list_to_set ys) |}.
  - intros xs ys. apply NoDup_elements.
  - intros xs ys x.
    rewrite elem_of_elements, elem_of_difference, !elem_of_list_to_set. done.
Defined.

(** Another runtime, with the new columns in the opposite order. *)
Definition rt_reversed : runtime.
Proof.
  refine {| missing_column := missing_column rt;
            missing_columns := missing_columns rt;
            set_difference := fun xs ys => reverse (set_difference rt xs ys) |}.
  - intros xs ys. rewrite reverse_Permutation. apply (set_difference_NoDup rt).
  - intros xs ys x. rewrite elem_of_reverse. apply (elem_of_set_difference rt).
Defined.

Definition ray_init (num_gpus num_cpus : Z) : result unit := Return tt.
Definition terra_out (run_id : Z) : result DataPanel := Return dp.
Definition terra_run_dir (i : nat) : option string :=
  Some ("/terra/tasks/train_model/_runs/" ++ pretty (Z.of_nat (1208 + i)))%string.

End Demo.

(** ** Kinds of events of [train.py] *)
Module TrainEvents.
Import Train.
Section Events.
Context {Classifier NNModule Tensor : Type}.
Implicit Types ev : Train.event Classifier NNModule Tensor.

(** The calls of [terra.out]. *)
Definition is_terra_out ev : bool :=
  match ev with ETerraOut _ => true | _ => false end.

(** The calls of [induce_correlation] and of [train]: the work of a
    trial. *)
Definition is_work ev : bool :=
  match ev with EInduceCorrelation _ | ETrain _ => true | _ => false end.

End Events.
End TrainEvents.

(** ** [train.py]: [score_linear_slices] *)
Module ScoreSlices.
Import Train.

(** One record of
    [model_df[["run_id", "target", "correlate", "corr", "num_examples"]].to_dict("records")]:
    [model_df] is given by the rows of these five columns. *)
Record model_record := {
  mr_run_id : Z;
  mr_target : string;
  mr_correlate : string;
  mr_corr : pyval;
  mr_num_examples : pyval
}.

(** What [tune.run] keeps of a trial. *)
Record trial := {
  trial_args : model_record;
  trial_result : result Metadata
}.

Section Collaborators.
Variables Classifier NNModule Tensor : Type.

(** The calls of [score_linear_slices]: those of [train.py] modelled in
    [Train], under [ETask], and its own. *)
Inductive event :=
| EGetArtifacts (run_id : Z) (group_name : string)
| ETuneRun (records : list model_record) (num_samples : nat)
           (resources_per_trial : list (string * Z))
| ETask (ev : Train.event Classifier NNModule Tensor).

Variable torch_mean : Tensor -> list Z -> Tensor.
Variable nested_getattr : Classifier -> string -> result NNModule.
Variable score : score_args Classifier NNModule Tensor -> result DataPanel.
Variable rt : runtime.
Variable ray_init : Z -> Z -> result unit.
Variable terra_out : Z -> result DataPanel.
Variable terra_run_dir : nat -> option string.
(** [terra.get_artifacts(run_id, group_name)], as far as the code looks
    at the mapping returned: its entry ["model"], if it has one. *)
Variable terra_get_artifacts : Z -> string -> result (option Classifier).

(** A computation of [Train] run inside [score_linear_slices]. *)
Definition task {A} (m : Run.M (Train.event Classifier NNModule Tensor) A)
    : Run.M event A :=
  (ETask <$> Run.trace m, Run.outcome m).

(** [artifacts["model"]] *)
Definition model_of (artifacts : option Classifier) : result Classifier :=
  match artifacts with
  | Some model => Return model
  | None => Raise (KeyError "model")
  end.

(** The inner [_score_model] (lines 184-197), as trial number [i].
    The entries [input_column] and [id_column] of [**kwargs], which
    [score_model] binds to its parameters of these names, are given
    apart; [kwargs] holds the other entries.  The arguments of the call
    of [score_model] are evaluated, [terra.out(dp_run_id)] among them,
    before a keyword given twice is noticed. *)
Definition _score_model (dp_run_id : Z) (split : split_arg)
    (layers : option (list (string * string)))
    (reduction_fns : option (list string))
    (input_column id_column : option string) (kwargs : Kwargs)
    (i : nat) (args : model_record) : Run.M event Metadata :=
  do artifacts <- Run.call (EGetArtifacts (mr_run_id args) "best_chkpt")
                    (terra_get_artifacts (mr_run_id args) "best_chkpt");
  do model <- Run.lift (model_of artifacts);
  do dp <- Run.call (ETask (ETerraOut dp_run_id)) (terra_out dp_run_id);
  if existsb (fun k => bool_decide (k ∈ kwargs.*1))
             ["pbar"; "target"; "correlate"; "corr"; "num_examples"; "model"; "dp"]
  then Run.raise (TypeError "got multiple values for keyword argument")
  else
    do ' (_, metadata) <-
      task (score_model torch_mean nested_getattr score rt
              dp model (mr_target args) (mr_correlate args) (mr_corr args)
              (mr_num_examples args) split (default "input" input_column)
              (default "file" id_column) layers reduction_fns (terra_run_dir i)
              (("pbar", VBool false) :: kwargs));
    Run.ret metadata.

(** The trials of [tune.run] over the one [grid_search] entry ["args"]:
    every record, [num_samples] times. *)
Definition trials (records : list model_record) (num_samples : nat)
    : list model_record :=
  mjoin (replicate num_samples records).

Fixpoint run_trials (trainable : nat -> model_record -> Run.M event Metadata)
    (i : nat) (cfgs : list model_record) : list event * list trial :=
  match cfgs with
  | [] => ([], [])
  | c :: r =>
      let '(t, res) := trainable i c in
      let '(t', rs) := run_trials trainable (S i) r in
      (t ++ t', {| trial_args := c; trial_result := res |} :: rs)
  end.

Definition tune_run (trainable : nat -> model_record -> Run.M event Metadata)
    (records : list model_record) (num_samples : nat)
    (resources_per_trial : list (string * Z)) : Run.M event (list trial) :=
  let '(t, rs) := run_trials trainable 0 (trials records num_samples) in
  (ETuneRun records num_samples resources_per_trial :: t,
   if forallb (fun r => returns (trial_result r)) rs
   then Return rs
   else Raise (OtherError "TuneError" "Trials did not complete")).

(** [score_linear_slices] (lines 172-214). *)
Definition score_linear_slices (dp_run_id : Z) (model_df : list model_record)
    (num_samples : nat) (split : split_arg)
    (layers : option (list (string * string)))
    (reduction_fns : option (list string)) (num_gpus num_cpus : Z)
    (input_column id_column : option string) (kwargs : Kwargs)
    : Run.M event (list trial) :=
  run Run.call (ETask (ERayInit num_gpus num_cpus)) (ray_init num_gpus num_cpus);
  tune_run (_score_model dp_run_id split layers reduction_fns input_column
              id_column kwargs)
    model_df num_samples [("gpu", 1)].

End Collaborators.

Arguments EGetArtifacts {Classifier NNModule Tensor} _ _.
Arguments ETuneRun {Classifier NNModule Tensor} _ _ _.
Arguments ETask {Classifier NNModule Tensor} _.
Arguments task {Classifier NNModule Tensor A} _.
Arguments model_of {Classifier} _.
Arguments _score_model {Classifier NNModule Tensor} _ _ _ _ _ _ _ _ _ _ _ _ _ _ _ _.
Arguments run_trials {Classifier NNModule Tensor} _ _ _.
Arguments tune_run {Classifier NNModule Tensor} _ _ _ _.
Arguments score_linear_slices {Classifier NNModule Tensor} _ _ _ _ _ _ _ _ _ _ _ _ _ _
  _ _ _ _ _.

(** The kinds of events counted below. *)
Definition is_get_artifacts {Classifier NNModule Tensor}
    (ev : event Classifier NNModule Tensor) : bool :=
  match ev with EGetArtifacts _ _ => true | _ => false end.

End ScoreSlices.

(** Collaborators of [score_linear_slices] for the examples: the runs 21
    and 22 have a checkpoint with a model, the run 23 has a checkpoint
    without one, and any other run has no checkpoint. *)
Module DemoScore.

Definition terra_get_artifacts (run_id : Z) (group_name : string)
    : result (option unit) :=
  if String.eqb group_name "best_chkpt" then
    if ((run_id =? 21) || (run_id =? 22))%Z then Return (Some tt)
    else if (run_id =? 23)%Z then Return None
    else Raise (OtherError "NoResultFound" "no artifact")
  else Raise (OtherError "NoResultFound" "no artifact").

Definition model_df : list ScoreSlices.model_record :=
  [ {| ScoreSlices.mr_run_id := 21; ScoreSlices.mr_target := "smiling";
       ScoreSlices.mr_correlate := "male"; ScoreSlices.mr_corr := VFloat 0.5;
       ScoreSlices.mr_num_examples := VInt 30000 |};
    {| ScoreSlices.mr_run_id := 22; ScoreSlices.mr_target := "smiling";
       ScoreSlices.mr_correlate := "age"; ScoreSlices.mr_corr := VFloat 0.8;
       ScoreSlices.mr_num_examples := VInt 30000 |} ].

End DemoScore.

(** ** The calls of the scripts and their arguments *)
Module Flow.
Import Pipelines.

(** The arguments of the calls of [f] in a trace, in order. *)
Definition calls_of (f : string) (t : list event)
    : list (list pyv * list (string * pyv)) :=
  omap (fun ev => match ev with
                  | ECall g args kwargs =>
                      if String.eqb g f then Some (args, kwargs) else None
                  | EPrint _ => None
                  end) t.

(** The keyword argument [name] of a call, the entry [name] of a
    dictionary. *)
Fixpoint kwarg (name : string) (kwargs : list (string * pyv)) : option pyv :=
  match kwargs with
  | [] => None
  | (k, v) :: r => if String.eqb k name then Some v else kwarg name r
  end.

(** [v] holds what a call of [f] returned: it is that result, or it has
    it as an entry of a list, a tuple, a dictionary or a formatted text,
    or as a component.  What another call made of it does not count. *)
Fixpoint holds (f : string) (v : pyv) : bool :=
  match v with
  | PRet g _ _ => String.eqb g f
  | PList l | PTuple l | PFStr l => existsb (holds f) l
  | PDict items => existsb (fun kv => holds f kv.2) items
  | PItem v' _ => holds f v'
  | _ => false
  end.

(** The event is given what a call of [f] returned, as an argument. *)
Definition given (f : string) (ev : event) : bool :=
  match ev with
  | ECall _ args kwargs =>
      existsb (holds f) args || existsb (fun kv => holds f kv.2) kwargs
  | EPrint args => existsb (holds f) args
  end.

Section Environment.
Variable raises : string -> list pyv -> list (string * pyv) -> option exn.

(** The look-up of WordNet raises an exception that the scripts catch. *)
Definition wordnet_caught : bool :=
  match raises "nltk.data.find" [PStr "corpora/wordnet"] [] with
  | Some e => is_LookupError e
  | None => false
  end.

(** The environment with the same answer to the look-up of WordNet, as
    far as the scripts tell answers apart, and in which no other call
    raises. *)
Definition calm : string -> list pyv -> list (string * pyv) -> option exn :=
  if wordnet_caught then wordnet_missing else all_return.

(** [m] is the run [m0] cut short by an exception of the environment:
    its events are the first events of [m0]; when it returns, it is
    [m0]; when it raises, it is [m0] or the exception is the one raised
    by its last call. *)
Definition cut_short {A} (m m0 : Run.M event A) : Prop :=
  Run.trace m `prefix_of` Run.trace m0
  /\ match Run.outcome m with
     | Return _ => m = m0
     | Raise e =>
         m = m0
         \/ exists f args kwargs,
              last (Run.trace m) = Some (ECall f args kwargs)
              /\ raises f args kwargs = Some e
     end.

End Environment.
End Flow.

(** * Properties *)

(** ** Computations with a trace *)
Module RunFacts.
Import Run.
Section WithEvents.
Context {E : Type}.

Lemma bind_return {A B} (m : M E A) (f : A -> M E B) a :
  outcome m = Return a ->
  bind m f = (trace m ++ trace (f a), outcome (f a)).
Proof. unfold bind, outcome, trace. intros ->. reflexivity. Qed.

Lemma bind_lift_return {A B} (r : result A) (f : A -> M E B) a :
  r = Return a -> bind (lift r) f = f a.
Proof. intros ->. unfold bind, lift. simpl. destruct (f a); reflexivity. Qed.

Lemma bind_lift_raise {A B} (r : result A) (f : A -> M E B) e :
  r = Raise e -> bind (lift r) f = ([], Raise e).
Proof. intros ->. reflexivity. Qed.

Lemma bind_raise {A B} (m : M E A) (f : A -> M E B) e :
  outcome m = Raise e -> bind m f = (trace m, Raise e).
Proof. unfold bind, outcome, trace. intros ->. reflexivity. Qed.

End WithEvents.
End RunFacts.

(** ** [train.py]: [train_model] *)
Module TrainModelFacts.
Import Run Train.

Section Collaborators.
Context {Classifier NNModule Tensor : Type}.
Variable induce_correlation : induce_args -> result (list nat).
Variable train : train_args -> result unit.

Abbreviation event := (Train.event Classifier NNModule Tensor).

(** C1.  Once [metadata] is built ([run_dir] names a run), a
    [CorrelationImpossibleError] of [induce_correlation] is printed
    and [train_model] returns [None]: [train] is not called and no
    exception leaves the task.  When [induce_correlation] returns row
    numbers of the panel, [train] is called on these rows with
    [metadata] as [wandb_config], and [metadata] is returned once
    [train] returns. *)
Theorem train_model_skips_impossible_correlation
    (dp : DataPanel) (target correlate : string) (corr num_examples : pyval)
    (input_column id_column : string) (run_dir : option string)
    (kwargs : Kwargs) (run_id : Z) :
  run_id_of run_dir = Return run_id ->
  let metadata := mk_metadata target correlate corr num_examples run_id in
  let ic := {| ic_dp := dp; ic_corr := corr; ic_attr_a := target;
               ic_attr_b := correlate; ic_n := num_examples;
               ic_match_mu := true |} in
  let r : M event (option Metadata) :=
    train_model induce_correlation train dp (target, correlate) corr
      num_examples input_column id_column run_dir kwargs in
  (forall msg,
      induce_correlation ic = Raise (CorrelationImpossibleError msg) ->
      trace r = [EInduceCorrelation ic; EPrint (CorrelationImpossibleError msg)]
      /\ outcome r = Return None
      /\ (forall a, ETrain a ∉ trace r))
  /\ (forall indices rows,
      induce_correlation ic = Return indices ->
      lz_rows dp indices = Return rows ->
      let tr := {| tr_dp := rows; tr_input_column := input_column;
                   tr_id_column := id_column; tr_target_column := target;
                   tr_run_dir := run_dir; tr_wandb_config := metadata;
                   tr_kwargs := kwargs |} in
      trace r = [EInduceCorrelation ic; ETrain tr]
      /\ (train tr = Return tt -> outcome r = Return (Some metadata))).
Proof.
  intros Hid metadata ic r. subst r. unfold train_model.
  rewrite (RunFacts.bind_lift_return _ _ _ Hid). fold metadata ic.
  split.
  - intros msg Hic.
    unfold bind, try_except, call, ret, lift, trace, outcome; simpl.
    rewrite Hic; simpl. split; [reflexivity|]. split; [reflexivity|].
    intros a Ha. apply elem_of_cons in Ha as [Ha|Ha]; [discriminate|].
    apply elem_of_cons in Ha as [Ha|Ha]; [discriminate|].
    by apply elem_of_nil in Ha.
  - intros indices rows Hic Hrows.
    unfold bind, try_except, call, ret, lift, trace, outcome; simpl.
    rewrite Hic; simpl. rewrite Hrows; simpl.
    destruct (train _) as [[]|e]; simpl; (split; [reflexivity|]);
      [reflexivity | discriminate].
Qed.
End Collaborators.

(** On the panel of [Demo], a correlation of 1 is skipped. *)
Lemma train_model_skips_impossible_correlation_witness :
  Train.run_id_of Demo.run_dir = Return 1207
  /\ outcome (train_model (Classifier := unit) (NNModule := unit)
                (Tensor := Torch.tensor) Demo.induce_correlation Demo.train
                Demo.dp ("smiling", "male") (VFloat 1) (VInt 30000)
                "input" "file" Demo.run_dir [])
     = Return None.
Proof.
  split; [reflexivity|].
  refine (proj1 (proj2 (proj1 (train_model_skips_impossible_correlation
            (Classifier := unit) (NNModule := unit) (Tensor := Torch.tensor)
            Demo.induce_correlation Demo.train Demo.dp "smiling" "male"
            (VFloat 1) (VInt 30000) "input" "file" Demo.run_dir [] 1207 _)
            "corr=1 is not achievable" _))).
  - reflexivity.
  - reflexivity.
Defined.

(** On the same panel, a correlation of 1/2 is induced by the rows 0 and 3:
    [train] is called on these two rows and [metadata] is returned. *)
Example train_model_trains_on_induced_rows :
  exists metadata a,
    train_model (Classifier := unit) (NNModule := unit) (Tensor := Torch.tensor)
      Demo.induce_correlation Demo.train Demo.dp ("smiling", "male")
      (VFloat 0.5) (VInt 30000) "input" "file" Demo.run_dir []
    = ([EInduceCorrelation a;
        ETrain {| tr_dp := {| dp_data :=
                                [("file", [VStr "a.png"; VStr "d.png"]);
                                 ("input", [VInt 10; VInt 13]);
                                 ("split", [VStr "train"; VStr "test"]);
                                 ("smiling", [VInt 1; VInt 0]);
                                 ("male", [VInt 0; VInt 1]);
                                 ("age", [VInt 31; VInt 60])] |};
                  tr_input_column := "input"; tr_id_column := "file";
                  tr_target_column := "smiling"; tr_run_dir := Demo.run_dir;
                  tr_wandb_config := metadata; tr_kwargs := [] |}],
       Return (Some metadata))
    /\ metadata !! "run_id" = Some (VInt 1207)
    /\ metadata !! "corr" = Some (VFloat 0.5).
Proof.
  exists (mk_metadata "smiling" "male" (VFloat 0.5) (VInt 30000) 1207).
  eexists. split; [vm_compute; reflexivity|]. split; vm_compute; reflexivity.
Qed.

End TrainModelFacts.

(** ** Sequences built element by element, and panels *)
Module PanelFacts.

Lemma map_result_returns {A B} (f : A -> result B) (xs : list A) :
  Forall (fun x => exists y, f x = Return y) xs ->
  exists ys, map_result f xs = Return ys /\ Forall2 (fun x y => f x = Return y) xs ys.
Proof.
  induction 1 as [|x r [y Hy] _ (ys & Hys & Hall)]; simpl.
  - exists []. split; [reflexivity | constructor].
  - rewrite Hy, Hys. exists (y :: ys). split; [reflexivity | by constructor].
Qed.

Lemma map_result_raises {A B} (f : A -> result B) (xs : list A) :
  Exists (fun x => exists e, f x = Raise e) xs ->
  exists bad e, bad ∈ xs /\ f bad = Raise e /\ map_result f xs = Raise e.
Proof.
  induction xs as [|x r IH]; intros Hex; [by apply Exists_nil in Hex|].
  simpl. destruct (f x) as [y|e] eqn:Hx.
  - apply Exists_cons in Hex as [[e He]|Hex]; [congruence|].
    destruct (IH Hex) as (bad & e & Hin & Hbad & ->).
    exists bad, e. split; [by right | done].
  - exists x, e. split; [by left | done].
Qed.

Lemma map_result_fmap_fst {A B C} (f : A -> result B) (g : A -> C)
    (h : B -> C) (xs : list A) (ys : list B) :
  (forall x y, f x = Return y -> h y = g x) ->
  map_result f xs = Return ys -> h <$> ys = g <$> xs.
Proof.
  intros Hfg. revert ys. induction xs as [|x r IH]; simpl; intros ys.
  - by intros [= <-].
  - destruct (f x) as [y|] eqn:Hx; [|discriminate].
    destruct (map_result f r) as [ys'|]; [|discriminate].
    intros [= <-]. rewrite !fmap_cons. by rewrite (Hfg _ _ Hx), (IH ys').
Qed.


(** [dp[name]] raises for a name that is not a column of [dp]. *)
Lemma column_raises (rt : runtime) (dp : DataPanel) (name : string) :
  name ∉ columns dp -> column rt dp name = Raise (missing_column rt name).
Proof.
  unfold column, columns. intros Hnot.
  assert (assoc name (dp_data dp) = None) as ->; [|done].
  induction (dp_data dp) as [|[k v] r IH]; simpl in *; [done|].
  destruct (String.eqb_spec name k) as [->|Hne].
  - destruct Hnot. by left.
  - apply IH. intros Hin. apply Hnot. by right.
Qed.

(** [dp[cols]] raises as soon as [dp] lacks one of the names, the
    exception being the one for all the names it lacks. *)
Lemma select_columns_raises (rt : runtime) (dp : DataPanel) (cols : list string)
    (c : string) :
  c ∈ cols -> c ∉ columns dp ->
  select_columns rt dp cols = Raise (missing_columns rt (lacking dp cols)).
Proof.
  intros Hin Hnot. unfold select_columns.
  destruct (map_result_raises
              (fun c => match column rt dp c with
                        | Return d => Return (c, d)
                        | Raise e => Raise e
                        end) cols) as (bad & e & _ & _ & ->); [|done].
  apply Exists_exists. exists c. split; [done|].
  rewrite (column_raises rt dp c Hnot). eauto.
Qed.

(** [dp[cols]] returns when every name of [cols] is a column of [dp]. *)
Lemma select_columns_returns (rt : runtime) (dp : DataPanel) (cols : list string) :
  Forall (fun c => c ∈ columns dp) cols ->
  exists out, select_columns rt dp cols = Return out.
Proof.
  intros Hall. unfold select_columns.
  assert (Forall (fun c => exists y,
                    match column rt dp c with
                    | Return d => Return (c, d)
                    | Raise e => Raise e
                    end = Return y) cols) as Hcols.
  { eapply Forall_impl; [exact Hall|]. clear Hall. intros c Hc. simpl.
    unfold column, columns in *.
    assert (exists cells, assoc c (dp_data dp) = Some cells) as [cells ->]; [|eauto].
    induction (dp_data dp) as [|[k v] r IH]; simpl in *; [by apply elem_of_nil in Hc|].
    destruct (String.eqb c k) eqn:Hk; [eauto|].
    apply elem_of_cons in Hc as [->|Hc]; [by rewrite String.eqb_refl in Hk | auto]. }
  destruct (map_result_returns _ _ Hcols) as (d & -> & _). eauto.
Qed.





Lemma columns_lz_mask (dp : DataPanel) (mask : list bool) :
  columns (lz_mask dp mask) = columns dp.
Proof.
  unfold columns, lz_mask. simpl. rewrite <- list_fmap_compose.
  by apply list_fmap_ext.
Qed.

End PanelFacts.

(** ** [train.py]: [score_model] *)
Module ScoreModelFacts.
Import Run Train.

(** The columns that [score_model] keeps can be selected as soon as the
    scored panel has the four columns that [score_model] names. *)
Lemma kept_columns_exist (rt : runtime) (score_dp dp : DataPanel)
    (id_column target correlate : string) :
  Forall (fun c => c ∈ columns score_dp) [id_column; target; correlate; "split"] ->
  exists out,
    select_columns rt score_dp
      ([id_column; target; correlate; "split"] ++ new_columns rt score_dp dp)
    = Return out.
Proof.
  intros Hnamed. apply PanelFacts.select_columns_returns, Forall_app.
  split; [done|]. apply Forall_forall. intros c Hc. unfold new_columns in Hc.
  by apply elem_of_set_difference in Hc as [Hc _].
Qed.

Section Collaborators.
Context {Classifier NNModule Tensor : Type}.
Variable torch_mean : Tensor -> list Z -> Tensor.
Variable nested_getattr : Classifier -> string -> result NNModule.
Variable score : score_args Classifier NNModule Tensor -> result DataPanel.
Variable rt : runtime.

Abbreviation event := (Train.event Classifier NNModule Tensor).

(** The reduction built for a name. *)
Lemma get_reduction_fn_supported (name : string) :
  name = "max" \/ name = "mean" ->
  _get_reduction_fn torch_mean name
  = Return {| p_func := torch_mean; p_dim := [-1; -2]; p_name := Some name |}.
Proof. by intros [-> | ->]. Qed.

Lemma get_reduction_fn_unsupported (name : string) :
  name <> "max" -> name <> "mean" ->
  _get_reduction_fn torch_mean name
  = Raise (ValueError ("reduction_fn " ++ name ++ " not supported.")).
Proof.
  intros Hmax Hmean. unfold _get_reduction_fn.
  apply String.eqb_neq in Hmax, Hmean. by rewrite Hmax, Hmean.
Qed.

Lemma get_reduction_fn_raises_inv (name : string) (e : exn) :
  _get_reduction_fn torch_mean name = Raise e ->
  name <> "max" /\ name <> "mean"
  /\ e = ValueError ("reduction_fn " ++ name ++ " not supported.").
Proof.
  unfold _get_reduction_fn.
  destruct (String.eqb name "max") eqn:Hmax; [discriminate|].
  destruct (String.eqb name "mean") eqn:Hmean; [discriminate|].
  apply String.eqb_neq in Hmax, Hmean. by intros [= <-].
Qed.

(** [score_model] up to the call of [score], once the steps before it
    have returned. *)
Lemma score_model_reaches_score
    (dp : DataPanel) (model : Classifier) (target correlate : string)
    (corr num_examples : pyval) (split : split_arg)
    (input_column id_column : string) (layers : option (list (string * string)))
    (reduction_fns : option (list string)) (run_dir : option string)
    (kwargs : Kwargs) ls fns run_id mask :
  outcome (layers_of (Tensor := Tensor) nested_getattr model layers) = Return ls ->
  reduction_fns_of torch_mean reduction_fns = Return fns ->
  run_id_of run_dir = Return run_id ->
  split_mask_of rt dp split = Return mask ->
  let metadata := mk_metadata target correlate corr num_examples run_id in
  let sc := {| sc_model := model; sc_dp := lz_mask dp mask;
               sc_input_column := input_column; sc_id_column := id_column;
               sc_target_column := target; sc_run_dir := run_dir;
               sc_layers := ls; sc_wandb_config := metadata;
               sc_reduction_fns := fns; sc_kwargs := kwargs |} in
  score_model torch_mean nested_getattr score rt dp model target correlate corr
    num_examples split input_column id_column layers reduction_fns run_dir kwargs
  = (trace (layers_of (Tensor := Tensor) nested_getattr model layers) ++ [EScore sc],
     match score sc with
     | Return score_dp =>
         match select_columns rt score_dp
                 ([id_column; target; correlate; "split"] ++ new_columns rt score_dp dp)
         with
         | Return out => Return (out, metadata)
         | Raise e => Raise e
         end
     | Raise e => Raise e
     end).
Proof.
  intros Hls Hfns Hid Hmask metadata sc. unfold score_model.
  rewrite (RunFacts.bind_return _ _ _ Hls).
  rewrite (RunFacts.bind_lift_return _ _ _ Hfns).
  rewrite (RunFacts.bind_lift_return _ _ _ Hid).
  rewrite (RunFacts.bind_lift_return _ _ _ Hmask).
  fold metadata sc. unfold bind, call, lift, ret, trace, outcome. simpl.
  destruct (score sc) as [score_dp|e]; simpl; [|reflexivity].
  destruct (select_columns rt score_dp _); simpl; by rewrite ?app_nil_r.
Qed.

(** [resolve_layers] only calls [nested_getattr]. *)
Lemma resolve_layers_no_score (model : Classifier) (items : list (string * string)) :
  forall sc, EScore sc ∉ trace (resolve_layers (Tensor := Tensor) nested_getattr model items).
Proof.
  intros sc. induction items as [|[name layer] r IH]; simpl.
  - apply not_elem_of_nil.
  - unfold bind, call, ret, trace in *. simpl.
    destruct (nested_getattr model layer); simpl.
    + destruct (snd (resolve_layers (Tensor := Tensor) nested_getattr model r)); simpl;
        rewrite ?app_nil_r; intros [|]%elem_of_cons; done.
    + intros [|H]%elem_of_cons; [done | by apply elem_of_nil in H].
Qed.

Lemma layers_of_no_score (model : Classifier) (layers : option (list (string * string))) :
  forall sc, EScore sc ∉ trace (layers_of (Tensor := Tensor) nested_getattr model layers).
Proof.
  intros sc. destruct layers as [items|]; simpl; [|apply not_elem_of_nil].
  unfold bind, ret, trace. simpl.
  pose proof (resolve_layers_no_score model items sc) as H. unfold trace in H.
  destruct (snd (resolve_layers (Tensor := Tensor) nested_getattr model items)); simpl;
    by rewrite ?app_nil_r.
Qed.


(** C4, amended.  The layers are looked up before the names of the
    reductions are read: when a look-up raises, [score_model] raises
    that exception, whatever the names are.  With [layers] resolved, a
    name of [reduction_fns] other than ["max"] and ["mean"] makes
    [score_model] raise the [ValueError] of [_get_reduction_fn] for such
    a name, before [score] is called; when every name is ["max"] or
    ["mean"], a reduction is built for each name and [score_model] goes
    on to call [score] with them. *)
Theorem score_model_rejects_unsupported_reduction
    (dp : DataPanel) (model : Classifier) (target correlate : string)
    (corr num_examples : pyval) (split : split_arg)
    (input_column id_column : string) (layers : option (list (string * string)))
    (names : list string) (run_dir : option string) (kwargs : Kwargs) :
  let r : M event (DataPanel * Metadata) :=
    score_model torch_mean nested_getattr score rt dp model target correlate corr
      num_examples split input_column id_column layers (Some names) run_dir kwargs in
  (forall e,
     outcome (layers_of (Tensor := Tensor) nested_getattr model layers) = Raise e ->
     outcome r = Raise e /\ forall sc, EScore sc ∉ trace r)
  /\ (forall ls,
      outcome (layers_of (Tensor := Tensor) nested_getattr model layers) = Return ls ->
      (Exists (fun name => name <> "max" /\ name <> "mean") names ->
       exists bad,
         bad ∈ names /\ bad <> "max" /\ bad <> "mean"
         /\ outcome r = Raise (ValueError ("reduction_fn " ++ bad ++ " not supported."))
         /\ forall sc, EScore sc ∉ trace r)
      /\ (Forall (fun name => name = "max" \/ name = "mean") names ->
          exists fns,
            map_result (_get_reduction_fn torch_mean) names = Return fns
            /\ p_name <$> fns = Some <$> names
            /\ forall run_id mask,
                 run_id_of run_dir = Return run_id ->
                 split_mask_of rt dp split = Return mask ->
                 exists sc, EScore sc ∈ trace r /\ sc_reduction_fns sc = Some fns)).
Proof.
  intros r. subst r. split.
  { intros e He. unfold score_model. rewrite (RunFacts.bind_raise _ _ e He).
    split; [reflexivity|]. apply layers_of_no_score. }
  intros ls Hls. split.
  - intros Hex.
    destruct (PanelFacts.map_result_raises (_get_reduction_fn torch_mean) names)
      as (bad & e & Hin & Hbad & Hmap).
    { eapply Exists_impl; [exact Hex|]. intros name [Hmax Hmean]. simpl.
      rewrite get_reduction_fn_unsupported by done. eauto. }
    apply get_reduction_fn_raises_inv in Hbad as (Hmax & Hmean & ->).
    exists bad. repeat (split; [done|]).
    unfold score_model. rewrite (RunFacts.bind_return _ _ _ Hls).
    rewrite (RunFacts.bind_lift_raise _ _ (ValueError ("reduction_fn " ++ bad ++ " not supported."))).
    2:{ unfold reduction_fns_of. by rewrite Hmap. }
    unfold outcome, trace. simpl. rewrite app_nil_r. split; [reflexivity|].
    apply layers_of_no_score.
  - intros Hall.
    destruct (PanelFacts.map_result_returns (_get_reduction_fn torch_mean) names)
      as (fns & Hmap & Hfns).
    { eapply Forall_impl; [exact Hall|]. intros name Hname. simpl.
      rewrite get_reduction_fn_supported by done. eauto. }
    exists fns. split; [done|]. split.
    { apply (PanelFacts.map_result_fmap_fst _ Some p_name) in Hmap.
      - exact Hmap.
      - intros name f Hf. destruct (String.eqb name "max") eqn:Hmax;
          unfold _get_reduction_fn in Hf; rewrite Hmax in Hf;
          [by injection Hf as <-|].
        destruct (String.eqb name "mean"); [by injection Hf as <-|discriminate]. }
    intros run_id mask Hid Hmask.
    erewrite score_model_reaches_score; [|exact Hls| |exact Hid|exact Hmask].
    2:{ unfold reduction_fns_of. by rewrite Hmap. }
    eexists. split.
    + unfold trace. simpl. apply elem_of_app. right. by left.
    + reflexivity.
Qed.

(** C7.  When the steps of [score_model] return, its result is the pair
    of the scored panel, cut to the columns kept, and of [metadata], whose
    keys are exactly [target], [correlate], [corr], [num_examples] and
    [run_id]: the first four hold the arguments, and [run_id] holds the
    integer that the base name of [run_dir] spells. *)
Theorem score_model_returns_panel_and_metadata
    (dp : DataPanel) (model : Classifier) (target correlate : string)
    (corr num_examples : pyval) (split : split_arg)
    (input_column id_column : string) (layers : option (list (string * string)))
    (reduction_fns : option (list string)) (run_dir : string)
    (kwargs : Kwargs) ls fns run_id mask score_dp out :
  outcome (layers_of (Tensor := Tensor) nested_getattr model layers) = Return ls ->
  reduction_fns_of torch_mean reduction_fns = Return fns ->
  Py.int (Py.basename_str run_dir) = Return run_id ->
  split_mask_of rt dp split = Return mask ->
  score {| sc_model := model; sc_dp := lz_mask dp mask;
           sc_input_column := input_column; sc_id_column := id_column;
           sc_target_column := target; sc_run_dir := Some run_dir;
           sc_layers := ls;
           sc_wandb_config := mk_metadata target correlate corr num_examples run_id;
           sc_reduction_fns := fns; sc_kwargs := kwargs |} = Return score_dp ->
  select_columns rt score_dp
    ([id_column; target; correlate; "split"] ++ new_columns rt score_dp dp) = Return out ->
  exists metadata : Metadata,
    outcome (score_model torch_mean nested_getattr score rt dp model target correlate
               corr num_examples split input_column id_column layers reduction_fns
               (Some run_dir) kwargs)
    = Return (out, metadata)
    /\ dom metadata
       = ({["target"; "correlate"; "corr"; "num_examples"; "run_id"]} : gset string)
    /\ metadata !! "target" = Some (VStr target)
    /\ metadata !! "correlate" = Some (VStr correlate)
    /\ metadata !! "corr" = Some corr
    /\ metadata !! "num_examples" = Some num_examples
    /\ metadata !! "run_id" = Some (VInt run_id).
Proof.
  intros Hls Hfns Hid Hmask Hscore Hout.
  exists (mk_metadata target correlate corr num_examples run_id).
  split.
  - erewrite score_model_reaches_score; [|exact Hls|exact Hfns|exact Hid|exact Hmask].
    unfold outcome. cbn [snd]. by rewrite Hscore, Hout.
  - unfold mk_metadata. split.
    + rewrite !dom_insert_L, dom_empty_L. set_solver.
    + by repeat split.
Qed.

(** C8.  The reduction built for ["max"] is the one built for ["mean"]:
    [torch.mean] with [dim=[-1, -2]], under another [__name__].  The two
    give the same result on every tensor, and on the 1 x 2 tensor
    [[1, 3]] the reduction named ["max"] gives the mean 2, where the
    maximum is 3. *)
Theorem max_reduction_is_mean :
  (exists fmax fmean,
     _get_reduction_fn torch_mean "max" = Return fmax
     /\ _get_reduction_fn torch_mean "mean" = Return fmean
     /\ p_func fmax = torch_mean /\ p_func fmean = torch_mean
     /\ p_dim fmax = [-1; -2] /\ p_dim fmean = [-1; -2]
     /\ p_name fmax = Some "max" /\ p_name fmean = Some "mean"
     /\ forall t : Tensor,
          call_partial fmax t = call_partial fmean t
          /\ call_partial fmax t = torch_mean t [-1; -2])
  /\ (exists fmax,
       _get_reduction_fn Torch.mean "max" = Return fmax
       /\ call_partial fmax (Torch.Stack [Torch.Stack [Torch.Scalar 1; Torch.Scalar 3]])
          = Torch.Scalar 2
       /\ Torch.spec_max (Torch.Stack [Torch.Stack [Torch.Scalar 1; Torch.Scalar 3]])
          = Torch.Scalar 3).
Proof.
  split.
  - do 2 eexists. repeat (split; [reflexivity|]). by intros; split.
  - eexists. split; [reflexivity|]. by split.
Qed.


End Collaborators.

(** On the panel of [Demo], ["median"] is rejected. *)
Lemma score_model_rejects_unsupported_reduction_witness :
  outcome (layers_of (Tensor := Torch.tensor) Demo.nested_getattr tt
             (Some [("layer4", "model.layer4")]))
  = Return (Some [("layer4", tt)])
  /\ outcome (score_model Torch.mean Demo.nested_getattr Demo.score Demo.rt Demo.dp tt
                "smiling" "male" (VFloat 0.5) (VInt 30000)
                (SplitColl ["test"; "valid"]) "input" "file"
                (Some [("layer4", "model.layer4")]) (Some ["mean"; "median"])
                Demo.run_dir [])
     = Raise (ValueError "reduction_fn median not supported.").
Proof.
  split; [reflexivity|].
  destruct (score_model_rejects_unsupported_reduction Torch.mean
              Demo.nested_getattr Demo.score Demo.rt Demo.dp tt "smiling" "male"
              (VFloat 0.5) (VInt 30000) (SplitColl ["test"; "valid"])
              "input" "file" (Some [("layer4", "model.layer4")])
              ["mean"; "median"] Demo.run_dir []) as [_ Hnames].
  destruct (Hnames (Some [("layer4", tt)]) eq_refl) as [Hbad _].
  destruct Hbad as (bad & Hin & _ & Hmean & Hout & _).
  - apply Exists_cons_tl, Exists_cons_hd. split; discriminate.
  - apply elem_of_cons in Hin as [->|Hin]; [done|].
    apply list_elem_of_singleton in Hin as ->. exact Hout.
Defined.

(** On the panel of [Demo], with the run directory [.../1207]. *)
Lemma score_model_returns_panel_and_metadata_witness :
  exists out (metadata : Metadata),
    outcome (score_model Torch.mean Demo.nested_getattr Demo.score Demo.rt Demo.dp tt
               "smiling" "male" (VFloat 0.5) (VInt 30000)
               (SplitColl ["test"; "valid"]) "input" "file"
               (Some [("layer4", "model.layer4")]) (Some ["mean"])
               (Some "/terra/tasks/score_model/_runs/1207") [])
    = Return (out, metadata)
    /\ metadata !! "run_id" = Some (VInt 1207).
Proof.
  edestruct (score_model_returns_panel_and_metadata Torch.mean
               Demo.nested_getattr Demo.score Demo.rt Demo.dp tt "smiling" "male"
               (VFloat 0.5) (VInt 30000) (SplitColl ["test"; "valid"])
               "input" "file" (Some [("layer4", "model.layer4")]) (Some ["mean"])
               "/terra/tasks/score_model/_runs/1207" [])
    as (metadata & Hout & _ & _ & _ & _ & _ & Hid); [vm_compute; reflexivity ..|].
  eauto.
Defined.


(** C4 as stated fails: with a layer that the model does not have, the
    unsupported name ["median"] is never read; [score_model] raises the
    [AttributeError] of the look-up, not a [ValueError]. *)
Lemma unsupported_reduction_behind_a_missing_layer :
  outcome (score_model Torch.mean Demo.nested_getattr Demo.score Demo.rt Demo.dp tt
             "smiling" "male" (VFloat 0.5) (VInt 30000) (SplitStr "test")
             "input" "file" (Some [("fc", "model.fc")]) (Some ["median"])
             Demo.run_dir [])
  = Raise (OtherError "AttributeError" "model.fc").
Proof. vm_compute. reflexivity. Qed.


(** The order of the new columns is the one of the runtime: under
    another runtime the same call returns them the other way round. *)
Example new_columns_in_the_order_of_the_runtime :
  exists out out' metadata,
    outcome (score_model Torch.mean Demo.nested_getattr Demo.score Demo.rt Demo.dp
               tt "smiling" "male" (VFloat 0.5) (VInt 30000) (SplitStr "test")
               "input" "file" None None Demo.run_dir [])
    = Return (out, metadata)
    /\ outcome (score_model Torch.mean Demo.nested_getattr Demo.score
                  Demo.rt_reversed Demo.dp tt "smiling" "male" (VFloat 0.5)
                  (VInt 30000) (SplitStr "test") "input" "file" None None
                  Demo.run_dir [])
       = Return (out', metadata)
    /\ columns out = ["file"; "smiling"; "male"; "split"; "activation_layer4"; "pred"]
    /\ columns out' = ["file"; "smiling"; "male"; "split"; "pred"; "activation_layer4"].
Proof.
  do 3 eexists. split; [vm_compute; reflexivity|].
  split; [vm_compute; reflexivity|]. split; reflexivity.
Qed.

End ScoreModelFacts.

(** ** [numpy.linspace] *)
Module NpFacts.

Lemma linspace_returns (start stop : float) (num : Z) :
  (0 <= num)%Z ->
  exists y, Np.linspace start stop num = Return y /\ length y = Z.to_nat num.
Proof.
  intros Hnum. unfold Np.linspace.
  destruct (Z.ltb_spec num 0) as [?|_]; [lia|].
  eexists. split; [reflexivity|].
  destruct (1 <? num)%Z; rewrite ?length_insert;
    destruct (0 <? num - 1)%Z; try destruct (PrimFloat.eqb _ _);
    by rewrite !length_fmap, length_seq.
Qed.

Lemma linspace_negative (start stop : float) (num : Z) :
  (num < 0)%Z ->
  Np.linspace start stop num
  = Raise (ValueError ("Number of samples, " ++ pretty num
                         ++ ", must be non-negative.")).
Proof.
  intros Hnum. unfold Np.linspace. by destruct (Z.ltb_spec num 0); [|lia].
Qed.




End NpFacts.

(** ** [train.py]: [train_linear_slices] *)
Module TrainLinearSlicesFacts.
Import Run Train.

(** The grid of a search space is the Cartesian product of its two
    lists. *)
Lemma elem_of_grid_configs (space : search_space) (cfg : config) :
  cfg ∈ grid_configs space <->
  cfg_corr cfg ∈ ss_corr space /\ cfg_target_correlate cfg ∈ ss_target_correlate space.
Proof.
  unfold grid_configs. rewrite list_elem_of_bind. split.
  - intros (p & Hin & Hp). apply list_elem_of_fmap in Hin as (c & -> & Hc). done.
  - intros [Hc Hp]. exists (cfg_target_correlate cfg). split; [|done].
    apply list_elem_of_fmap. exists (cfg_corr cfg). by destruct cfg.
Qed.

Lemma length_grid_configs (space : search_space) :
  length (grid_configs space)
  = (length (ss_corr space) * length (ss_target_correlate space))%nat.
Proof.
  unfold grid_configs. induction (ss_target_correlate space) as [|p r IH].
  - by rewrite Nat.mul_0_r.
  - rewrite bind_cons, length_app, length_fmap, IH. cbn [length]. lia.
Qed.



Lemma length_trials (space : search_space) (num_samples : nat) :
  length (trials space num_samples)
  = (num_samples * length (grid_configs space))%nat.
Proof.
  unfold trials. rewrite length_join, fmap_replicate. apply sum_list_replicate.
Qed.


Section Collaborators.
Context {Classifier NNModule Tensor : Type}.
Variable induce_correlation : induce_args -> result (list nat).
Variable train : train_args -> result unit.
Variable ray_init : Z -> Z -> result unit.
Variable terra_out : Z -> result DataPanel.
Variable terra_run_dir : nat -> option string.

Abbreviation event := (Train.event Classifier NNModule Tensor).



End Collaborators.



(** In a grid of the correlations 0 and 1 the second configuration cannot
    be induced: its trial prints the error and returns [None], so that
    [tune.run] returns, with the one row of the other trial. *)
Example impossible_correlation_skips_one_trial :
  exists metadata,
    outcome (train_linear_slices (Classifier := unit) (NNModule := unit)
               (Tensor := Torch.tensor) Demo.induce_correlation Demo.train
               Demo.ray_init Demo.terra_out Demo.terra_run_dir 7
               [("smiling", "male")] "input" "file" 1 2 (VInt 30000) 1 [])
    = Return [{| row_config := {| cfg_corr := 0;
                                  cfg_target_correlate := ("smiling", "male") |};
                 row_result := metadata |}]
    /\ metadata !! "run_id" = Some (VInt 1208).
Proof.
  eexists. split; [vm_compute; reflexivity|]. reflexivity.
Qed.

(** With two values and two pairs, the value varies fastest. *)
Example grid_configs_varies_corr_fastest :
  (fun cfg => (cfg_corr cfg, cfg_target_correlate cfg))
    <$> grid_configs {| ss_corr := [0; 0.8]%float;
                        ss_target_correlate :=
                          [("smiling", "male"); ("smiling", "age")] |}
  = [(0, ("smiling", "male")); (0.8, ("smiling", "male"));
     (0, ("smiling", "age")); (0.8, ("smiling", "age"))]%float.
Proof. reflexivity. Qed.

End TrainLinearSlicesFacts.

(** ** Rules for [Run.observed] *)
Module RunRules.
Import Run.
Section WithEvents.
Context {E V : Type}.
Variable g : E -> option V.

Lemma observed_ret {A} (a : A) (pre : list V) (Q : list V -> result A -> Prop) :
  Q pre (Return a) -> observed g (ret a) pre Q.
Proof. unfold observed, ret, trace, outcome. simpl. by rewrite app_nil_r. Qed.

Lemma observed_raise {A} (e : exn) (pre : list V) (Q : list V -> result A -> Prop) :
  Q pre (Raise e) -> observed g (raise e) pre Q.
Proof. unfold observed, raise, trace, outcome. simpl. by rewrite app_nil_r. Qed.

Lemma observed_call {A} (ev : E) (o : result A) (pre : list V)
    (Q : list V -> result A -> Prop) :
  Q (pre ++ from_option (fun v => [v]) [] (g ev)) o -> observed g (call ev o) pre Q.
Proof.
  unfold observed, call, trace, outcome. simpl. by destruct (g ev).
Qed.

Lemma observed_bind {A B} (m : M E A) (f : A -> M E B) (pre : list V)
    (Q : list V -> result B -> Prop) :
  observed g m pre (fun t r => match r with
                               | Return a => observed g (f a) t Q
                               | Raise e => Q t (Raise e)
                               end) ->
  observed g (bind m f) pre Q.
Proof.
  unfold observed, bind, trace, outcome. destruct (snd m); simpl; [|done].
  by rewrite omap_app, app_assoc.
Qed.

Lemma observed_try_except {A} (m : M E A) (h : exn -> option (M E A)) (pre : list V)
    (Q : list V -> result A -> Prop) :
  observed g m pre (fun t r => match r with
                               | Return a => Q t (Return a)
                               | Raise e => match h e with
                                            | Some k => observed g k t Q
                                            | None => Q t (Raise e)
                                            end
                               end) ->
  observed g (try_except m h) pre Q.
Proof.
  unfold observed, try_except, trace, outcome. destruct (snd m) as [a|e] eqn:Hm.
  - by rewrite Hm.
  - destruct (h e); simpl; [by rewrite omap_app, app_assoc | by rewrite Hm].
Qed.

Lemma observed_start {A} (m : M E A) (Q : list V -> result A -> Prop) :
  observed g m [] Q -> Q (omap g (trace m)) (outcome m).
Proof. done. Qed.

End WithEvents.
End RunRules.

(** ** Runs cut short by the environment *)
Module CutShort.
Import Run Pipelines Flow.

Lemma calls_of_app (f : string) (t t' : list event) :
  calls_of f (t ++ t') = calls_of f t ++ calls_of f t'.
Proof. apply omap_app. Qed.

Section Environment.
Variable raises : string -> list pyv -> list (string * pyv) -> option exn.

Lemma calm_returns (f : string) (args : list pyv) (kwargs : list (string * pyv)) :
  String.eqb f "nltk.data.find" = false -> calm raises f args kwargs = None.
Proof.
  intros Hf. unfold calm. destruct (wordnet_caught raises); [|done].
  unfold wordnet_missing. by rewrite Hf.
Qed.

Lemma cut_short_refl {A} (m : M event A) : cut_short raises m m.
Proof. split; [done|]. destruct (outcome m); auto. Qed.

Lemma cut_short_bind {A B} (m m0 : M event A) (k k0 : A -> M event B) :
  cut_short raises m m0 ->
  (forall a, cut_short raises (k a) (k0 a)) ->
  cut_short raises (bind m k) (bind m0 k0).
Proof.
  unfold cut_short, bind, trace, outcome.
  destruct m as [t r], m0 as [t0 r0]. cbn [fst snd]. intros [Hpre Hout] Hk.
  destruct r as [a|e].
  - injection Hout as <- <-. cbn [fst snd]. specialize (Hk a).
    destruct (k a) as [t1 r1], (k0 a) as [t01 r01]. cbn [fst snd] in *.
    destruct Hk as [Hpre1 Hout1]. split; [by apply prefix_app|].
    destruct r1 as [b|e].
    + by injection Hout1 as <- <-.
    + destruct Hout1 as [Heq|(f & args & kwargs & Hlast & Hraise)].
      * left. by injection Heq as <- <-.
      * right. exists f, args, kwargs. split; [|done].
        rewrite last_app, Hlast. done.
  - cbn [fst snd]. destruct Hout as [Heq|Hcall].
    + injection Heq as <- <-. split; [done | by left].
    + split; [|by right].
      destruct r0 as [a0|e0]; cbn [fst snd]; [|done].
      etrans; [exact Hpre|]. by apply prefix_app_r.
Qed.

Lemma cut_short_invoke (f : string) (args : list pyv) (kwargs : list (string * pyv)) :
  String.eqb f "nltk.data.find" = false ->
  cut_short raises (invoke raises f args kwargs) (invoke (calm raises) f args kwargs).
Proof.
  intros Hf. unfold cut_short, invoke, call, trace, outcome.
  rewrite (calm_returns f args kwargs Hf). cbn [fst snd]. split; [done|].
  destruct (raises f args kwargs) as [e|] eqn:He; [|done].
  right. by exists f, args, kwargs.
Qed.

Lemma cut_short_parse (argv : pipeline_args) :
  cut_short raises
    (call (ECall "parse_pipeline_args" [] [])
       (match raises "parse_pipeline_args" [] [] with
        | Some e => Raise e
        | None => Return argv
        end))
    (call (ECall "parse_pipeline_args" [] [])
       (match calm raises "parse_pipeline_args" [] [] with
        | Some e => Raise e
        | None => Return argv
        end)).
Proof.
  unfold cut_short, call, trace, outcome.
  rewrite (calm_returns "parse_pipeline_args" [] [] eq_refl). cbn [fst snd].
  split; [done|].
  destruct (raises "parse_pipeline_args" [] []) as [e|] eqn:He; [|done].
  right. by exists "parse_pipeline_args", [], [].
Qed.

Lemma cut_short_find_wordnet :
  cut_short raises (find_wordnet raises) (find_wordnet (calm raises)).
Proof.
  unfold cut_short, find_wordnet, calm, wordnet_caught, try_except, bind, invoke,
    call, ret, trace, outcome.
  destruct (raises "nltk.data.find" [PStr "corpora/wordnet"] []) as [e|] eqn:Hfind.
  - destruct (is_LookupError e) eqn:Hcaught; cbn; rewrite ?Hcaught; cbn.
    + destruct (raises "nltk.download" [PStr "wordnet"] []) as [e'|] eqn:Hdown; cbn.
      * split; [done|]. right. by exists "nltk.download", [PStr "wordnet"], [].
      * done.
    + split; [done|]. right. by exists "nltk.data.find", [PStr "corpora/wordnet"], [].
  - cbn. done.
Qed.

(** The calls of a function in a run cut short are among its calls in
    the whole run. *)
Lemma calls_of_cut_short {A} (m m0 : M event A) (f : string)
    (P : list pyv * list (string * pyv) -> Prop) :
  cut_short raises m m0 ->
  Forall P (calls_of f (trace m0)) -> Forall P (calls_of f (trace m)).
Proof.
  intros [[k ->] _]. rewrite calls_of_app. by intros [H _]%Forall_app.
Qed.

(** The events of a run cut short are events of the whole run. *)
Lemma events_of_cut_short {A} (m m0 : M event A) (P : event -> Prop) :
  cut_short raises m m0 -> Forall P (trace m0) -> Forall P (trace m).
Proof. intros [[k ->] _]. by intros [H _]%Forall_app. Qed.

Lemma trace_of_cut_short {A} (m m0 : M event A) :
  cut_short raises m m0 -> trace m = take (length (trace m)) (trace m0).
Proof. intros [[k ->] _]. by rewrite take_app_length. Qed.

(** In an environment in which no call raises, nothing is cut. *)
Lemma cut_short_quiet {A} (m m0 : M event A) :
  (forall f args kwargs, raises f args kwargs = None) ->
  cut_short raises m m0 -> m = m0.
Proof.
  intros Hquiet [_ Hout]. destruct (outcome m); [done|].
  destruct Hout as [Heq|(f & args & kwargs & _ & Hraise)]; [done|].
  rewrite Hquiet in Hraise. discriminate Hraise.
Qed.

Lemma calm_quiet :
  raises "nltk.data.find" [PStr "corpora/wordnet"] [] = None ->
  calm raises = all_return.
Proof. unfold calm, wordnet_caught. by intros ->. Qed.

End Environment.

(** One statement of a script. *)
Ltac cut_step :=
  cbn beta iota zeta;
  lazymatch goal with
  | |- cut_short _ (bind _ _) (bind _ _) => apply cut_short_bind; [|intros ?]
  | |- cut_short _ (invoke _ _ _ _) (invoke _ _ _ _) =>
      apply cut_short_invoke; reflexivity
  | |- cut_short _ (find_wordnet _) (find_wordnet _) => apply cut_short_find_wordnet
  | |- cut_short _ (call (ECall "parse_pipeline_args" _ _) _) _ =>
      apply cut_short_parse
  | |- cut_short _ (if ?b then _ else _) (if ?b then _ else _) => destruct b
  | |- cut_short _ ?m ?m => apply cut_short_refl
  end.

Section Scripts.
Variable raises : string -> list pyv -> list (string * pyv) -> option exn.

(** Exceptions of the environment only cut the scripts short. *)
Lemma imagenet_pipeline_cut_short :
  cut_short raises (imagenet_pipeline raises) (imagenet_pipeline (calm raises)).
Proof. unfold imagenet_pipeline. repeat cut_step. Qed.

Lemma imagenet_synthetic_method_cut_short (argv : pipeline_args) :
  cut_short raises (imagenet_synthetic_method raises argv)
    (imagenet_synthetic_method (calm raises) argv).
Proof. unfold imagenet_synthetic_method. repeat cut_step. Qed.

End Scripts.
End CutShort.

(** ** The pipeline scripts *)
Module PipelinesFacts.
Import Run RunRules Pipelines Flow CutShort.

Lemma nondecreasing_sorted (l : list nat) :
  nondecreasing l = true -> StronglySorted le l.
Proof.
  induction l as [|x r IH]; simpl; [constructor|].
  intros [Hx Hr]%andb_prop. constructor; [auto|].
  apply Forall_forall. intros y Hy. apply list_elem_of_In in Hy.
  rewrite forallb_forall in Hx. by apply Nat.leb_le, Hx.
Qed.

Lemma named_false (f : string) (l : list string) : named f l = false -> f ∉ l.
Proof.
  unfold named. intros Hn Hin. apply list_elem_of_In in Hin.
  assert (existsb (String.eqb f) l = true) as Ht; [|congruence].
  apply existsb_exists. exists f. split; [done | apply String.eqb_refl].
Qed.

(** The categories of a trace are those of the functions called. *)
Lemma stages_called (t : list event) : stages t = omap stage_of (called t).
Proof.
  induction t as [|ev t IH]; [done|].
  change (ev :: t) with ([ev] ++ t). unfold stages, called in *.
  rewrite !omap_app, IH. destruct ev as [f a k|a]; simpl; [|done].
  by destruct (stage_of f).
Qed.

Section Environment.
Variable raises : string -> list pyv -> list (string * pyv) -> option exn.

(** A call: it raises or it returns, as the environment says. *)
Lemma observed_invoke (f : string) (args : list pyv)
    (kwargs : list (string * pyv)) (pre : list string)
    (Q : list string -> result pyv -> Prop) :
  (forall e, raises f args kwargs = Some e -> Q (pre ++ [f]) (Raise e)) ->
  (forall v, raises f args kwargs = None -> Q (pre ++ [f]) (Return v)) ->
  observed call_name (invoke raises f args kwargs) pre Q.
Proof.
  intros Hraise Hret. unfold invoke. apply observed_call. simpl.
  destruct (raises f args kwargs); auto.
Qed.

Lemma observed_print (args : list pyv) (pre : list string)
    (Q : list string -> result unit -> Prop) :
  Q pre (Return tt) -> observed call_name (print args) pre Q.
Proof. intros HQ. apply observed_call. simpl. by rewrite app_nil_r. Qed.

Lemma observed_parse (argv : pipeline_args) (pre : list string)
    (Q : list string -> result pipeline_args -> Prop) :
  (forall e, raises "parse_pipeline_args" [] [] = Some e ->
             Q (pre ++ ["parse_pipeline_args"]) (Raise e)) ->
  Q (pre ++ ["parse_pipeline_args"]) (Return argv) ->
  observed call_name
    (call (ECall "parse_pipeline_args" [] [])
       (match raises "parse_pipeline_args" [] [] with
        | Some e => Raise e
        | None => Return argv
        end)) pre Q.
Proof.
  intros Hraise Hret. apply observed_call. simpl.
  destruct (raises "parse_pipeline_args" [] []); auto.
Qed.

Lemma same_calls_parse {A} (argv argv' : pipeline_args)
    (k k' : pipeline_args -> M event A) :
  same_calls (k argv) (k' argv') ->
  same_calls
    (bind (call (ECall "parse_pipeline_args" [] [])
             (match raises "parse_pipeline_args" [] [] with
              | Some e => Raise e
              | None => Return argv
              end)) k)
    (bind (call (ECall "parse_pipeline_args" [] [])
             (match raises "parse_pipeline_args" [] [] with
              | Some e => Raise e
              | None => Return argv'
              end)) k').
Proof.
  intros [Hcalls Hout]. unfold same_calls, bind, call, calls, trace, outcome in *.
  simpl. destruct (raises "parse_pipeline_args" [] []); simpl; [done|].
  by rewrite Hcalls, Hout.
Qed.

Lemma same_calls_print {A} (args args' : list pyv) (k k' : unit -> M event A) :
  same_calls (k tt) (k' tt) ->
  same_calls (bind (print args) k) (bind (print args') k').
Proof.
  intros [Hcalls Hout]. unfold same_calls, bind, print, call, calls, trace, outcome in *.
  simpl. done.
Qed.

End Environment.

(** One step through a script: the rule of its first statement.  Of the
    calls that return, only the answers to the calls into nltk are kept. *)
Ltac script_step :=
  lazymatch goal with
  | |- observed _ (bind _ _) _ _ => apply observed_bind
  | |- observed _ (invoke _ "nltk.data.find" _ _) _ _ =>
      apply observed_invoke; [intros ? ? | intros ? ?]
  | |- observed _ (invoke _ "nltk.download" _ _) _ _ =>
      apply observed_invoke; [intros ? ? | intros ? ?]
  | |- observed _ (invoke _ _ _ _) _ _ =>
      apply observed_invoke; [intros ? ? | intros ? _]
  | |- observed _ (print _) _ _ => apply observed_print
  | |- observed _ (ret _) _ _ => apply observed_ret
  | |- observed _ (raise _) _ _ => apply observed_raise
  | |- observed _ (find_wordnet _) _ _ =>
      unfold find_wordnet; apply observed_try_except
  | |- observed _ (call (ECall "parse_pipeline_args" _ _) _) _ _ =>
      apply observed_parse; [intros ? ? |]
  | |- match (if is_LookupError ?e then _ else _) with _ => _ end =>
      destruct (is_LookupError e) eqn:?
  end; cbn beta iota delta [sanity synthetic worker_idx num_workers].

Ltac flags argv :=
  destruct argv as [w n [] []].

(** Two facts at hand that exclude each other. *)
Ltac clash :=
  match goal with
  | H : Return _ = Raise _ |- _ => discriminate H
  | H : Raise _ = Return _ |- _ => discriminate H
  | H : true = false |- _ => discriminate H
  | H : false = true |- _ => discriminate H
  | H1 : ?x = Some _, H2 : ?x = None |- _ => rewrite H1 in H2; discriminate H2
  | H1 : ?x = true, H2 : ?x = false |- _ => rewrite H1 in H2; discriminate H2
  | Hall : forall f a k, _ f a k = None, H : _ = Some _ |- _ =>
      rewrite Hall in H; discriminate H
  end.

(** Two answers to the same call are the same answer. *)
Ltac same_answers :=
  repeat match goal with
         | H1 : ?x = Some _, H2 : ?x = Some _ |- _ =>
             rewrite H1 in H2; injection H2 as H2; subst
         end.

(** What is left to show where a script may end: a contradiction among
    the answers of the environment, or a fact about the calls made, which
    are known in full. *)
Ltac script_end :=
  cbn beta;
  repeat lazymatch goal with
         | |- _ /\ _ => split
         | |- _ -> _ => intro
         | |- forall _, _ => intro
         end;
  cbn [sanity synthetic] in *;
  first
    [ clash
    | same_answers;
      first [ clash | lazy; repeat split; first [reflexivity | clash] ] ].

Ltac script_run := repeat script_step; script_end.

Section Scripts.
Variable raises : string -> list pyv -> list (string * pyv) -> option exn.

Lemma imagenet_pipeline_runs :
  let names := called (trace (imagenet_pipeline raises)) in
  let r := outcome (imagenet_pipeline raises) in
  nondecreasing (rank <$> omap stage_of names) = true
  /\ named "synthetic_score_settings" names = false
  /\ (r = Return tt ->
      omap stage_of names
      = [Dataset; Dataset; Embedding; Embedding; Embedding; Embedding;
         Embedding; Embedding; Settings; Settings; Settings;
         TrainScore; TrainScore; Discovery; Discovery]
      /\ List.filter (in_stage TrainScore) names = ["train_settings"; "score_settings"]
      /\ List.filter (in_stage Discovery) names = ["run_sdms"; "score_sdms"])
  /\ wordnet_handled raises names r.
Proof.
  apply (observed_start call_name (imagenet_pipeline raises)
           (fun names r =>
              nondecreasing (rank <$> omap stage_of names) = true
              /\ named "synthetic_score_settings" names = false
              /\ (r = Return tt ->
                  omap stage_of names
                  = [Dataset; Dataset; Embedding; Embedding; Embedding; Embedding;
                     Embedding; Embedding; Settings; Settings; Settings;
                     TrainScore; TrainScore; Discovery; Discovery]
                  /\ List.filter (in_stage TrainScore) names
                     = ["train_settings"; "score_settings"]
                  /\ List.filter (in_stage Discovery) names
                     = ["run_sdms"; "score_sdms"])
              /\ wordnet_handled raises names r)).
  unfold imagenet_pipeline, wordnet_handled. script_run.
Qed.

Lemma imagenet_synthetic_method_runs (argv : pipeline_args) :
  let names := called (trace (imagenet_synthetic_method raises argv)) in
  let r := outcome (imagenet_synthetic_method raises argv) in
  nondecreasing (rank <$> omap stage_of names) = true
  /\ named "train_settings" names = false
  /\ named "score_settings" names = false
  /\ (r = Return tt ->
      synthetic argv = true
      /\ omap stage_of names
         = [Dataset; Dataset; Embedding; Embedding; Embedding; Embedding;
            Embedding; Settings; Settings; Settings]
           ++ (if sanity argv then [Settings] else [])
           ++ [TrainScore; Discovery; Discovery]
      /\ List.filter (in_stage TrainScore) names = ["synthetic_score_settings"]
      /\ List.filter (in_stage Discovery) names = ["run_sdms"; "score_sdms"])
  /\ (synthetic argv = false ->
      forallb (fun s => rank s <=? 3)%nat (omap stage_of names) = true
      /\ List.filter (in_stage TrainScore) names = []
      /\ List.filter (in_stage Discovery) names = []
      /\ ((forall f a k, raises f a k = None) ->
          r = Raise (ValueError "")
          /\ omap stage_of names
             = [Dataset; Dataset; Embedding; Embedding; Embedding; Embedding;
                Embedding; Settings; Settings; Settings]
               ++ (if sanity argv then [Settings] else [])))
  /\ wordnet_handled raises names r.
Proof.
  apply (observed_start call_name (imagenet_synthetic_method raises argv)
           (fun names r =>
              nondecreasing (rank <$> omap stage_of names) = true
              /\ named "train_settings" names = false
              /\ named "score_settings" names = false
              /\ (r = Return tt ->
                  synthetic argv = true
                  /\ omap stage_of names
                     = [Dataset; Dataset; Embedding; Embedding; Embedding; Embedding;
                        Embedding; Settings; Settings; Settings]
                       ++ (if sanity argv then [Settings] else [])
                       ++ [TrainScore; Discovery; Discovery]
                  /\ List.filter (in_stage TrainScore) names
                     = ["synthetic_score_settings"]
                  /\ List.filter (in_stage Discovery) names
                     = ["run_sdms"; "score_sdms"])
              /\ (synthetic argv = false ->
                  forallb (fun s => rank s <=? 3)%nat (omap stage_of names) = true
                  /\ List.filter (in_stage TrainScore) names = []
                  /\ List.filter (in_stage Discovery) names = []
                  /\ ((forall f a k, raises f a k = None) ->
                      r = Raise (ValueError "")
                      /\ omap stage_of names
                         = [Dataset; Dataset; Embedding; Embedding; Embedding;
                            Embedding; Embedding; Settings; Settings; Settings]
                           ++ (if sanity argv then [Settings] else [])))
              /\ wordnet_handled raises names r)).
  unfold imagenet_synthetic_method, wordnet_handled.
  flags argv; script_run.
Qed.

(** The look-up of WordNet is made unless one of the calls before it has
    raised. *)
Lemma pipeline_reaches_the_look_up :
  let t := trace (imagenet_pipeline raises) in
  named "nltk.data.find" (called t) = true
  \/ exists e f args kwargs,
       outcome (imagenet_pipeline raises) = Raise e
       /\ last t = Some (ECall f args kwargs)
       /\ raises f args kwargs = Some e
       /\ f ∈ ["torch.cuda.device_count"; "psutil.cpu_count"].
Proof.
  intros t. subst t.
  pose proof (imagenet_pipeline_cut_short raises) as Hcut.
  pose proof (trace_of_cut_short raises _ _ Hcut) as Htake.
  destruct Hcut as [_ Hout].
  assert (named "nltk.data.find"
            (called (trace (imagenet_pipeline (calm raises)))) = true) as Hfull.
  { unfold calm. destruct (wordnet_caught raises); lazy; reflexivity. }
  destruct (outcome (imagenet_pipeline raises)) as [[]|e] eqn:Hr.
  { left. by rewrite Hout. }
  destruct Hout as [Heq|(f & args & kwargs & Hlast & Hraise)].
  { left. by rewrite Heq. }
  rewrite Htake in Hlast |- *.
  destruct (length (trace (imagenet_pipeline raises))) as [|[|[|[|n]]]].
  - discriminate Hlast.
  - right. exists e, f, args, kwargs. do 3 (split; [done|]).
    unfold calm in Hlast. destruct (wordnet_caught raises);
      lazy in Hlast; injection Hlast as <- _ _; by left.
  - right. exists e, f, args, kwargs. do 3 (split; [done|]).
    unfold calm in Hlast. destruct (wordnet_caught raises);
      lazy in Hlast; injection Hlast as <- _ _; right; by left.
  - unfold calm in Hlast. destruct (wordnet_caught raises);
      lazy in Hlast; discriminate Hlast.
  - left. unfold calm. destruct (wordnet_caught raises); lazy; reflexivity.
Qed.

Lemma script_reaches_the_look_up (argv : pipeline_args) :
  let t := trace (imagenet_synthetic_method raises argv) in
  named "nltk.data.find" (called t) = true
  \/ exists e f args kwargs,
       outcome (imagenet_synthetic_method raises argv) = Raise e
       /\ last t = Some (ECall f args kwargs)
       /\ raises f args kwargs = Some e
       /\ f ∈ ["parse_pipeline_args"; "torch.cuda.device_count";
               "psutil.cpu_count"; "min"; "ray.init"].
Proof.
  intros t. subst t.
  pose proof (imagenet_synthetic_method_cut_short raises argv) as Hcut.
  pose proof (trace_of_cut_short raises _ _ Hcut) as Htake.
  destruct Hcut as [_ Hout].
  assert (named "nltk.data.find"
            (called (trace (imagenet_synthetic_method (calm raises) argv))) = true)
    as Hfull.
  { unfold calm. destruct (wordnet_caught raises); lazy; reflexivity. }
  destruct (outcome (imagenet_synthetic_method raises argv)) as [[]|e] eqn:Hr.
  { left. by rewrite Hout. }
  destruct Hout as [Heq|(f & args & kwargs & Hlast & Hraise)].
  { left. by rewrite Heq. }
  rewrite Htake in Hlast |- *.
  destruct (length (trace (imagenet_synthetic_method raises argv)))
    as [|[|[|[|[|[|[|[|n]]]]]]]].
  1: discriminate Hlast.
  8: { left. unfold calm. destruct (wordnet_caught raises); lazy; reflexivity. }
  all: right; exists e, f, args, kwargs; do 3 (split; [done|]);
    unfold calm in Hlast; destruct (wordnet_caught raises); lazy in Hlast;
    try discriminate Hlast;
    injection Hlast as <- _ _; apply list_elem_of_In; lazy; tauto.
Qed.

(** C2, amended.  In the script with the command line, the flag
    [synthetic] does not choose between two ways of scoring: with the flag
    the only call of the train/score category is
    [synthetic_score_settings], followed by [run_sdms] and [score_sdms]
    when the script runs to its end, which it does when no call raises;
    without it the script stops at [raise ValueError], before any call of
    the train/score and discovery categories.  [train_settings] and
    [score_settings] are never called there; they are called, in this
    order, by [pipelines/imagenet.py], which reads no flag and runs to
    its end when no call raises. *)
Theorem synthetic_flag_gates_the_script (argv : pipeline_args) :
  let t := trace (imagenet_synthetic_method raises argv) in
  let r := outcome (imagenet_synthetic_method raises argv) in
  ("train_settings" ∉ called t)
  /\ ("score_settings" ∉ called t)
  /\ (synthetic argv = true -> r = Return tt ->
      stage_calls TrainScore t = ["synthetic_score_settings"]
      /\ stage_calls Discovery t = ["run_sdms"; "score_sdms"])
  /\ (synthetic argv = false ->
      r <> Return tt
      /\ stage_calls TrainScore t = []
      /\ stage_calls Discovery t = []
      /\ ((forall f a k, raises f a k = None) -> r = Raise (ValueError "")))
  /\ ("synthetic_score_settings" ∉ called (trace (imagenet_pipeline raises)))
  /\ (outcome (imagenet_pipeline raises) = Return tt ->
      stage_calls TrainScore (trace (imagenet_pipeline raises))
      = ["train_settings"; "score_settings"])
  /\ ((forall f a k, raises f a k = None) ->
      (synthetic argv = true ->
       r = Return tt
       /\ stage_calls TrainScore t = ["synthetic_score_settings"]
       /\ stage_calls Discovery t = ["run_sdms"; "score_sdms"])
      /\ outcome (imagenet_pipeline raises) = Return tt
      /\ stage_calls TrainScore (trace (imagenet_pipeline raises))
         = ["train_settings"; "score_settings"]
      /\ stage_calls Discovery (trace (imagenet_pipeline raises))
         = ["run_sdms"; "score_sdms"]).
Proof.
  intros t r.
  destruct (imagenet_synthetic_method_runs argv)
    as (_ & Htrain & Hscore & Hret & Hstop & _).
  destruct imagenet_pipeline_runs as (_ & Hsyn & Hret1 & _).
  fold t r in Htrain, Hscore, Hret, Hstop.
  split; [by apply named_false|]. split; [by apply named_false|].
  split; [|split; [|split; [|split]]].
  - intros _ Hr. destruct (Hret Hr) as (_ & _ & H4 & H5). done.
  - intros Hno. destruct (Hstop Hno) as (_ & H4 & H5 & Hall).
    split; [|split; [done|split; [done|]]].
    + intros Hr. destruct (Hret Hr) as (Hyes & _). congruence.
    + intros Hnone. by destruct (Hall Hnone).
  - by apply named_false.
  - intros Hr. by destruct (Hret1 Hr) as (_ & H4 & _).
  - intros Hquiet.
    pose proof (cut_short_quiet raises _ _ Hquiet
                  (imagenet_synthetic_method_cut_short raises argv)) as Hscript.
    pose proof (cut_short_quiet raises _ _ Hquiet
                  (imagenet_pipeline_cut_short raises)) as Hpipeline.
    rewrite (calm_quiet raises (Hquiet _ _ _)) in Hscript, Hpipeline.
    subst t r. rewrite Hscript, Hpipeline. split.
    + intros Hyes. destruct argv as [w n sa sy]. cbn [synthetic] in Hyes. subst sy.
      destruct sa; repeat split; lazy; reflexivity.
    + repeat split; lazy; reflexivity.
Qed.

(** C3, amended.  A missing WordNet corpus does not end a script.  Both
    scripts look the corpus up, unless one of the few calls before the
    look-up has raised and ended the script.  A [LookupError] of
    [nltk.data.find] is caught, [nltk.download] is called next and, when
    it returns, the script goes on with [get_imagenet_dp]; what the
    download raises leaves the script.  An exception of the look-up that
    is not a [LookupError] leaves the script at once, and nothing is
    downloaded. *)
Theorem missing_wordnet_is_downloaded (argv : pipeline_args) :
  let pipeline := imagenet_pipeline raises in
  let script := imagenet_synthetic_method raises argv in
  wordnet_handled raises (called (trace pipeline)) (outcome pipeline)
  /\ wordnet_handled raises (called (trace script)) (outcome script)
  /\ (named "nltk.data.find" (called (trace pipeline)) = true
      \/ exists e f args kwargs,
           outcome pipeline = Raise e
           /\ last (trace pipeline) = Some (ECall f args kwargs)
           /\ raises f args kwargs = Some e
           /\ f ∈ ["torch.cuda.device_count"; "psutil.cpu_count"])
  /\ (named "nltk.data.find" (called (trace script)) = true
      \/ exists e f args kwargs,
           outcome script = Raise e
           /\ last (trace script) = Some (ECall f args kwargs)
           /\ raises f args kwargs = Some e
           /\ f ∈ ["parse_pipeline_args"; "torch.cuda.device_count";
                   "psutil.cpu_count"; "min"; "ray.init"]).
Proof.
  intros pipeline script. split; [|split; [|split]].
  - by destruct imagenet_pipeline_runs as (_ & _ & _ & H).
  - by destruct (imagenet_synthetic_method_runs argv) as (_ & _ & _ & _ & _ & H).
  - apply pipeline_reaches_the_look_up.
  - apply script_reaches_the_look_up.
Qed.

(** C6, amended.  Whatever the environment answers, the calls of a script
    never step back to an earlier category.  A script that runs to its end
    has gone through the five categories in order; the script with the
    command line does so only with the flag [synthetic], and without the
    flag it makes no call after the category of the settings. *)
Theorem scripts_call_stages_downstream (argv : pipeline_args) :
  downstream (trace (imagenet_pipeline raises))
  /\ downstream (trace (imagenet_synthetic_method raises argv))
  /\ (outcome (imagenet_pipeline raises) = Return tt ->
      stages (trace (imagenet_pipeline raises))
      = [Dataset; Dataset; Embedding; Embedding; Embedding; Embedding;
         Embedding; Embedding; Settings; Settings; Settings;
         TrainScore; TrainScore; Discovery; Discovery])
  /\ (outcome (imagenet_synthetic_method raises argv) = Return tt ->
      synthetic argv = true
      /\ stages (trace (imagenet_synthetic_method raises argv))
         = [Dataset; Dataset; Embedding; Embedding; Embedding; Embedding;
            Embedding; Settings; Settings; Settings]
           ++ (if sanity argv then [Settings] else [])
           ++ [TrainScore; Discovery; Discovery])
  /\ (synthetic argv = false ->
      Forall (fun s => rank s <= 3)%nat
        (stages (trace (imagenet_synthetic_method raises argv)))).
Proof.
  destruct (imagenet_synthetic_method_runs argv) as (Hord & _ & _ & Hret & Hstop & _).
  destruct imagenet_pipeline_runs as (Hord1 & _ & Hret1 & _).
  unfold downstream. rewrite !stages_called.
  split; [by apply nondecreasing_sorted|]. split; [by apply nondecreasing_sorted|].
  split; [|split].
  - intros Hr. by destruct (Hret1 Hr).
  - intros Hr. by destruct (Hret Hr) as (? & ? & _).
  - intros Hno. destruct (Hstop Hno) as (Hle & _).
    apply Forall_forall. intros s Hs. apply list_elem_of_In in Hs.
    rewrite forallb_forall in Hle. by apply Nat.leb_le, Hle.
Qed.

(** C5: the flags [worker_idx] and [num_workers] select nothing.  The
    calls of the script, with their arguments, and its outcome are the
    same for any two values of the two flags; the values are printed, and
    that is all. *)
Theorem worker_flags_select_no_call (w n w' n' : Z) (sa sy : bool) :
  calls (trace (imagenet_synthetic_method raises
                  {| worker_idx := w; num_workers := n;
                     sanity := sa; synthetic := sy |}))
  = calls (trace (imagenet_synthetic_method raises
                    {| worker_idx := w'; num_workers := n';
                       sanity := sa; synthetic := sy |}))
  /\ outcome (imagenet_synthetic_method raises
                {| worker_idx := w; num_workers := n;
                   sanity := sa; synthetic := sy |})
     = outcome (imagenet_synthetic_method raises
                  {| worker_idx := w'; num_workers := n';
                     sanity := sa; synthetic := sy |}).
Proof.
  match goal with
  | |- calls (trace ?m) = calls (trace ?m') /\ _ => change (same_calls m m')
  end.
  unfold imagenet_synthetic_method.
  apply same_calls_parse.
  cbn beta iota delta [worker_idx num_workers sanity synthetic].
  apply same_calls_print. split; reflexivity.
Qed.

End Scripts.

(** C2 as stated fails: run without the flag [synthetic], in an
    environment where every call returns, the script raises [ValueError];
    it calls neither [train_settings] nor [score_settings]. *)
Lemma unset_synthetic_flag_raises :
  let r := imagenet_synthetic_method all_return
             {| worker_idx := 0; num_workers := 1;
                sanity := false; synthetic := false |} in
  outcome r = Raise (ValueError "")
  /\ ("train_settings" ∉ called (trace r))
  /\ ("score_settings" ∉ called (trace r)).
Proof.
  split; [lazy; reflexivity|].
  split; apply named_false; lazy; reflexivity.
Qed.

(** C3 as stated fails: with the WordNet corpus missing and every other
    call returning, the pipeline downloads the corpus and runs to its
    end. *)
Lemma missing_wordnet_does_not_end_the_pipeline :
  wordnet_missing "nltk.data.find" [PStr "corpora/wordnet"] []
  = Some (LookupError "Resource wordnet not found.")
  /\ outcome (imagenet_pipeline wordnet_missing) = Return tt
  /\ called (trace (imagenet_pipeline wordnet_missing))
     = ["torch.cuda.device_count"; "psutil.cpu_count"; "nltk.data.find";
        "nltk.download"; "get_imagenet_dp"; "split_dp"; "get_wiki_words";
        "embed_words"; "embed_images"; "embed_images"; "embed_images";
        "embed_images"; "collect_settings"; "collect_settings";
        "concat_settings"; "setting_dp.load"; "len"; "np.random.choice";
        "setting_dp.lz.__getitem__"; "train_settings"; "score_settings";
        "tune.grid_search"; "run_sdms"; "score_sdms"]
  /\ outcome (imagenet_synthetic_method wordnet_missing
                {| worker_idx := 0; num_workers := 1;
                   sanity := false; synthetic := true |}) = Return tt.
Proof. repeat split; lazy; reflexivity. Qed.

(** C6 as stated fails: run without the flag [synthetic], the script
    with the command line ends after the category of the settings; the
    train/score and discovery categories are never called. *)
Lemma script_without_flag_skips_two_stages :
  let t := trace (imagenet_synthetic_method all_return
                    {| worker_idx := 0; num_workers := 1;
                       sanity := false; synthetic := false |}) in
  stages t = [Dataset; Dataset; Embedding; Embedding; Embedding; Embedding;
              Embedding; Settings; Settings; Settings]
  /\ (TrainScore ∉ stages t) /\ (Discovery ∉ stages t).
Proof.
  split; [lazy; reflexivity|].
  split; intros Hin; apply list_elem_of_In in Hin; lazy in Hin;
    intuition discriminate.
Qed.

(** Worker 0 of 2 and worker 1 of 2 make the same calls, the whole
    pipeline each. *)
Lemma two_workers_make_the_same_calls :
  same_calls
    (imagenet_synthetic_method all_return
       {| worker_idx := 0; num_workers := 2; sanity := false; synthetic := true |})
    (imagenet_synthetic_method all_return
       {| worker_idx := 1; num_workers := 2; sanity := false; synthetic := true |})
  /\ stage_calls Discovery
       (trace (imagenet_synthetic_method all_return
                 {| worker_idx := 1; num_workers := 2;
                    sanity := false; synthetic := true |}))
     = ["run_sdms"; "score_sdms"].
Proof.
  split; [split|]; lazy; reflexivity.
Qed.

End PipelinesFacts.

(** * Further properties of the code *)

(** ** [train.py]: the run identifier and [train_model] *)
Module TrainModelMore.
Import Run Train.

(** The text after the last ['/'] of [dir/name] is [name]. *)
Lemma after_last_slash_app (dir name : string) :
  Py.after_last_slash name = None ->
  Py.after_last_slash (dir +:+ "/" +:+ name) = Some name.
Proof.
  intros Hname. induction dir as [|c dir IH].
  - change (Py.after_last_slash (String "/"%char name) = Some name).
    simpl. by rewrite Hname.
  - change (Py.after_last_slash (String c (dir +:+ "/" +:+ name)) = Some name).
    simpl. by rewrite IH.
Qed.

(** X1.  [int(os.path.basename(run_dir))] reads the last component of
    [run_dir] only: for a component [name] without ['/'] the directory
    before it does not matter.  A [run_dir] that ends in ['/'] has the
    empty base name, which [int] rejects with a [ValueError]. *)
Theorem run_id_is_read_from_the_last_component (dir name : string) :
  Py.after_last_slash name = None ->
  run_id_of (Some (dir +:+ "/" +:+ name)) = Py.int name
  /\ run_id_of (Some (dir +:+ "/"))
     = Raise (ValueError "invalid literal for int() with base 10: ''").
Proof.
  intros Hname. unfold run_id_of, Py.basename, Py.basename_str. split.
  - by rewrite (after_last_slash_app dir name Hname).
  - pose proof (after_last_slash_app dir "" eq_refl) as Hempty.
    change (dir +:+ "/" +:+ "") with (dir +:+ "/") in Hempty. by rewrite Hempty.
Qed.

Lemma run_id_is_read_from_the_last_component_witness :
  run_id_of (Some ("/terra/tasks/train_model/_runs" +:+ "/" +:+ "1_207")) = Return 1207.
Proof.
  exact (proj1 (run_id_is_read_from_the_last_component
                  "/terra/tasks/train_model/_runs" "1_207" eq_refl)).
Defined.

Section Collaborators.
Context {Classifier NNModule Tensor : Type}.
Variable induce_correlation : induce_args -> result (list nat).
Variable train : train_args -> result unit.

Abbreviation event := (Train.event Classifier NNModule Tensor).

(** X2.  [metadata] is built before the [try]: a [run_dir] whose base
    name is not an integer ends [train_model] with the exception of
    [int], and the default [run_dir=None] with a [TypeError], before
    [induce_correlation] or [train] is called. *)
Theorem train_model_needs_a_run_id
    (dp : DataPanel) (target_correlate : string * string)
    (corr num_examples : pyval) (input_column id_column : string)
    (run_dir : option string) (kwargs : Kwargs) (e : exn) :
  run_id_of run_dir = Raise e ->
  train_model (Classifier := Classifier) (NNModule := NNModule) (Tensor := Tensor)
    induce_correlation train dp target_correlate corr num_examples
    input_column id_column run_dir kwargs
  = ([], Raise e)
  /\ exists msg,
      outcome (train_model (Classifier := Classifier) (NNModule := NNModule)
                 (Tensor := Tensor) induce_correlation train dp target_correlate
                 corr num_examples input_column id_column None kwargs)
      = Raise (TypeError msg).
Proof.
  intros Hid. destruct target_correlate as [target correlate].
  unfold train_model. split.
  - by rewrite (RunFacts.bind_lift_raise _ _ e Hid).
  - eexists. reflexivity.
Qed.

(** X3.  Only [CorrelationImpossibleError] is caught: any other
    exception of [induce_correlation] leaves [train_model] as it is,
    nothing is printed and [train] is not called. *)
Theorem train_model_propagates_other_errors
    (dp : DataPanel) (target correlate : string) (corr num_examples : pyval)
    (input_column id_column : string) (run_dir : option string)
    (kwargs : Kwargs) (run_id : Z) (e : exn) :
  run_id_of run_dir = Return run_id ->
  let ic := {| ic_dp := dp; ic_corr := corr; ic_attr_a := target;
               ic_attr_b := correlate; ic_n := num_examples;
               ic_match_mu := true |} in
  induce_correlation ic = Raise e ->
  (forall msg, e <> CorrelationImpossibleError msg) ->
  train_model (Classifier := Classifier) (NNModule := NNModule) (Tensor := Tensor)
    induce_correlation train dp (target, correlate) corr num_examples
    input_column id_column run_dir kwargs
  = ([EInduceCorrelation ic], Raise e).
Proof.
  intros Hid ic Hic Hne. unfold train_model.
  rewrite (RunFacts.bind_lift_return _ _ _ Hid). fold ic.
  unfold bind, try_except, call, ret, lift; simpl. rewrite Hic; simpl.
  destruct e; try reflexivity. by destruct (Hne msg).
Qed.

(** What a call of [train] in a run of [train_model] looks like. *)
Lemma train_event_inv
    (dp : DataPanel) (target correlate : string) (corr num_examples : pyval)
    (input_column id_column : string) (run_dir : option string)
    (kwargs : Kwargs) (a : train_args) :
  let ic := {| ic_dp := dp; ic_corr := corr; ic_attr_a := target;
               ic_attr_b := correlate; ic_n := num_examples;
               ic_match_mu := true |} in
  let r : M event (option Metadata) :=
    train_model induce_correlation train dp (target, correlate) corr
      num_examples input_column id_column run_dir kwargs in
  ETrain a ∈ trace r ->
  exists run_id indices rows,
    run_id_of run_dir = Return run_id
    /\ induce_correlation ic = Return indices
    /\ lz_rows dp indices = Return rows
    /\ a = {| tr_dp := rows; tr_input_column := input_column;
              tr_id_column := id_column; tr_target_column := target;
              tr_run_dir := run_dir;
              tr_wandb_config :=
                mk_metadata target correlate corr num_examples run_id;
              tr_kwargs := kwargs |}
    /\ trace r = [EInduceCorrelation ic; ETrain a].
Proof.
  intros ic r. subst r. unfold train_model.
  destruct (run_id_of run_dir) as [run_id|e0] eqn:Hid.
  2:{ rewrite (RunFacts.bind_lift_raise _ _ e0 eq_refl). unfold trace. simpl.
      intros Ha. by apply elem_of_nil in Ha. }
  rewrite (RunFacts.bind_lift_return _ _ run_id eq_refl). fold ic.
  unfold bind, try_except, call, ret, lift, trace, outcome; simpl.
  destruct (induce_correlation ic) as [indices|e1] eqn:Hic; simpl.
  - destruct (lz_rows dp indices) as [rows|e2] eqn:Hrows; simpl.
    + destruct (train _) as [[]|e3] eqn:Htrain; simpl;
        (intros [Ha|Ha]%elem_of_cons; [discriminate|]);
        apply list_elem_of_singleton in Ha; injection Ha as ->;
        exists run_id, indices, rows; done.
    + intros [Ha|Ha]%elem_of_cons; [discriminate | by apply elem_of_nil in Ha].
  - destruct e1; simpl;
      intros Ha; repeat (apply elem_of_cons in Ha as [Ha|Ha]; [discriminate|]);
      by apply elem_of_nil in Ha.
Qed.

(** X4.  [train] is called at most once, on rows that
    [induce_correlation] returned, with the [metadata] of the task as
    [wandb_config]; and [train_model] returns a mapping only after this
    call of [train] has returned, the mapping being the one that [train]
    was given. *)
Theorem train_model_returns_metadata_only_after_training
    (dp : DataPanel) (target correlate : string) (corr num_examples : pyval)
    (input_column id_column : string) (run_dir : option string)
    (kwargs : Kwargs) :
  let ic := {| ic_dp := dp; ic_corr := corr; ic_attr_a := target;
               ic_attr_b := correlate; ic_n := num_examples;
               ic_match_mu := true |} in
  let r : M event (option Metadata) :=
    train_model induce_correlation train dp (target, correlate) corr
      num_examples input_column id_column run_dir kwargs in
  (forall a, ETrain a ∈ trace r ->
     exists run_id indices rows,
       run_id_of run_dir = Return run_id
       /\ induce_correlation ic = Return indices
       /\ lz_rows dp indices = Return rows
       /\ a = {| tr_dp := rows; tr_input_column := input_column;
                 tr_id_column := id_column; tr_target_column := target;
                 tr_run_dir := run_dir;
                 tr_wandb_config :=
                   mk_metadata target correlate corr num_examples run_id;
                 tr_kwargs := kwargs |}
       /\ trace r = [EInduceCorrelation ic; ETrain a])
  /\ (forall metadata, outcome r = Return (Some metadata) ->
        exists a, ETrain a ∈ trace r /\ train a = Return tt
                  /\ tr_wandb_config a = metadata).
Proof.
  intros ic r. split; [intros a; apply train_event_inv|].
  subst r. unfold train_model.
  destruct (run_id_of run_dir) as [run_id|e0] eqn:Hid.
  2:{ by rewrite (RunFacts.bind_lift_raise _ _ e0 eq_refl). }
  rewrite (RunFacts.bind_lift_return _ _ run_id eq_refl). fold ic.
  unfold bind, try_except, call, ret, lift, trace, outcome; simpl.
  destruct (induce_correlation ic) as [indices|e1] eqn:Hic; simpl.
  - destruct (lz_rows dp indices) as [rows|e2] eqn:Hrows; simpl; [|discriminate].
    destruct (train _) as [[]|e3] eqn:Htrain; simpl; [|discriminate].
    intros metadata [= <-]. eexists. split; [right; left|]. done.
  - destruct e1; simpl; discriminate.
Qed.

End Collaborators.

(** On the panel of [Demo], the call of [train] that returned. *)
Lemma train_model_returns_metadata_only_after_training_witness :
  exists a,
    (ETrain a : Demo.event)
      ∈ trace (train_model Demo.induce_correlation Demo.train Demo.dp
                 ("smiling", "male") (VFloat 0.5) (VInt 30000) "input" "file"
                 Demo.run_dir [])
    /\ Demo.train a = Return tt
    /\ tr_wandb_config a
       = mk_metadata "smiling" "male" (VFloat 0.5) (VInt 30000) 1207.
Proof.
  apply (proj2 (train_model_returns_metadata_only_after_training
                  (Classifier := unit) (NNModule := unit) (Tensor := Torch.tensor)
                  Demo.induce_correlation Demo.train Demo.dp "smiling" "male"
                  (VFloat 0.5) (VInt 30000) "input" "file" Demo.run_dir [])).
  vm_compute. reflexivity.
Defined.

Lemma train_model_needs_a_run_id_witness :
  run_id_of (Some "/terra/tasks/train_model/_runs/latest")
  = Raise (ValueError "invalid literal for int() with base 10: 'latest'")
  /\ train_model (Classifier := unit) (NNModule := unit) (Tensor := Torch.tensor)
       Demo.induce_correlation Demo.train Demo.dp ("smiling", "male")
       (VFloat 0.5) (VInt 30000) "input" "file"
       (Some "/terra/tasks/train_model/_runs/latest") []
     = ([], Raise (ValueError "invalid literal for int() with base 10: 'latest'")).
Proof.
  split; [reflexivity|].
  exact (proj1 (train_model_needs_a_run_id Demo.induce_correlation Demo.train
                  Demo.dp ("smiling", "male") (VFloat 0.5) (VInt 30000)
                  "input" "file" (Some "/terra/tasks/train_model/_runs/latest") []
                  _ eq_refl)).
Defined.

Lemma train_model_propagates_other_errors_witness :
  train_model (Classifier := unit) (NNModule := unit) (Tensor := Torch.tensor)
    (fun _ => Raise (KeyError "smiling")) Demo.train Demo.dp ("smiling", "male")
    (VFloat 0.5) (VInt 30000) "input" "file" Demo.run_dir []
  = ([EInduceCorrelation {| ic_dp := Demo.dp; ic_corr := VFloat 0.5;
                            ic_attr_a := "smiling"; ic_attr_b := "male";
                            ic_n := VInt 30000; ic_match_mu := true |}],
     Raise (KeyError "smiling")).
Proof.
  apply (train_model_propagates_other_errors (fun _ => Raise (KeyError "smiling"))
           Demo.train Demo.dp "smiling" "male" (VFloat 0.5) (VInt 30000)
           "input" "file" Demo.run_dir [] 1207 (KeyError "smiling")).
  - reflexivity.
  - reflexivity.
  - discriminate.
Defined.

End TrainModelMore.

(** ** [train.py]: [score_model] *)
Module ScoreModelMore.
Import Run Train.

(** The first element that raises ends [list(map(f, xs))] with its
    exception. *)
Lemma map_result_first_raise {A B} (f : A -> result B) (good : list A) (bad : A)
    (rest : list A) (e : exn) :
  Forall (fun x => exists y, f x = Return y) good ->
  f bad = Raise e ->
  map_result f (good ++ bad :: rest) = Raise e.
Proof.
  intros Hgood Hbad. induction Hgood as [|x good [y Hy] _ IH]; simpl.
  - by rewrite Hbad.
  - by rewrite Hy, IH.
Qed.

Lemma assoc_length {A} (k : string) (l : list (string * list A)) (c : list A)
    (n : nat) :
  Forall (fun nc => length nc.2 = n) l -> assoc k l = Some c -> length c = n.
Proof.
  induction l as [|[k' v] l IH]; [done|].
  intros [Hv Hl]%Forall_cons. cbn [assoc].
  destruct (String.eqb k k'); [by intros [= <-] | auto].
Qed.

(** The cells kept by a mask built on a column of the same length are as
    many as the rows that the mask selects. *)
Lemma length_masked_fmap {A B} (f : A -> bool) (data : list A) (cells : list B) :
  length cells = length data ->
  length (masked (f <$> data) cells) = length (List.filter f data).
Proof.
  revert cells. induction data as [|d r IH]; intros [|c cells] Hlen;
    simpl in *; try done.
  destruct (f d); simpl; rewrite IH; lia.
Qed.

Section Collaborators.
Context {Classifier NNModule Tensor : Type}.
Variable torch_mean : Tensor -> list Z -> Tensor.
Variable nested_getattr : Classifier -> string -> result NNModule.
Variable score : score_args Classifier NNModule Tensor -> result DataPanel.
Variable rt : runtime.

Abbreviation event := (Train.event Classifier NNModule Tensor).

(** X5.  The layers are looked up in the order of [layers.items()], one
    [nested_getattr] call each, and the look-ups stop at the first that
    raises: the calls made are those for the items up to and including
    that one, every look-up before it has returned, and its exception is
    the outcome.  When all return, every item has been looked up and the
    mapping has the names of [layers] in their order, each with the
    module found. *)
Theorem resolve_layers_asks_in_order (model : Classifier)
    (items : list (string * string)) :
  let r : M event (list (string * NNModule)) :=
    resolve_layers nested_getattr model items in
  let asked (its : list (string * string)) : list event :=
    (fun it => ENestedGetattr model it.2) <$> its in
  (forall ms, outcome r = Return ms ->
     trace r = asked items
     /\ ms.*1 = items.*1
     /\ Forall2 (fun it m => nested_getattr model it.2 = Return m.2) items ms)
  /\ (forall e, outcome r = Raise e ->
        exists found missing later,
          items = found ++ missing :: later
          /\ Forall (fun it => exists m, nested_getattr model it.2 = Return m) found
          /\ nested_getattr model missing.2 = Raise e
          /\ trace r = asked (found ++ [missing])).
Proof.
  induction items as [|[name layer] items IH]; intros r asked; subst r asked.
  - split; [|discriminate]. intros ms [= <-]. by repeat split.
  - simpl in IH. destruct IH as (Hret & Hraise).
    unfold trace, outcome in *. cbn [resolve_layers]. unfold bind, call, ret.
    cbn [fst snd].
    destruct (nested_getattr model layer) as [m|e] eqn:Hm; cbn [fst snd].
    + destruct (snd (resolve_layers nested_getattr model items)) as [ms|e] eqn:Hr;
        cbn [fst snd].
      * destruct (Hret ms eq_refl) as (Ht & Hnames & Hall).
        split; [|discriminate].
        intros ms' [= <-]. rewrite app_nil_r, Ht. repeat split.
        -- by rewrite !fmap_cons, Hnames.
        -- by constructor.
      * split; [discriminate|].
        intros e' [= <-].
        destruct (Hraise e eq_refl) as (found & missing & later & -> & Hfound & He & Ht).
        exists ((name, layer) :: found), missing, later.
        split; [done|]. split; [constructor; eauto|]. split; [done|].
        by rewrite Ht.
    + split; [discriminate|].
      intros e' [= <-]. exists [], (name, layer), items. by repeat split.
Qed.

(** What a call of [score] in a run of [score_model] looks like. *)
Lemma score_event_inv
    (dp : DataPanel) (model : Classifier) (target correlate : string)
    (corr num_examples : pyval) (split : split_arg)
    (input_column id_column : string) (layers : option (list (string * string)))
    (reduction_fns : option (list string)) (run_dir : option string)
    (kwargs : Kwargs) :
  let r : M event (DataPanel * Metadata) :=
    score_model torch_mean nested_getattr score rt dp model target correlate corr
      num_examples split input_column id_column layers reduction_fns run_dir kwargs in
  forall a, EScore a ∈ trace r ->
    exists ls fns run_id data,
      outcome (layers_of (Tensor := Tensor) nested_getattr model layers) = Return ls
      /\ reduction_fns_of torch_mean reduction_fns = Return fns
      /\ run_id_of run_dir = Return run_id
      /\ column rt dp "split" = Return data
      /\ a = {| sc_model := model; sc_dp := lz_mask dp (in_split split <$> data);
                sc_input_column := input_column; sc_id_column := id_column;
                sc_target_column := target; sc_run_dir := run_dir;
                sc_layers := ls;
                sc_wandb_config :=
                  mk_metadata target correlate corr num_examples run_id;
                sc_reduction_fns := fns; sc_kwargs := kwargs |}.
Proof.
  intros r a Ha. subst r.
  pose proof (ScoreModelFacts.layers_of_no_score (Tensor := Tensor)
                nested_getattr model layers a) as Hno.
  destruct (outcome (layers_of (Tensor := Tensor) nested_getattr model layers))
    as [ls|e] eqn:Hls.
  2:{ unfold score_model in Ha. rewrite (RunFacts.bind_raise _ _ e Hls) in Ha. done. }
  destruct (reduction_fns_of torch_mean reduction_fns) as [fns|e] eqn:Hfns.
  2:{ unfold score_model in Ha. rewrite (RunFacts.bind_return _ _ _ Hls) in Ha.
      rewrite (RunFacts.bind_lift_raise _ _ e Hfns) in Ha.
      unfold trace in Ha. simpl in Ha. rewrite app_nil_r in Ha. done. }
  destruct (run_id_of run_dir) as [run_id|e] eqn:Hid.
  2:{ unfold score_model in Ha. rewrite (RunFacts.bind_return _ _ _ Hls) in Ha.
      rewrite (RunFacts.bind_lift_return _ _ _ Hfns) in Ha.
      rewrite (RunFacts.bind_lift_raise _ _ e Hid) in Ha.
      unfold trace in Ha. simpl in Ha. rewrite app_nil_r in Ha. done. }
  destruct (column rt dp "split") as [data|e] eqn:Hdata.
  2:{ unfold score_model in Ha. rewrite (RunFacts.bind_return _ _ _ Hls) in Ha.
      rewrite (RunFacts.bind_lift_return _ _ _ Hfns) in Ha.
      rewrite (RunFacts.bind_lift_return _ _ _ Hid) in Ha.
      rewrite (RunFacts.bind_lift_raise _ _ e) in Ha.
      - unfold trace in Ha. simpl in Ha. rewrite app_nil_r in Ha. done.
      - unfold split_mask_of. by rewrite Hdata. }
  exists ls, fns, run_id, data. do 4 (split; [reflexivity|]).
  assert (split_mask_of rt dp split = Return (in_split split <$> data)) as Hmask.
  { unfold split_mask_of. by rewrite Hdata. }
  rewrite (ScoreModelFacts.score_model_reaches_score torch_mean nested_getattr
             score rt dp model target correlate corr num_examples split input_column
             id_column layers reduction_fns run_dir kwargs ls fns run_id _
             Hls Hfns Hid Hmask) in Ha.
  unfold trace in Ha. cbn [fst] in Ha. apply elem_of_app in Ha as [Ha|Ha]; [done|].
  apply list_elem_of_singleton in Ha. by injection Ha.
Qed.

(** X6.  [score] is called only after the four steps before it have
    returned: the layers are resolved, every reduction name is supported,
    [run_dir] spells a run identifier and [dp] has a ["split"] column.
    The call is then the one that these results determine. *)
Theorem score_is_called_only_after_the_checks
    (dp : DataPanel) (model : Classifier) (target correlate : string)
    (corr num_examples : pyval) (split : split_arg)
    (input_column id_column : string) (layers : option (list (string * string)))
    (reduction_fns : option (list string)) (run_dir : option string)
    (kwargs : Kwargs) :
  let r : M event (DataPanel * Metadata) :=
    score_model torch_mean nested_getattr score rt dp model target correlate corr
      num_examples split input_column id_column layers reduction_fns run_dir kwargs in
  forall a, EScore a ∈ trace r ->
    exists ls fns run_id data,
      outcome (layers_of (Tensor := Tensor) nested_getattr model layers) = Return ls
      /\ reduction_fns_of torch_mean reduction_fns = Return fns
      /\ run_id_of run_dir = Return run_id
      /\ column rt dp "split" = Return data
      /\ a = {| sc_model := model; sc_dp := lz_mask dp (in_split split <$> data);
                sc_input_column := input_column; sc_id_column := id_column;
                sc_target_column := target; sc_run_dir := run_dir;
                sc_layers := ls;
                sc_wandb_config :=
                  mk_metadata target correlate corr num_examples run_id;
                sc_reduction_fns := fns; sc_kwargs := kwargs |}.
Proof.
  apply score_event_inv.
Qed.

(** What [score_model] has done when it returns. *)
Lemma score_model_return_inv
    (dp : DataPanel) (model : Classifier) (target correlate : string)
    (corr num_examples : pyval) (split : split_arg)
    (input_column id_column : string) (layers : option (list (string * string)))
    (reduction_fns : option (list string)) (run_dir : option string)
    (kwargs : Kwargs) (out : DataPanel) (metadata : Metadata) :
  outcome (score_model torch_mean nested_getattr score rt dp model target correlate
             corr num_examples split input_column id_column layers reduction_fns
             run_dir kwargs) = Return (out, metadata) ->
  exists run_id,
    run_id_of run_dir = Return run_id
    /\ metadata = mk_metadata target correlate corr num_examples run_id.
Proof.
  unfold score_model.
  destruct (outcome (layers_of (Tensor := Tensor) nested_getattr model layers))
    as [ls|e] eqn:Hls.
  2:{ by rewrite (RunFacts.bind_raise _ _ e Hls). }
  rewrite (RunFacts.bind_return _ _ _ Hls).
  destruct (reduction_fns_of torch_mean reduction_fns) as [fns|e] eqn:Hfns.
  2:{ by rewrite (RunFacts.bind_lift_raise _ _ e eq_refl). }
  rewrite (RunFacts.bind_lift_return _ _ _ eq_refl).
  destruct (run_id_of run_dir) as [run_id|e] eqn:Hid.
  2:{ by rewrite (RunFacts.bind_lift_raise _ _ e eq_refl). }
  rewrite (RunFacts.bind_lift_return _ _ _ eq_refl).
  destruct (split_mask_of rt dp split) as [mask|e] eqn:Hmask.
  2:{ by rewrite (RunFacts.bind_lift_raise _ _ e eq_refl). }
  rewrite (RunFacts.bind_lift_return _ _ _ eq_refl).
  unfold bind, call, lift, ret, trace, outcome. cbn [fst snd].
  destruct (score _) as [score_dp|e]; cbn [fst snd]; [|discriminate].
  destruct (select_columns rt score_dp _); cbn [fst snd]; [|discriminate].
  intros [= _ <-]. by exists run_id.
Qed.

(** X7.  A panel without a ["split"] column cannot be scored: with the
    steps before returned, [score_model] raises what [dp["split"]] raises
    for the missing column, and [score] is not called. *)
Theorem score_model_needs_a_split_column
    (dp : DataPanel) (model : Classifier) (target correlate : string)
    (corr num_examples : pyval) (split : split_arg)
    (input_column id_column : string) (layers : option (list (string * string)))
    (reduction_fns : option (list string)) (run_dir : option string)
    (kwargs : Kwargs) ls fns run_id :
  outcome (layers_of (Tensor := Tensor) nested_getattr model layers) = Return ls ->
  reduction_fns_of torch_mean reduction_fns = Return fns ->
  run_id_of run_dir = Return run_id ->
  "split" ∉ columns dp ->
  let r : M event (DataPanel * Metadata) :=
    score_model torch_mean nested_getattr score rt dp model target correlate corr
      num_examples split input_column id_column layers reduction_fns run_dir kwargs in
  outcome r = Raise (missing_column rt "split") /\ forall a, EScore a ∉ trace r.
Proof.
  intros Hls Hfns Hid Hnot r. subst r. unfold score_model.
  rewrite (RunFacts.bind_return _ _ _ Hls).
  rewrite (RunFacts.bind_lift_return _ _ _ Hfns).
  rewrite (RunFacts.bind_lift_return _ _ _ Hid).
  rewrite (RunFacts.bind_lift_raise _ _ (missing_column rt "split")).
  2:{ unfold split_mask_of. by rewrite (PanelFacts.column_raises rt dp "split" Hnot). }
  unfold outcome, trace. simpl. rewrite app_nil_r. split; [done|].
  apply ScoreModelFacts.layers_of_no_score.
Qed.

(** X8.  The [ValueError] of an unsupported reduction names the first
    such name of [reduction_fns]: the names before it are all supported
    and are not reported. *)
Theorem score_model_reports_the_first_unsupported_name
    (dp : DataPanel) (model : Classifier) (target correlate : string)
    (corr num_examples : pyval) (split : split_arg)
    (input_column id_column : string) (layers : option (list (string * string)))
    (good : list string) (bad : string) (rest : list string)
    (run_dir : option string) (kwargs : Kwargs) ls :
  outcome (layers_of (Tensor := Tensor) nested_getattr model layers) = Return ls ->
  Forall (fun name => name = "max" \/ name = "mean") good ->
  bad <> "max" -> bad <> "mean" ->
  outcome (score_model torch_mean nested_getattr score rt dp model target correlate
             corr num_examples split input_column id_column layers
             (Some (good ++ bad :: rest)) run_dir kwargs)
  = Raise (ValueError ("reduction_fn " +:+ bad +:+ " not supported.")).
Proof.
  intros Hls Hgood Hmax Hmean. unfold score_model.
  rewrite (RunFacts.bind_return _ _ _ Hls).
  rewrite (RunFacts.bind_lift_raise _ _
             (ValueError ("reduction_fn " +:+ bad +:+ " not supported."))); [done|].
  unfold reduction_fns_of.
  rewrite (map_result_first_raise (_get_reduction_fn torch_mean) good bad rest
             (ValueError ("reduction_fn " +:+ bad +:+ " not supported."))); [done| |].
  - eapply Forall_impl; [exact Hgood|]. intros name Hname. simpl.
    rewrite ScoreModelFacts.get_reduction_fn_supported by done. eauto.
  - by apply ScoreModelFacts.get_reduction_fn_unsupported.
Qed.

(** X9.  A split given by its name is the split given as the collection
    of that one name: the two runs of [score_model] are the same. *)
Theorem split_name_is_a_singleton_collection
    (dp : DataPanel) (model : Classifier) (target correlate : string)
    (corr num_examples : pyval) (s : string)
    (input_column id_column : string) (layers : option (list (string * string)))
    (reduction_fns : option (list string)) (run_dir : option string)
    (kwargs : Kwargs) :
  score_model torch_mean nested_getattr score rt dp model target correlate corr
    num_examples (SplitStr s) input_column id_column layers reduction_fns
    run_dir kwargs
  = score_model torch_mean nested_getattr score rt dp model target correlate corr
      num_examples (SplitColl [s]) input_column id_column layers reduction_fns
      run_dir kwargs.
Proof.
  assert (split_mask_of rt dp (SplitStr s) = split_mask_of rt dp (SplitColl [s])) as Heq.
  { unfold split_mask_of. destruct (column rt dp "split") as [data|]; [|done].
    f_equal. apply list_fmap_ext. intros i v _. simpl. by rewrite orb_false_r. }
  unfold score_model. by rewrite Heq.
Qed.

(** X10.  Scoring keeps the shape of the panel: when every column of [dp]
    has [n] cells, the panel handed to [score] has the columns of [dp],
    each cut to as many cells as the ["split"] column has cells in the
    split. *)
Theorem scored_rows_keep_the_columns
    (dp : DataPanel) (model : Classifier) (target correlate : string)
    (corr num_examples : pyval) (split : split_arg)
    (input_column id_column : string) (layers : option (list (string * string)))
    (reduction_fns : option (list string)) (run_dir : option string)
    (kwargs : Kwargs) (n : nat) (data : list pyval) :
  Forall (fun nc => length nc.2 = n) (dp_data dp) ->
  column rt dp "split" = Return data ->
  let r : M event (DataPanel * Metadata) :=
    score_model torch_mean nested_getattr score rt dp model target correlate corr
      num_examples split input_column id_column layers reduction_fns run_dir kwargs in
  forall a, EScore a ∈ trace r ->
    columns (sc_dp a) = columns dp
    /\ Forall (fun nc => length nc.2 = length (List.filter (in_split split) data))
         (dp_data (sc_dp a)).
Proof.
  intros Hrect Hdata r a Ha.
  destruct (score_event_inv dp model target correlate corr
              num_examples split input_column id_column layers reduction_fns
              run_dir kwargs a Ha) as (ls & fns & run_id & data' & _ & _ & _ & Hd & ->).
  assert (data' = data) as -> by congruence. cbn [sc_dp].
  split; [apply PanelFacts.columns_lz_mask|].
  assert (length data = n) as Hn.
  { unfold column in Hdata. destruct (assoc "split" (dp_data dp)) as [c|] eqn:Hc;
      [|discriminate]. injection Hdata as ->.
    by apply (assoc_length "split" (dp_data dp)). }
  unfold lz_mask. cbn [dp_data]. apply Forall_fmap.
  eapply Forall_impl; [exact Hrect|]. intros [k cells] Hlen. simpl in *.
  apply length_masked_fmap. lia.
Qed.

(** The new columns are columns of the scored panel. *)
Lemma lacking_new_columns (score_dp dp : DataPanel) (cols : list string) :
  lacking score_dp (cols ++ new_columns rt score_dp dp) = lacking score_dp cols.
Proof.
  unfold lacking. rewrite List.filter_app.
  assert (List.filter (fun c => negb (bool_decide (c ∈ columns score_dp)))
            (new_columns rt score_dp dp) = []) as ->; [|by rewrite app_nil_r].
  unfold new_columns.
  assert (Forall (fun c => c ∈ columns score_dp)
            (set_difference rt (columns score_dp) (columns dp))) as Hall.
  { apply Forall_forall. intros c Hc. by apply elem_of_set_difference in Hc as [Hc _]. }
  induction Hall as [|c l Hc _ IH]; [done|].
  cbn [List.filter]. by rewrite (bool_decide_eq_true_2 _ Hc).
Qed.

Lemma elem_of_lacking (dp : DataPanel) (cols : list string) (c : string) :
  c ∈ lacking dp cols <-> c ∈ cols /\ c ∉ columns dp.
Proof.
  unfold lacking. rewrite list_elem_of_In, filter_In, <- list_elem_of_In.
  rewrite negb_true_iff, bool_decide_eq_false. done.
Qed.

(** X11.  When the panel that [score] returned lacks one of [id_column],
    [target], [correlate] and ["split"], [score_model] raises, after the
    call of [score], the one exception that [score_dp[cols]] raises for
    the names lacking among these four. *)
Theorem score_model_misses_an_identifying_column
    (dp : DataPanel) (model : Classifier) (target correlate : string)
    (corr num_examples : pyval) (split : split_arg)
    (input_column id_column : string) (layers : option (list (string * string)))
    (reduction_fns : option (list string)) (run_dir : option string)
    (kwargs : Kwargs) ls fns run_id mask score_dp (missing : string) :
  outcome (layers_of (Tensor := Tensor) nested_getattr model layers) = Return ls ->
  reduction_fns_of torch_mean reduction_fns = Return fns ->
  run_id_of run_dir = Return run_id ->
  split_mask_of rt dp split = Return mask ->
  let sc := {| sc_model := model; sc_dp := lz_mask dp mask;
               sc_input_column := input_column; sc_id_column := id_column;
               sc_target_column := target; sc_run_dir := run_dir;
               sc_layers := ls;
               sc_wandb_config := mk_metadata target correlate corr num_examples run_id;
               sc_reduction_fns := fns; sc_kwargs := kwargs |} in
  score sc = Return score_dp ->
  missing ∈ [id_column; target; correlate; "split"] ->
  missing ∉ columns score_dp ->
  let r : M event (DataPanel * Metadata) :=
    score_model torch_mean nested_getattr score rt dp model target correlate corr
      num_examples split input_column id_column layers reduction_fns run_dir kwargs in
  let lack := lacking score_dp [id_column; target; correlate; "split"] in
  outcome r = Raise (missing_columns rt lack)
  /\ missing ∈ lack
  /\ (forall c, c ∈ lack <->
                c ∈ [id_column; target; correlate; "split"] /\ c ∉ columns score_dp)
  /\ EScore sc ∈ trace r.
Proof.
  intros Hls Hfns Hid Hmask sc Hscore Hin Hmissing r lack. subst r lack.
  erewrite ScoreModelFacts.score_model_reaches_score;
    [|exact Hls|exact Hfns|exact Hid|exact Hmask].
  fold sc. unfold outcome, trace. cbn [fst snd]. rewrite Hscore.
  rewrite (PanelFacts.select_columns_raises rt score_dp _ missing);
    [|apply elem_of_app; by left|done].
  rewrite lacking_new_columns.
  split; [done|]. split; [by apply elem_of_lacking|].
  split; [intros c; apply elem_of_lacking|].
  apply elem_of_app. right. by left.
Qed.

End Collaborators.

(** One layer of [Demo] that is found. *)
Lemma resolve_layers_asks_in_order_witness :
  trace (resolve_layers (Classifier := unit) (NNModule := unit)
           (Tensor := Torch.tensor) Demo.nested_getattr tt
           [("layer4", "model.layer4")])
  = [ENestedGetattr tt "model.layer4"].
Proof.
  exact (proj1 (proj1 (resolve_layers_asks_in_order (Tensor := Torch.tensor)
                         Demo.nested_getattr tt [("layer4", "model.layer4")])
                  [("layer4", tt)] eq_refl)).
Defined.

(** On the panel of [Demo], the one call of [score]. *)
Lemma score_is_called_only_after_the_checks_witness :
  exists a run_id,
    run_id_of Demo.run_dir = Return run_id
    /\ sc_wandb_config (Classifier := unit) (NNModule := unit)
         (Tensor := Torch.tensor) a
       = mk_metadata "smiling" "male" (VFloat 0.5) (VInt 30000) run_id
    /\ sc_layers a = Some [("layer4", tt)].
Proof.
  pose (a := {| sc_model := tt;
                sc_dp := lz_mask Demo.dp
                           (in_split (SplitColl ["test"; "valid"])
                              <$> [VStr "train"; VStr "test"; VStr "valid"; VStr "test"]);
                sc_input_column := "input"; sc_id_column := "file";
                sc_target_column := "smiling"; sc_run_dir := Demo.run_dir;
                sc_layers := Some [("layer4", tt)];
                sc_wandb_config :=
                  mk_metadata "smiling" "male" (VFloat 0.5) (VInt 30000) 1207;
                sc_reduction_fns :=
                  Some [{| p_func := Torch.mean; p_dim := [-1; -2];
                           p_name := Some "mean" |}];
                sc_kwargs := [] |} : score_args unit unit Torch.tensor).
  destruct (score_is_called_only_after_the_checks Torch.mean Demo.nested_getattr
              Demo.score Demo.rt Demo.dp tt "smiling" "male" (VFloat 0.5) (VInt 30000)
              (SplitColl ["test"; "valid"]) "input" "file"
              (Some [("layer4", "model.layer4")]) (Some ["mean"]) Demo.run_dir [] a)
    as (ls & fns & run_id & data & _ & _ & Hid & _ & Ha).
  - right. left.
  - assert (run_id = 1207) as ->.
    { vm_compute in Hid. by injection Hid. }
    exists a, 1207. split; [reflexivity|]. split; reflexivity.
Defined.

(** A panel that has lost its ["split"] column. *)
Lemma score_model_needs_a_split_column_witness :
  outcome (score_model Torch.mean Demo.nested_getattr Demo.score Demo.rt
             {| dp_data := [("file", [VStr "a.png"]); ("smiling", [VInt 1]);
                            ("male", [VInt 0])] |}
             tt "smiling" "male" (VFloat 0.5) (VInt 30000) (SplitStr "test")
             "input" "file" None None Demo.run_dir [])
  = Raise (KeyError "column not found: split").
Proof.
  refine (proj1 (score_model_needs_a_split_column Torch.mean Demo.nested_getattr
                   Demo.score Demo.rt _ tt "smiling" "male" (VFloat 0.5) (VInt 30000)
                   (SplitStr "test") "input" "file" None None Demo.run_dir []
                   None None 1207 eq_refl eq_refl eq_refl _)).
  intros Hin. apply list_elem_of_In in Hin. vm_compute in Hin.
  intuition discriminate.
Defined.

(** ["median"] comes before ["mode"]: it is the name reported. *)
Lemma score_model_reports_the_first_unsupported_name_witness :
  outcome (score_model Torch.mean Demo.nested_getattr Demo.score Demo.rt Demo.dp tt
             "smiling" "male" (VFloat 0.5) (VInt 30000) (SplitStr "test")
             "input" "file" None (Some (["mean"; "max"] ++ "median" :: ["mode"]))
             Demo.run_dir [])
  = Raise (ValueError "reduction_fn median not supported.").
Proof.
  apply (score_model_reports_the_first_unsupported_name Torch.mean
           Demo.nested_getattr Demo.score Demo.rt Demo.dp tt "smiling" "male"
           (VFloat 0.5) (VInt 30000) (SplitStr "test") "input" "file" None
           ["mean"; "max"] "median" ["mode"] Demo.run_dir [] None eq_refl).
  - constructor; [by right|]. constructor; [by left|]. constructor.
  - discriminate.
  - discriminate.
Defined.

(** On the panel of [Demo], of four rows, two rows are in the split
    ["test"]. *)
Lemma scored_rows_keep_the_columns_witness :
  exists a : score_args unit unit Torch.tensor,
    columns (sc_dp a) = ["file"; "input"; "split"; "smiling"; "male"; "age"]
    /\ Forall (fun nc => length nc.2 = 2%nat) (dp_data (sc_dp a)).
Proof.
  pose (a := {| sc_model := tt;
                sc_dp := lz_mask Demo.dp
                           (in_split (SplitStr "test")
                              <$> [VStr "train"; VStr "test"; VStr "valid"; VStr "test"]);
                sc_input_column := "input"; sc_id_column := "file";
                sc_target_column := "smiling"; sc_run_dir := Demo.run_dir;
                sc_layers := None;
                sc_wandb_config :=
                  mk_metadata "smiling" "male" (VFloat 0.5) (VInt 30000) 1207;
                sc_reduction_fns := None;
                sc_kwargs := [] |} : score_args unit unit Torch.tensor).
  exists a.
  apply (scored_rows_keep_the_columns Torch.mean Demo.nested_getattr Demo.score Demo.rt
           Demo.dp tt "smiling" "male" (VFloat 0.5) (VInt 30000)
           (SplitStr "test") "input" "file" None None Demo.run_dir [] 4%nat
           [VStr "train"; VStr "test"; VStr "valid"; VStr "test"]).
  - repeat constructor.
  - reflexivity.
  - left.
Defined.

(** A scorer that drops the column of the correlate. *)
Lemma score_model_misses_an_identifying_column_witness :
  outcome (score_model Torch.mean Demo.nested_getattr
             (fun a => Return {| dp_data := [("file", [VStr "b.png"]);
                                             ("smiling", [VInt 0]);
                                             ("split", [VStr "test"]);
                                             ("pred", [VFloat 0.5])] |})
             Demo.rt Demo.dp tt "smiling" "male" (VFloat 0.5) (VInt 30000)
             (SplitStr "test") "input" "file" None None Demo.run_dir [])
  = Raise (KeyError "columns not found: male").
Proof.
  refine (proj1 (score_model_misses_an_identifying_column Torch.mean
                   Demo.nested_getattr
                   (fun a => Return {| dp_data := [("file", [VStr "b.png"]);
                                                   ("smiling", [VInt 0]);
                                                   ("split", [VStr "test"]);
                                                   ("pred", [VFloat 0.5])] |})
                   Demo.rt Demo.dp tt "smiling" "male" (VFloat 0.5) (VInt 30000)
                   (SplitStr "test") "input" "file" None None Demo.run_dir []
                   None None 1207 _ _ "male" eq_refl eq_refl eq_refl eq_refl
                   eq_refl _ _)).
  - do 2 right. by left.
  - intros Hin. apply list_elem_of_In in Hin. vm_compute in Hin.
    intuition discriminate.
Defined.

End ScoreModelMore.

(** ** [train.py]: [train_linear_slices] and its trials *)
Module TrainLinearSlicesMore.
Import Run Train TrainEvents.

(** Every trial is a configuration of the grid. *)
Lemma elem_of_trials (space : search_space) (num_samples : nat) (cfg : config) :
  cfg ∈ trials space num_samples -> cfg ∈ grid_configs space.
Proof.
  unfold trials. induction num_samples as [|n IH]; simpl.
  - intros H. by apply elem_of_nil in H.
  - rewrite elem_of_app. intros [H|H]; auto.
Qed.

Section Collaborators.
Context {Classifier NNModule Tensor : Type}.
Variable induce_correlation : induce_args -> result (list nat).
Variable train : train_args -> result unit.
Variable ray_init : Z -> Z -> result unit.
Variable terra_out : Z -> result DataPanel.
Variable terra_run_dir : nat -> option string.

Abbreviation event := (Train.event Classifier NNModule Tensor).
Abbreviation trainable := (nat -> config -> M event (option Metadata)).

(** An event of [tune.run] is an event of one of its trials. *)
Lemma run_trials_event (f : trainable) (i : nat) (cfgs : list config) (ev : event) :
  ev ∈ (run_trials f i cfgs).1 ->
  exists j cfg, cfg ∈ cfgs /\ ev ∈ trace (f j cfg).
Proof.
  revert i. induction cfgs as [|c r IH]; intros i; cbn [run_trials].
  - intros H. by apply elem_of_nil in H.
  - destruct (f i c) as [t res] eqn:Hf.
    specialize (IH (S i)). destruct (run_trials f (S i) r) as [t' rs].
    cbn [fst] in *. rewrite elem_of_app. intros [H|H].
    + exists i, c. split; [by left|]. by rewrite Hf.
    + destruct (IH H) as (j & cfg & Hin & Hev). exists j, cfg. split; [by right|done].
Qed.

(** Counting the events of one kind over the trials. *)
Lemma run_trials_count (p : event -> bool) (f : trainable) (i : nat)
    (cfgs : list config) (k : nat) :
  (forall j cfg, length (List.filter p (trace (f j cfg))) = k) ->
  length (List.filter p (run_trials f i cfgs).1) = (length cfgs * k)%nat.
Proof.
  intros Hk. revert i. induction cfgs as [|c r IH]; intros i; cbn [run_trials]; [done|].
  pose proof (Hk i c) as Hc. destruct (f i c) as [t res].
  specialize (IH (S i)). destruct (run_trials f (S i) r) as [t' rs].
  unfold trace in Hc. cbn [fst length] in *.
  rewrite List.filter_app, length_app, Hc, IH. lia.
Qed.

(** The events of a trial: the panel is loaded, and [train_model] runs
    unless a keyword is given twice. *)
Lemma train_trial_event (dp_run_id : Z) (input_column id_column : string)
    (num_examples : pyval) (kwargs : Kwargs) (i : nat) (cfg : config) (ev : event) :
  ev ∈ trace (_train_model induce_correlation train terra_out terra_run_dir
                dp_run_id input_column id_column num_examples kwargs i cfg) ->
  ev = ETerraOut dp_run_id
  \/ exists dp,
       terra_out dp_run_id = Return dp
       /\ Forall (fun k => k ∉ kwargs.*1) ["pbar"; "corr"; "target_correlate"; "dp"]
       /\ ev ∈ trace (train_model induce_correlation train dp
                        (cfg_target_correlate cfg) (VFloat (cfg_corr cfg))
                        num_examples input_column id_column (terra_run_dir i)
                        (("pbar", VBool false) :: kwargs)).
Proof.
  unfold _train_model, bind, call, trace. cbn [fst snd].
  destruct (terra_out dp_run_id) as [dp|e]; cbn [fst snd].
  2:{ intros H%list_elem_of_singleton. by left. }
  destruct (existsb _ _) eqn:Hex.
  { cbn. intros H%list_elem_of_singleton. by left. }
  intros [H|H]%elem_of_cons; [by left|]. right. exists dp. split; [done|].
  split; [|done].
  apply Forall_forall. intros k Hk Hin. apply list_elem_of_In in Hk.
  assert (existsb (fun k => bool_decide (k ∈ kwargs.*1))
            ["pbar"; "corr"; "target_correlate"; "dp"]%string = true) as Ht;
    [|congruence].
  apply existsb_exists. exists k. split; [done|]. by apply bool_decide_eq_true.
Qed.

(** The events of a run of [train_linear_slices]. *)
Lemma train_linear_slices_event
    (dp_run_id : Z) (target_correlate_pairs : list (string * string))
    (input_column id_column : string) (max_corr : float) (num_corrs : Z)
    (num_examples : pyval) (num_samples : nat) (kwargs : Kwargs) (ev : event) :
  ev ∈ trace (train_linear_slices induce_correlation train ray_init terra_out
                terra_run_dir dp_run_id target_correlate_pairs input_column
                id_column max_corr num_corrs num_examples num_samples kwargs) ->
  ev = ERayInit 4 32
  \/ exists corrs,
       Np.linspace 0 max_corr num_corrs = Return corrs
       /\ let space := {| ss_corr := corrs;
                          ss_target_correlate := target_correlate_pairs |} in
          ev = ETuneRun space num_samples [("gpu", 1%Z)]
          \/ exists i cfg,
               cfg ∈ grid_configs space
               /\ ev ∈ trace (_train_model induce_correlation train terra_out
                                terra_run_dir dp_run_id input_column id_column
                                num_examples kwargs i cfg).
Proof.
  unfold train_linear_slices, bind, call, lift, tune_run, trace. cbn [fst snd].
  destruct (ray_init 4 32) as [[]|e]; cbn [fst snd].
  2:{ intros H%list_elem_of_singleton. by left. }
  destruct (Np.linspace 0 max_corr num_corrs) as [corrs|e]; cbn [fst snd].
  2:{ intros [H|H]%elem_of_cons; [by left | by apply elem_of_nil in H]. }
  set (space := {| ss_corr := corrs; ss_target_correlate := target_correlate_pairs |}).
  pose proof (run_trials_event
                (_train_model induce_correlation train terra_out terra_run_dir
                   dp_run_id input_column id_column num_examples kwargs)
                0 (trials space num_samples) ev) as Hev.
  destruct (run_trials _ 0 (trials space num_samples)) as [t rs]. cbn [fst snd] in *.
  intros [H|H]%elem_of_cons; [by left|]. right. exists corrs. split; [done|].
  apply elem_of_cons in H as [H|H]; [by left|]. right.
  destruct (Hev H) as (i & cfg & Hin & Hcfg). exists i, cfg.
  split; [by eapply elem_of_trials | done].
Qed.

(** X12.  [train_linear_slices] stops before [tune.run] when [ray.init]
    raises, and when [num_corrs] is negative, which [np.linspace] rejects
    with a [ValueError] once [ray.init] has returned; no panel is loaded
    and nothing is trained. *)
Theorem train_linear_slices_stops_before_the_grid
    (dp_run_id : Z) (target_correlate_pairs : list (string * string))
    (input_column id_column : string) (max_corr : float) (num_corrs : Z)
    (num_examples : pyval) (num_samples : nat) (kwargs : Kwargs) :
  let r : M event (list row) :=
    train_linear_slices induce_correlation train ray_init terra_out terra_run_dir
      dp_run_id target_correlate_pairs input_column id_column max_corr num_corrs
      num_examples num_samples kwargs in
  (forall e, ray_init 4 32 = Raise e -> r = ([ERayInit 4 32], Raise e))
  /\ (ray_init 4 32 = Return tt -> (num_corrs < 0)%Z ->
      r = ([ERayInit 4 32],
           Raise (ValueError ("Number of samples, " +:+ pretty num_corrs
                                +:+ ", must be non-negative.")))).
Proof.
  intros r. subst r. unfold train_linear_slices, bind, call, lift. split.
  - intros e ->. reflexivity.
  - intros -> Hneg. cbn [fst snd].
    by rewrite (NpFacts.linspace_negative 0 max_corr num_corrs Hneg).
Qed.

(** X13.  Every call of [train] in a run of the grid is made for a
    configuration of the grid: it trains on the target of the pair, logs
    the correlation value and [num_examples] of the task in
    [wandb_config], uses the columns of the task, and is given
    [pbar=False] before the keywords of the task. *)
Theorem grid_trains_with_the_arguments_of_the_task
    (dp_run_id : Z) (target_correlate_pairs : list (string * string))
    (input_column id_column : string) (max_corr : float) (num_corrs : Z)
    (num_examples : pyval) (num_samples : nat) (kwargs : Kwargs)
    (a : train_args) :
  (ETrain a : event)
    ∈ trace (train_linear_slices induce_correlation train ray_init terra_out
                      terra_run_dir dp_run_id target_correlate_pairs input_column
                      id_column max_corr num_corrs num_examples num_samples kwargs) ->
  exists corrs corr pair,
    Np.linspace 0 max_corr num_corrs = Return corrs
    /\ corr ∈ corrs
    /\ pair ∈ target_correlate_pairs
    /\ tr_target_column a = pair.1
    /\ tr_wandb_config a !! "target" = Some (VStr pair.1)
    /\ tr_wandb_config a !! "correlate" = Some (VStr pair.2)
    /\ tr_wandb_config a !! "corr" = Some (VFloat corr)
    /\ tr_wandb_config a !! "num_examples" = Some num_examples
    /\ tr_input_column a = input_column
    /\ tr_id_column a = id_column
    /\ tr_kwargs a = ("pbar", VBool false) :: kwargs.
Proof.
  intros Ha. apply train_linear_slices_event in Ha as [Ha|(corrs & Hlin & [Ha|Ha])];
    [discriminate| discriminate |].
  destruct Ha as (i & cfg & Hcfg & Ha).
  apply TrainLinearSlicesFacts.elem_of_grid_configs in Hcfg as [Hcorr Hpair].
  apply train_trial_event in Ha as [Ha|(dp & _ & _ & Ha)]; [discriminate|].
  destruct cfg as [corr [target correlate]]. cbn [cfg_corr cfg_target_correlate] in *.
  apply TrainModelMore.train_event_inv in Ha
    as (run_id & indices & rows & _ & _ & _ & -> & _).
  exists corrs, corr, (target, correlate). cbn. by repeat split.
Qed.

(** X14.  Keywords of the task that [_train_model] also passes itself
    ([pbar], [corr], [target_correlate], [dp]) make every trial end in a
    [TypeError] after its panel is loaded: [induce_correlation] and
    [train] are never called. *)
Theorem repeated_keyword_stops_every_trial
    (dp_run_id : Z) (target_correlate_pairs : list (string * string))
    (input_column id_column : string) (max_corr : float) (num_corrs : Z)
    (num_examples : pyval) (num_samples : nat) (kwargs : Kwargs) (k : string) :
  k ∈ ["pbar"; "corr"; "target_correlate"; "dp"]%string ->
  k ∈ kwargs.*1 ->
  (forall i cfg,
     (_train_model induce_correlation train terra_out terra_run_dir dp_run_id
        input_column id_column num_examples kwargs i cfg
      : M event (option Metadata))
     = ([ETerraOut dp_run_id],
        match terra_out dp_run_id with
        | Return _ => Raise (TypeError "got multiple values for keyword argument")
        | Raise e => Raise e
        end))
  /\ forall ev : event,
       ev ∈ trace (train_linear_slices induce_correlation train ray_init terra_out
                     terra_run_dir dp_run_id target_correlate_pairs input_column
                     id_column max_corr num_corrs num_examples num_samples kwargs) ->
       is_work ev = false.
Proof.
  intros Hk Hin.
  assert (~ Forall (fun k => k ∉ kwargs.*1)
              ["pbar"; "corr"; "target_correlate"; "dp"]%string) as Hnot.
  { intros Hall. rewrite Forall_forall in Hall. by apply (Hall k Hk). }
  split.
  - intros i cfg. unfold _train_model, bind, call. cbn [fst snd].
    destruct (terra_out dp_run_id) as [dp|e]; cbn [fst snd]; [|done].
    destruct (existsb _ _) eqn:Hex; [done|]. destruct Hnot.
    apply Forall_forall. intros k' Hk' Hin'. apply list_elem_of_In in Hk'.
    assert (existsb (fun k => bool_decide (k ∈ kwargs.*1))
              ["pbar"; "corr"; "target_correlate"; "dp"]%string = true) as Ht;
      [|congruence].
    apply existsb_exists. exists k'. split; [done|]. by apply bool_decide_eq_true.
  - intros ev Hev.
    apply train_linear_slices_event in Hev as [->|(corrs & _ & [->|Hev])]; [done..|].
    destruct Hev as (i & cfg & _ & Hev).
    apply train_trial_event in Hev as [->|(dp & _ & Hall & _)]; [done|].
    by destruct Hnot.
Qed.

(** The events of [train_model] load no panel. *)
Lemma train_model_loads_nothing
    (dp : DataPanel) (target_correlate : string * string)
    (corr num_examples : pyval) (input_column id_column : string)
    (run_dir : option string) (kwargs : Kwargs) :
  List.filter is_terra_out
    (trace (train_model (Classifier := Classifier) (NNModule := NNModule)
              (Tensor := Tensor) induce_correlation train dp target_correlate corr
              num_examples input_column id_column run_dir kwargs)) = [].
Proof.
  destruct target_correlate as [target correlate].
  unfold train_model, bind, try_except, call, ret, lift, trace. cbn [fst snd].
  destruct (run_id_of run_dir); cbn [fst snd]; [|done].
  destruct (induce_correlation _) as [indices|e]; cbn [fst snd].
  - destruct (lz_rows dp indices); cbn [fst snd]; [|done].
    by destruct (train _).
  - by destruct e.
Qed.

(** X15.  Every trial loads the panel anew: with [ray.init] returned and
    [num_corrs] not negative, [terra.out] is called once per trial, that
    is [num_samples * num_corrs * len(target_correlate_pairs)] times. *)
Theorem grid_loads_the_panel_once_per_trial
    (dp_run_id : Z) (target_correlate_pairs : list (string * string))
    (input_column id_column : string) (max_corr : float) (num_corrs : Z)
    (num_examples : pyval) (num_samples : nat) (kwargs : Kwargs) :
  ray_init 4 32 = Return tt ->
  (0 <= num_corrs)%Z ->
  length (List.filter is_terra_out
            (trace (E := event)
                   (train_linear_slices induce_correlation train ray_init terra_out
                      terra_run_dir dp_run_id target_correlate_pairs input_column
                      id_column max_corr num_corrs num_examples num_samples kwargs)))
  = (num_samples * (Z.to_nat num_corrs * length target_correlate_pairs))%nat.
Proof.
  intros Hray Hnum.
  destruct (NpFacts.linspace_returns 0 max_corr num_corrs Hnum) as (corrs & Hlin & Hlen).
  unfold train_linear_slices, bind, call, lift, tune_run, trace. rewrite Hray, Hlin.
  cbn [fst snd].
  set (space := {| ss_corr := corrs; ss_target_correlate := target_correlate_pairs |}).
  pose proof (run_trials_count is_terra_out
                (_train_model induce_correlation train terra_out terra_run_dir
                   dp_run_id input_column id_column num_examples kwargs)
                0 (trials space num_samples) 1) as Hcount.
  destruct (run_trials _ 0 (trials space num_samples)) as [t rs]. cbn [fst snd] in *.
  cbn [app List.filter is_terra_out]. rewrite Hcount.
  - rewrite TrainLinearSlicesFacts.length_trials,
      TrainLinearSlicesFacts.length_grid_configs.
    subst space. cbn [ss_corr ss_target_correlate]. rewrite Hlen. lia.
  - intros j cfg. unfold _train_model, bind, call, trace. cbn [fst snd].
    destruct (terra_out dp_run_id) as [dp|e]; cbn [fst snd]; [|done].
    destruct (existsb _ _); [done|]. cbn [app List.filter is_terra_out length].
    pose proof (train_model_loads_nothing dp (cfg_target_correlate cfg)
                  (VFloat (cfg_corr cfg)) num_examples input_column id_column
                  (terra_run_dir j) (("pbar", VBool false) :: kwargs)) as Hnone.
    unfold trace in Hnone. by rewrite Hnone.
Qed.

End Collaborators.

(** A negative number of correlation values. *)
Lemma train_linear_slices_stops_before_the_grid_witness :
  train_linear_slices (Classifier := unit) (NNModule := unit)
    (Tensor := Torch.tensor) Demo.induce_correlation Demo.train Demo.ray_init
    Demo.terra_out Demo.terra_run_dir 7 [("smiling", "male")] "input" "file"
    0.8 (-1) (VInt 30000) 1 []
  = ([ERayInit 4 32],
     Raise (ValueError "Number of samples, -1, must be non-negative.")).
Proof.
  apply (proj2 (train_linear_slices_stops_before_the_grid (Classifier := unit)
                  (NNModule := unit) (Tensor := Torch.tensor)
                  Demo.induce_correlation Demo.train Demo.ray_init Demo.terra_out
                  Demo.terra_run_dir 7 [("smiling", "male")] "input" "file"
                  0.8 (-1) (VInt 30000) 1 [])); reflexivity.
Defined.

(** The first trial of a grid of two correlation values. *)
Lemma grid_trains_with_the_arguments_of_the_task_witness :
  exists a,
    (ETrain a : Demo.event)
      ∈ trace (train_linear_slices Demo.induce_correlation Demo.train
                 Demo.ray_init Demo.terra_out Demo.terra_run_dir 7
                 [("smiling", "male")] "input" "file" 0.8 2 (VInt 30000) 1
                 [("epochs", VInt 3)])
    /\ tr_kwargs a = [("pbar", VBool false); ("epochs", VInt 3)].
Proof.
  assert (exists a,
            (ETrain a : Demo.event)
              ∈ trace (train_linear_slices Demo.induce_correlation Demo.train
                         Demo.ray_init Demo.terra_out Demo.terra_run_dir 7
                         [("smiling", "male")] "input" "file" 0.8 2
                         (VInt 30000) 1 [("epochs", VInt 3)])) as [a Ha].
  { assert (exists a,
              trace (train_linear_slices Demo.induce_correlation Demo.train
                       Demo.ray_init Demo.terra_out Demo.terra_run_dir 7
                       [("smiling", "male")] "input" "file" 0.8 2
                       (VInt 30000) 1 [("epochs", VInt 3)]) !! 4%nat
              = Some (ETrain a : Demo.event)) as [a Ha].
    { eexists. vm_compute. reflexivity. }
    exists a. exact (list_elem_of_lookup_2 _ _ _ Ha). }
  exists a. split; [exact Ha|].
  destruct (grid_trains_with_the_arguments_of_the_task Demo.induce_correlation
              Demo.train Demo.ray_init Demo.terra_out Demo.terra_run_dir 7
              [("smiling", "male")] "input" "file" 0.8 2 (VInt 30000) 1
              [("epochs", VInt 3)] a Ha)
    as (corrs & corr & pair & _ & _ & _ & _ & _ & _ & _ & _ & _ & _ & Hkw).
  exact Hkw.
Defined.

(** [pbar] given by the caller. *)
Lemma repeated_keyword_stops_every_trial_witness :
  (_train_model Demo.induce_correlation Demo.train Demo.terra_out
     Demo.terra_run_dir 7 "input" "file" (VInt 30000) [("pbar", VBool true)] 0
     {| cfg_corr := 0; cfg_target_correlate := ("smiling", "male") |}
   : M Demo.event (option Metadata))
  = ([ETerraOut 7], Raise (TypeError "got multiple values for keyword argument")).
Proof.
  refine (proj1 (repeated_keyword_stops_every_trial (Classifier := unit)
                   (NNModule := unit) (Tensor := Torch.tensor)
                   Demo.induce_correlation Demo.train Demo.ray_init Demo.terra_out
                   Demo.terra_run_dir 7 [("smiling", "male")] "input" "file"
                   0.8 2 (VInt 30000) 1 [("pbar", VBool true)] "pbar" _ _)
            0%nat {| cfg_corr := 0; cfg_target_correlate := ("smiling", "male") |}).
  - left.
  - left.
Defined.

(** Two samples of a grid of three values and two pairs. *)
Lemma grid_loads_the_panel_once_per_trial_witness :
  length (List.filter is_terra_out
            (trace (E := Demo.event)
                   (train_linear_slices Demo.induce_correlation Demo.train
                      Demo.ray_init Demo.terra_out Demo.terra_run_dir 7
                      [("smiling", "male"); ("smiling", "age")] "input" "file"
                      0.8 3 (VInt 30000) 2 [])))
  = 12%nat.
Proof.
  apply (grid_loads_the_panel_once_per_trial (Classifier := unit)
           (NNModule := unit) (Tensor := Torch.tensor) Demo.induce_correlation
           Demo.train Demo.ray_init Demo.terra_out Demo.terra_run_dir 7
           [("smiling", "male"); ("smiling", "age")] "input" "file" 0.8 3
           (VInt 30000) 2 []); [reflexivity | discriminate].
Defined.

End TrainLinearSlicesMore.

(** ** [train.py]: [score_linear_slices] and its trials *)
Module ScoreSlicesFacts.
Import Run Train ScoreSlices.

Section Collaborators.
Context {Classifier NNModule Tensor : Type}.
Variable torch_mean : Tensor -> list Z -> Tensor.
Variable nested_getattr : Classifier -> string -> result NNModule.
Variable score : score_args Classifier NNModule Tensor -> result DataPanel.
Variable rt : runtime.
Variable ray_init : Z -> Z -> result unit.
Variable terra_out : Z -> result DataPanel.
Variable terra_run_dir : nat -> option string.
Variable terra_get_artifacts : Z -> string -> result (option Classifier).

Abbreviation event := (ScoreSlices.event Classifier NNModule Tensor).
Abbreviation trainable := (nat -> model_record -> M event Metadata).

Lemma score_trials_event (f : trainable) (i : nat) (cfgs : list model_record)
    (ev : event) :
  ev ∈ (run_trials f i cfgs).1 ->
  exists j cfg, cfg ∈ cfgs /\ ev ∈ trace (f j cfg).
Proof.
  revert i. induction cfgs as [|c r IH]; intros i; cbn [run_trials].
  - intros H. by apply elem_of_nil in H.
  - destruct (f i c) as [t res] eqn:Hf.
    specialize (IH (S i)). destruct (run_trials f (S i) r) as [t' rs].
    cbn [fst] in *. rewrite elem_of_app. intros [H|H].
    + exists i, c. split; [by left|]. by rewrite Hf.
    + destruct (IH H) as (j & cfg & Hin & Hev). exists j, cfg. split; [by right|done].
Qed.

Lemma score_trials_count (p : event -> bool) (f : trainable) (i : nat)
    (cfgs : list model_record) (k : nat) :
  (forall j cfg, length (List.filter p (trace (f j cfg))) = k) ->
  length (List.filter p (run_trials f i cfgs).1) = (length cfgs * k)%nat.
Proof.
  intros Hk. revert i. induction cfgs as [|c r IH]; intros i; cbn [run_trials]; [done|].
  pose proof (Hk i c) as Hc. destruct (f i c) as [t res].
  specialize (IH (S i)). destruct (run_trials f (S i) r) as [t' rs].
  unfold trace in Hc. cbn [fst length] in *.
  rewrite List.filter_app, length_app, Hc, IH. lia.
Qed.

Lemma elem_of_score_trials (records : list model_record) (num_samples : nat)
    (rec : model_record) :
  rec ∈ trials records num_samples -> rec ∈ records.
Proof.
  unfold trials. induction num_samples as [|n IH]; simpl.
  - intros H. by apply elem_of_nil in H.
  - rewrite elem_of_app. intros [H|H]; auto.
Qed.

Lemma length_score_trials (records : list model_record) (num_samples : nat) :
  length (trials records num_samples) = (num_samples * length records)%nat.
Proof.
  unfold trials. induction num_samples as [|n IH]; simpl; [done|].
  rewrite length_app, IH. lia.
Qed.

(** The events of a task are not calls of [terra.get_artifacts]. *)
Lemma task_loads_no_artifacts {A}
    (m : M (Train.event Classifier NNModule Tensor) A) :
  List.filter is_get_artifacts (trace (task m)) = [].
Proof.
  unfold task, trace. cbn [fst]. induction (fst m) as [|ev l IH]; [done|].
  rewrite fmap_cons. cbn [List.filter is_get_artifacts]. exact IH.
Qed.

(** A call of [score] in a trial is a call of the run of [score_model]
    on the model of the checkpoint and the panel loaded. *)
Lemma score_trial_event (dp_run_id : Z) (split : split_arg)
    (layers : option (list (string * string)))
    (reduction_fns : option (list string))
    (input_column id_column : option string) (kwargs : Kwargs)
    (i : nat) (args : model_record) (a : score_args Classifier NNModule Tensor) :
  (ETask (EScore a) : event)
    ∈ trace (_score_model torch_mean nested_getattr score rt terra_out terra_run_dir
               terra_get_artifacts dp_run_id split layers reduction_fns
               input_column id_column kwargs i args) ->
  exists model dp,
    terra_get_artifacts (mr_run_id args) "best_chkpt" = Return (Some model)
    /\ terra_out dp_run_id = Return dp
    /\ EScore a
         ∈ trace (score_model torch_mean nested_getattr score rt dp model
                    (mr_target args) (mr_correlate args) (mr_corr args)
                    (mr_num_examples args) split (default "input" input_column)
                    (default "file" id_column) layers reduction_fns
                    (terra_run_dir i) (("pbar", VBool false) :: kwargs)).
Proof.
  unfold _score_model, bind, call, lift, raise, trace. cbn [fst snd].
  destruct (terra_get_artifacts _ _) as [[model|]|e]; cbn [fst snd model_of].
  2,3: by intros [H|H%elem_of_nil]%elem_of_cons.
  destruct (terra_out dp_run_id) as [dp|e]; cbn [fst snd].
  2:{ by intros [H|[H|H%elem_of_nil]%elem_of_cons]%elem_of_cons. }
  destruct (existsb _ _).
  { cbn. by intros [H|[H|H%elem_of_nil]%elem_of_cons]%elem_of_cons. }
  intros [H|[H|H]%elem_of_cons]%elem_of_cons; [discriminate..|].
  exists model, dp. do 2 (split; [done|]).
  set (m := score_model _ _ _ _ _ _ _ _ _ _ _ _ _ _ _ _ _) in *.
  assert (ETask (EScore a) ∈ (ETask <$> fst m : list event)) as Hin.
  { unfold task, outcome, trace in H. cbn [fst snd] in H.
    destruct (snd m) as [[out md]|e]; cbn [fst snd] in H;
      rewrite ?app_nil_r in H; exact H. }
  apply list_elem_of_fmap in Hin as (ev & Heq & Hin). by injection Heq as ->.
Qed.

(** X17.  A slice is scored with the model of its own training run and
    under the run of the scoring task: in every call of [score] of a run
    of [score_linear_slices], the model is the ["model"] entry of the
    ["best_chkpt"] artifacts of the [run_id] of a record of [model_df],
    the target and the logged correlate, correlation and number of
    examples are those of that record, while the logged [run_id] is the
    one that the [run_dir] of the trial spells; [pbar=False] comes before
    the keywords of the caller. *)
Theorem slices_are_scored_with_their_own_model
    (dp_run_id : Z) (model_df : list model_record) (num_samples : nat)
    (split : split_arg) (layers : option (list (string * string)))
    (reduction_fns : option (list string)) (num_gpus num_cpus : Z)
    (input_column id_column : option string) (kwargs : Kwargs)
    (a : score_args Classifier NNModule Tensor) :
  (ETask (EScore a) : event)
    ∈ trace (score_linear_slices torch_mean nested_getattr score rt ray_init terra_out
               terra_run_dir terra_get_artifacts dp_run_id model_df num_samples
               split layers reduction_fns num_gpus num_cpus input_column id_column
               kwargs) ->
  exists i rec run_id,
    rec ∈ model_df
    /\ terra_get_artifacts (mr_run_id rec) "best_chkpt" = Return (Some (sc_model a))
    /\ sc_target_column a = mr_target rec
    /\ run_id_of (terra_run_dir i) = Return run_id
    /\ sc_run_dir a = terra_run_dir i
    /\ sc_wandb_config a
       = mk_metadata (mr_target rec) (mr_correlate rec) (mr_corr rec)
           (mr_num_examples rec) run_id
    /\ sc_input_column a = default "input" input_column
    /\ sc_id_column a = default "file" id_column
    /\ sc_kwargs a = ("pbar", VBool false) :: kwargs.
Proof.
  unfold score_linear_slices, bind, call, tune_run, trace. cbn [fst snd].
  destruct (ray_init num_gpus num_cpus) as [[]|e]; cbn [fst snd].
  2:{ by intros [H|H%elem_of_nil]%elem_of_cons. }
  pose proof (score_trials_event
                (_score_model torch_mean nested_getattr score rt terra_out
                   terra_run_dir terra_get_artifacts dp_run_id split layers
                   reduction_fns input_column id_column kwargs)
                0 (trials model_df num_samples) (ETask (EScore a))) as Hev.
  destruct (run_trials _ 0 (trials model_df num_samples)) as [t rs].
  cbn [fst snd] in *.
  intros [H|[H|H]%elem_of_cons]%elem_of_cons; [discriminate..|].
  destruct (Hev H) as (i & rec & Hrec & Ha).
  apply score_trial_event in Ha as (model & dp & Hmodel & _ & Ha).
  apply ScoreModelMore.score_event_inv in Ha
    as (ls & fns & run_id & data & _ & _ & Hid & _ & ->).
  exists i, rec, run_id. cbn.
  split; [by eapply elem_of_score_trials|]. by repeat split.
Qed.

(** X18.  A record whose run has no usable checkpoint is not scored: when
    [terra.get_artifacts] raises, or returns a mapping without a
    ["model"] entry, the trial raises that exception, respectively
    [KeyError("model")], and neither [terra.out] nor [score_model] is
    reached. *)
Theorem record_without_model_is_not_scored
    (dp_run_id : Z) (split : split_arg)
    (layers : option (list (string * string)))
    (reduction_fns : option (list string))
    (input_column id_column : option string) (kwargs : Kwargs)
    (i : nat) (args : model_record) (e : exn) :
  terra_get_artifacts (mr_run_id args) "best_chkpt" = Raise e
  \/ (terra_get_artifacts (mr_run_id args) "best_chkpt" = Return None
      /\ e = KeyError "model") ->
  (_score_model torch_mean nested_getattr score rt terra_out terra_run_dir
     terra_get_artifacts dp_run_id split layers reduction_fns input_column
     id_column kwargs i args : M event Metadata)
  = ([EGetArtifacts (mr_run_id args) "best_chkpt"], Raise e).
Proof.
  unfold _score_model, bind, call, lift. by intros [->|[-> ->]].
Qed.

(** X19.  The metadata that a trial returns carries the [run_id] of the
    scoring run, read from the [run_dir] of the trial, with the target,
    correlate, correlation and number of examples of the record; it
    returns only when the checkpoint had a model. *)
Theorem scored_metadata_names_the_scoring_run
    (dp_run_id : Z) (split : split_arg)
    (layers : option (list (string * string)))
    (reduction_fns : option (list string))
    (input_column id_column : option string) (kwargs : Kwargs)
    (i : nat) (args : model_record) (metadata : Metadata) :
  outcome (_score_model torch_mean nested_getattr score rt terra_out terra_run_dir
             terra_get_artifacts dp_run_id split layers reduction_fns
             input_column id_column kwargs i args) = Return metadata ->
  exists model run_id,
    terra_get_artifacts (mr_run_id args) "best_chkpt" = Return (Some model)
    /\ run_id_of (terra_run_dir i) = Return run_id
    /\ metadata = mk_metadata (mr_target args) (mr_correlate args) (mr_corr args)
                    (mr_num_examples args) run_id
    /\ Forall (fun k => k ∉ kwargs.*1)
         ["pbar"; "target"; "correlate"; "corr"; "num_examples"; "model"; "dp"].
Proof.
  unfold _score_model, bind, call, lift, raise, ret, outcome. cbn [fst snd].
  destruct (terra_get_artifacts _ _) as [[model|]|e]; cbn [fst snd model_of];
    [|discriminate..].
  destruct (terra_out dp_run_id) as [dp|e]; cbn [fst snd]; [|discriminate].
  destruct (existsb _ _) eqn:Hex; [discriminate|].
  set (m := score_model _ _ _ _ _ _ _ _ _ _ _ _ _ _ _ _ _).
  pose proof (ScoreModelMore.score_model_return_inv torch_mean nested_getattr
                score rt dp model (mr_target args) (mr_correlate args) (mr_corr args)
                (mr_num_examples args) split (default "input" input_column)
                (default "file" id_column) layers reduction_fns (terra_run_dir i)
                (("pbar", VBool false) :: kwargs)) as Hinv.
  fold m in Hinv. unfold task, outcome, trace in *. cbn [fst snd].
  destruct (snd m) as [[out md]|e]; cbn [fst snd]; [|discriminate].
  intros [= <-]. destruct (Hinv out md eq_refl) as (run_id & Hid & ->).
  exists model, run_id. do 3 (split; [done|]).
  apply Forall_forall. intros k Hk Hin. apply list_elem_of_In in Hk.
  assert (existsb (fun k => bool_decide (k ∈ kwargs.*1))
            ["pbar"; "target"; "correlate"; "corr"; "num_examples"; "model"; "dp"]%string
          = true) as Ht; [|congruence].
  apply existsb_exists. exists k. split; [done|]. by apply bool_decide_eq_true.
Qed.

(** X20.  Every trial loads its checkpoint anew: once [ray.init] has
    returned, [terra.get_artifacts] is called once per trial, that is
    [num_samples * len(model_df)] times, whatever the trials do. *)
Theorem checkpoints_are_loaded_once_per_trial
    (dp_run_id : Z) (model_df : list model_record) (num_samples : nat)
    (split : split_arg) (layers : option (list (string * string)))
    (reduction_fns : option (list string)) (num_gpus num_cpus : Z)
    (input_column id_column : option string) (kwargs : Kwargs) :
  ray_init num_gpus num_cpus = Return tt ->
  length (List.filter is_get_artifacts
            (trace (E := event)
                   (score_linear_slices torch_mean nested_getattr score rt ray_init
                      terra_out terra_run_dir terra_get_artifacts dp_run_id
                      model_df num_samples split layers reduction_fns num_gpus
                      num_cpus input_column id_column kwargs)))
  = (num_samples * length model_df)%nat.
Proof.
  intros Hray. unfold score_linear_slices, bind, call, tune_run, trace.
  rewrite Hray. cbn [fst snd].
  pose proof (score_trials_count is_get_artifacts
                (_score_model torch_mean nested_getattr score rt terra_out
                   terra_run_dir terra_get_artifacts dp_run_id split layers
                   reduction_fns input_column id_column kwargs)
                0 (trials model_df num_samples) 1) as Hcount.
  destruct (run_trials _ 0 (trials model_df num_samples)) as [t rs].
  cbn [fst snd] in *. cbn [app List.filter is_get_artifacts]. rewrite Hcount.
  - rewrite length_score_trials. lia.
  - intros j cfg. unfold _score_model, bind, call, lift, raise, ret, trace.
    cbn [fst snd].
    destruct (terra_get_artifacts _ _) as [[model|]|e]; cbn [fst snd model_of];
      [|done..].
    destruct (terra_out dp_run_id) as [dp|e]; cbn [fst snd]; [|done].
    destruct (existsb _ _); [done|].
    set (m := score_model _ _ _ _ _ _ _ _ _ _ _ _ _ _ _ _ _).
    pose proof (task_loads_no_artifacts m) as Hnone. unfold trace in Hnone.
    destruct (snd (task m)) as [[out md]|e]; cbn [fst snd app List.filter
      is_get_artifacts length]; rewrite ?List.filter_app, ?Hnone; done.
Qed.

End Collaborators.

(** The first of the two records of [DemoScore]. *)
Lemma slices_are_scored_with_their_own_model_witness :
  exists a : score_args unit unit Torch.tensor,
    ETask (EScore a)
      ∈ trace (score_linear_slices Torch.mean Demo.nested_getattr Demo.score Demo.rt
                 Demo.ray_init Demo.terra_out Demo.terra_run_dir
                 DemoScore.terra_get_artifacts 7 DemoScore.model_df 1
                 (SplitStr "test") None None 1 8 None None [("batch_size", VInt 128)])
    /\ sc_input_column a = "input"
    /\ sc_kwargs a = [("pbar", VBool false); ("batch_size", VInt 128)].
Proof.
  assert (exists a : score_args unit unit Torch.tensor,
            trace (score_linear_slices Torch.mean Demo.nested_getattr Demo.score Demo.rt
                     Demo.ray_init Demo.terra_out Demo.terra_run_dir
                     DemoScore.terra_get_artifacts 7 DemoScore.model_df 1
                     (SplitStr "test") None None 1 8 None None
                     [("batch_size", VInt 128)]) !! 4%nat
            = Some (ETask (EScore a))) as [a Ha].
  { eexists. vm_compute. reflexivity. }
  exists a. apply list_elem_of_lookup_2 in Ha. split; [exact Ha|].
  destruct (slices_are_scored_with_their_own_model Torch.mean Demo.nested_getattr
              Demo.score Demo.rt Demo.ray_init Demo.terra_out Demo.terra_run_dir
              DemoScore.terra_get_artifacts 7 DemoScore.model_df 1
              (SplitStr "test") None None 1 8 None None [("batch_size", VInt 128)]
              a Ha)
    as (i & rec & run_id & _ & _ & _ & _ & _ & _ & Hin & _ & Hkw).
  split; [exact Hin | exact Hkw].
Defined.

(** The run 23 has a checkpoint without a model. *)
Lemma record_without_model_is_not_scored_witness :
  (_score_model Torch.mean Demo.nested_getattr Demo.score Demo.rt Demo.terra_out
     Demo.terra_run_dir DemoScore.terra_get_artifacts 7 (SplitStr "test") None
     None None None [] 0
     {| mr_run_id := 23; mr_target := "smiling"; mr_correlate := "male";
        mr_corr := VFloat 0.5; mr_num_examples := VInt 30000 |}
   : M (ScoreSlices.event unit unit Torch.tensor) Metadata)
  = ([EGetArtifacts 23 "best_chkpt"], Raise (KeyError "model")).
Proof.
  apply (record_without_model_is_not_scored Torch.mean Demo.nested_getattr
           Demo.score Demo.rt Demo.terra_out Demo.terra_run_dir
           DemoScore.terra_get_artifacts 7 (SplitStr "test") None None None None
           [] 0
           {| mr_run_id := 23; mr_target := "smiling"; mr_correlate := "male";
              mr_corr := VFloat 0.5; mr_num_examples := VInt 30000 |}
           (KeyError "model")).
  right. split; reflexivity.
Defined.

(** The model of run 21, scored by the run 1208. *)
Lemma scored_metadata_names_the_scoring_run_witness :
  exists model run_id,
    DemoScore.terra_get_artifacts 21 "best_chkpt" = Return (Some model)
    /\ run_id_of (Demo.terra_run_dir 0) = Return run_id
    /\ mk_metadata "smiling" "male" (VFloat 0.5) (VInt 30000) 1208
       = mk_metadata "smiling" "male" (VFloat 0.5) (VInt 30000) run_id.
Proof.
  destruct (scored_metadata_names_the_scoring_run Torch.mean Demo.nested_getattr
              Demo.score Demo.rt Demo.terra_out Demo.terra_run_dir
              DemoScore.terra_get_artifacts 7 (SplitStr "test") None None None
              None [] 0
              {| mr_run_id := 21; mr_target := "smiling"; mr_correlate := "male";
                 mr_corr := VFloat 0.5; mr_num_examples := VInt 30000 |}
              (mk_metadata "smiling" "male" (VFloat 0.5) (VInt 30000) 1208))
    as (model & run_id & Hmodel & Hid & Hmd & _).
  - vm_compute. reflexivity.
  - exists model, run_id. split; [exact Hmodel|]. split; [exact Hid | exact Hmd].
Defined.

(** Two samples of the two records of [DemoScore]. *)
Lemma checkpoints_are_loaded_once_per_trial_witness :
  length (List.filter is_get_artifacts
            (trace (E := ScoreSlices.event unit unit Torch.tensor)
                   (score_linear_slices Torch.mean Demo.nested_getattr Demo.score Demo.rt
                      Demo.ray_init Demo.terra_out Demo.terra_run_dir
                      DemoScore.terra_get_artifacts 7 DemoScore.model_df 2
                      (SplitStr "test") None None 1 8 None None [])))
  = 4%nat.
Proof.
  apply (checkpoints_are_loaded_once_per_trial Torch.mean Demo.nested_getattr
           Demo.score Demo.rt Demo.ray_init Demo.terra_out Demo.terra_run_dir
           DemoScore.terra_get_artifacts 7 DemoScore.model_df 2 (SplitStr "test")
           None None 1 8 None None []).
  reflexivity.
Defined.

End ScoreSlicesFacts.

(** ** The scripts under any environment *)
Module FlowFacts.
Import Run Pipelines Flow CutShort.

Section Scripts.
Variable raises : string -> list pyv -> list (string * pyv) -> option exn.

(** X21.  Whatever the environment answers, [pipelines/imagenet.py]
    makes the first calls, with the same arguments, of its run in the
    calm environment, which returns after the calls listed; it returns
    only after all of them, and an exception that leaves it is the one
    raised by the last call it made. *)
Theorem exceptions_only_cut_the_pipeline_short :
  let m := imagenet_pipeline raises in
  let full := imagenet_pipeline (calm raises) in
  outcome full = Return tt
  /\ called (trace full)
     = ["torch.cuda.device_count"; "psutil.cpu_count"; "nltk.data.find"]
       ++ (if wordnet_caught raises then ["nltk.download"] else [])
       ++ ["get_imagenet_dp"; "split_dp"; "get_wiki_words"; "embed_words";
           "embed_images"; "embed_images"; "embed_images"; "embed_images";
           "collect_settings"; "collect_settings"; "concat_settings";
           "setting_dp.load"; "len"; "np.random.choice";
           "setting_dp.lz.__getitem__"; "train_settings"; "score_settings";
           "tune.grid_search"; "run_sdms"; "score_sdms"]
  /\ trace m `prefix_of` trace full
  /\ (outcome m = Return tt -> trace m = trace full)
  /\ (forall e, outcome m = Raise e ->
        exists f args kwargs,
          last (trace m) = Some (ECall f args kwargs)
          /\ raises f args kwargs = Some e).
Proof.
  intros m full.
  assert (outcome full = Return tt) as Hfull.
  { subst full. unfold calm. destruct (wordnet_caught raises); lazy; reflexivity. }
  split; [exact Hfull|]. split.
  { subst full. unfold calm. destruct (wordnet_caught raises); lazy; reflexivity. }
  destruct (imagenet_pipeline_cut_short raises) as [Hpre Hout]. fold m full in Hpre, Hout.
  split; [exact Hpre|]. split.
  - intros Hm. rewrite Hm in Hout. by rewrite Hout.
  - intros e Hm. rewrite Hm in Hout. destruct Hout as [Heq|Hcall]; [|exact Hcall].
    rewrite <- Heq, Hm in Hfull. discriminate Hfull.
Qed.

(** X22.  The same holds of the script with the command line, whose run
    in the calm environment ends at its [raise ValueError] unless the
    flag [synthetic] is set: the exception that leaves the script is this
    [ValueError], after all the calls of that run, or the one raised by
    the last call made. *)
Theorem exceptions_only_cut_the_script_short (argv : pipeline_args) :
  let m := imagenet_synthetic_method raises argv in
  let full := imagenet_synthetic_method (calm raises) argv in
  outcome full = (if synthetic argv then Return tt else Raise (ValueError ""))
  /\ called (trace full)
     = ["parse_pipeline_args"; "torch.cuda.device_count"; "psutil.cpu_count";
        "min"; "ray.init"; "nltk.data.find"]
       ++ (if wordnet_caught raises then ["nltk.download"] else [])
       ++ ["get_imagenet_dp"; "split_dp"; "get_wiki_words"; "embed_words";
           "embed_images"; "embed_images"; "embed_images";
           "collect_settings"; "collect_settings"; "concat_settings";
           "setting_dp.load"; "len"]
       ++ (if sanity argv then ["random_filter_settings"] else [])
       ++ (if synthetic argv
           then ["synthetic_score_settings"; "tune.grid_search"; "run_sdms";
                 "score_sdms"]
           else [])
  /\ trace m `prefix_of` trace full
  /\ (outcome m = Return tt -> synthetic argv = true /\ trace m = trace full)
  /\ (forall e, outcome m = Raise e ->
        (synthetic argv = false /\ e = ValueError "" /\ trace m = trace full)
        \/ exists f args kwargs,
             last (trace m) = Some (ECall f args kwargs)
             /\ raises f args kwargs = Some e).
Proof.
  intros m full.
  assert (outcome full = (if synthetic argv then Return tt else Raise (ValueError "")))
    as Hfull.
  { subst full. unfold calm. destruct argv as [w n [] []];
      destruct (wordnet_caught raises); lazy; reflexivity. }
  split; [exact Hfull|]. split.
  { subst full. unfold calm. destruct argv as [w n [] []];
      destruct (wordnet_caught raises); lazy; reflexivity. }
  destruct (imagenet_synthetic_method_cut_short raises argv) as [Hpre Hout].
  fold m full in Hpre, Hout. split; [exact Hpre|]. split.
  - intros Hm. rewrite Hm in Hout. rewrite <- Hout, Hm in Hfull.
    split; [|by rewrite Hout]. by destruct (synthetic argv).
  - intros e Hm. rewrite Hm in Hout. destruct Hout as [Heq|Hcall]; [|by right].
    left. rewrite <- Heq, Hm in Hfull.
    destruct (synthetic argv); [discriminate|]. injection Hfull as ->.
    by rewrite Heq.
Qed.

(** What every call of [f] in the scripts satisfies, read off the runs
    in the calm environment. *)
Ltac whole_runs :=
  lazymatch goal with
  | |- Forall _ (calls_of _ (trace (imagenet_pipeline _))) =>
      apply (calls_of_cut_short raises _ _ _ _ (imagenet_pipeline_cut_short raises));
      unfold calm; destruct (wordnet_caught raises)
  | |- Forall _ (calls_of _ (trace (imagenet_synthetic_method _ ?argv))) =>
      apply (calls_of_cut_short raises _ _ _ _
               (imagenet_synthetic_method_cut_short raises argv));
      unfold calm; destruct (wordnet_caught raises); destruct argv as [w n [] []]
  end;
  lazy; repeat constructor.

(** X23.  In both scripts the discovery methods are run across
    modalities with CLIP: every call of [run_sdms] gets as
    [xmodal_emb_dp] the ["clip"] entry of its [emb_dp], which is what
    [embed_images] returned for [emb_type="clip"] on the panel of
    [get_imagenet_dp()] and its split on ["image_id"], and as [word_dp]
    the embedded Wikipedia words; [score_sdms] scores what [run_sdms]
    returned. *)
Theorem discovery_is_cross_modal_with_clip (argv : pipeline_args) :
  let data_dp := PRet "get_imagenet_dp" [] [] in
  let split := PRet "split_dp" [] [("dp", data_dp); ("split_on", PStr "image_id")] in
  let words :=
    PRet "embed_words" []
      [("words_dp",
        PRet "get_wiki_words" [] [("top_k", PInt 10000); ("eng_only", PBool true)])] in
  let discovery (c : list pyv * list (string * pyv)) :=
    exists embs clip_kwargs,
      kwarg "emb_dp" c.2 = Some (PDict embs)
      /\ kwarg "clip" embs = Some (PRet "embed_images" [] clip_kwargs)
      /\ kwarg "xmodal_emb_dp" c.2 = Some (PRet "embed_images" [] clip_kwargs)
      /\ kwarg "emb_type" clip_kwargs = Some (PStr "clip")
      /\ kwarg "dp" clip_kwargs = Some data_dp
      /\ kwarg "split_dp" clip_kwargs = Some split
      /\ kwarg "word_dp" c.2 = Some words in
  let scoring (c : list pyv * list (string * pyv)) :=
    exists args kwargs, kwarg "setting_dp" c.2 = Some (PRet "run_sdms" args kwargs) in
  Forall discovery (calls_of "run_sdms" (trace (imagenet_pipeline raises)))
  /\ Forall scoring (calls_of "score_sdms" (trace (imagenet_pipeline raises)))
  /\ Forall discovery
       (calls_of "run_sdms" (trace (imagenet_synthetic_method raises argv)))
  /\ Forall scoring
       (calls_of "score_sdms" (trace (imagenet_synthetic_method raises argv))).
Proof.
  intros data_dp split words discovery scoring.
  subst discovery scoring data_dp split words.
  split; [|split; [|split]]; whole_runs;
    cbn [snd];
    first [ do 2 eexists; by repeat split ].
Qed.

(** X24.  [pipelines/imagenet.py] trains on a sample of sixteen settings:
    [train_settings] gets the rows of the loaded settings at the indices
    that [np.random.choice(len(setting_dp), 16)] returned, with the
    panel of [get_imagenet_dp()] and its split; [score_settings] gets the
    first component of what [train_settings] returned, and [run_sdms]
    the first component of what [score_settings] returned. *)
Theorem pipeline_trains_on_sixteen_settings :
  let data_dp := PRet "get_imagenet_dp" [] [] in
  let split := PRet "split_dp" [] [("dp", data_dp); ("split_on", PStr "image_id")] in
  let t := trace (imagenet_pipeline raises) in
  Forall (fun c =>
            exists settings,
              let loaded :=
                PRet "setting_dp.load" [PRet "concat_settings" [settings] []] [] in
              kwarg "setting_dp" c.2
              = Some (PRet "setting_dp.lz.__getitem__"
                        [loaded;
                         PRet "np.random.choice" [PRet "len" [loaded] []; PInt 16] []]
                        [])
              /\ kwarg "data_dp" c.2 = Some data_dp
              /\ kwarg "split_dp" c.2 = Some split)
    (calls_of "train_settings" t)
  /\ Forall (fun c =>
               exists args kwargs,
                 kwarg "model_dp" c.2
                 = Some (PItem (PRet "train_settings" args kwargs) 0))
       (calls_of "score_settings" t)
  /\ Forall (fun c =>
               exists args kwargs,
                 kwarg "setting_dp" c.2
                 = Some (PItem (PRet "score_settings" args kwargs) 0))
       (calls_of "run_sdms" t).
Proof.
  intros data_dp split t. subst data_dp split t.
  split; [|split]; whole_runs; cbn [snd];
    first [ eexists; by repeat split | do 2 eexists; reflexivity ].
Qed.

(** X25.  In the script with the command line the flag [sanity] puts
    [random_filter_settings] between the settings and their scoring: it
    is called only with the flag, on what [concat_settings] returned and
    with [subset_size=64]; [synthetic_score_settings] is called only with
    the flag [synthetic], on the filtered settings with [sanity] and on
    what [concat_settings] returned without; [run_sdms] gets what
    [synthetic_score_settings] returned.  What [setting_dp.load()]
    returned is only measured: it is given to [len] and to no other call,
    and it is not printed. *)
Theorem sanity_flag_filters_the_settings (argv : pipeline_args) :
  let t := trace (imagenet_synthetic_method raises argv) in
  Forall (fun c =>
            sanity argv = true
            /\ exists settings,
                 c = ([PRet "concat_settings" [settings] []],
                      [("subset_size", PInt 64)]))
    (calls_of "random_filter_settings" t)
  /\ Forall (fun c =>
               synthetic argv = true
               /\ exists settings,
                    let concat := PRet "concat_settings" [settings] [] in
                    kwarg "setting_dp" c.2
                    = Some (if sanity argv
                            then PRet "random_filter_settings" [concat]
                                   [("subset_size", PInt 64)]
                            else concat))
       (calls_of "synthetic_score_settings" t)
  /\ Forall (fun c =>
               exists args kwargs,
                 kwarg "setting_dp" c.2
                 = Some (PRet "synthetic_score_settings" args kwargs))
       (calls_of "run_sdms" t)
  /\ Forall (fun c => exists args, c = ([PRet "setting_dp.load" args []], []))
       (calls_of "len" t)
  /\ Forall (fun ev =>
               given "setting_dp.load" ev = true ->
               exists args kwargs, ev = ECall "len" args kwargs) t.
Proof.
  intros t. subst t.
  split; [|split; [|split; [|split]]].
  1-4: whole_runs; cbn [snd];
    first [ split; [reflexivity|]; eexists; reflexivity
          | do 2 eexists; reflexivity
          | eexists; reflexivity ].
  apply (events_of_cut_short raises _ _ _
           (imagenet_synthetic_method_cut_short raises argv)).
  unfold calm; destruct (wordnet_caught raises); destruct argv as [w n [] []];
    lazy;
    repeat (apply Forall_cons;
            split; [first [discriminate | intros _; do 2 eexists; reflexivity]|]);
    constructor.
Qed.

(** X26.  The resources: the script with the command line starts Ray
    with the GPUs that [torch.cuda.device_count()] returned and with the
    CPUs of [psutil.cpu_count()] capped by [min(..., 64)], and hands no
    resources to [run_sdms]; [pipelines/imagenet.py] never calls
    [ray.init] and hands the uncapped counts to [train_settings],
    [score_settings] and [run_sdms]. *)
Theorem scripts_hand_on_the_resources_found (argv : pipeline_args) :
  let gpus := PRet "torch.cuda.device_count" [] [] in
  let cpus := PRet "psutil.cpu_count" [] [] in
  let found (c : list pyv * list (string * pyv)) :=
    kwarg "num_gpus" c.2 = Some gpus /\ kwarg "num_cpus" c.2 = Some cpus in
  let script := trace (imagenet_synthetic_method raises argv) in
  let pipeline := trace (imagenet_pipeline raises) in
  Forall (fun c =>
            c = ([], [("num_gpus", gpus);
                      ("num_cpus", PRet "min" [cpus; PInt 64] []);
                      ("ignore_reinit_error", PBool true)]))
    (calls_of "ray.init" script)
  /\ Forall (fun c => kwarg "num_gpus" c.2 = None /\ kwarg "num_cpus" c.2 = None)
       (calls_of "run_sdms" script)
  /\ calls_of "ray.init" pipeline = []
  /\ Forall found (calls_of "train_settings" pipeline)
  /\ Forall found (calls_of "score_settings" pipeline)
  /\ Forall found (calls_of "run_sdms" pipeline).
Proof.
  intros gpus cpus found script pipeline. subst gpus cpus found script pipeline.
  split; [|split; [|split; [|split; [|split]]]]; try (whole_runs; cbn [snd]; done).
  assert (Forall (fun _ => False)
            (calls_of "ray.init" (trace (imagenet_pipeline raises)))) as Hno
    by whole_runs.
  destruct (calls_of "ray.init" (trace (imagenet_pipeline raises)));
    [reflexivity | by inversion Hno].
Qed.

End Scripts.

(** The calls that the statements above speak of are made: their
    numbers in the runs in which nothing raises, the script being given
    both flags. *)
Example calls_of_the_whole_runs :
  let argv := {| worker_idx := 0; num_workers := 1; sanity := true;
                 synthetic := true |} in
  (fun f => (length (calls_of f (trace (imagenet_pipeline all_return))),
             length (calls_of f (trace (imagenet_synthetic_method all_return argv)))))
    <$> ["run_sdms"; "score_sdms"; "train_settings"; "score_settings";
         "random_filter_settings"; "synthetic_score_settings"; "len"; "ray.init"]
  = [(1, 1); (1, 1); (1, 0); (1, 0); (0, 1); (0, 1); (1, 1); (0, 1)]%nat.
Proof. lazy. reflexivity. Qed.

(** In an environment in which nothing raises the pipeline makes all its
    calls. *)
Lemma exceptions_only_cut_the_pipeline_short_witness :
  called (trace (imagenet_pipeline all_return))
  = ["torch.cuda.device_count"; "psutil.cpu_count"; "nltk.data.find";
     "get_imagenet_dp"; "split_dp"; "get_wiki_words"; "embed_words";
     "embed_images"; "embed_images"; "embed_images"; "embed_images";
     "collect_settings"; "collect_settings"; "concat_settings";
     "setting_dp.load"; "len"; "np.random.choice";
     "setting_dp.lz.__getitem__"; "train_settings"; "score_settings";
     "tune.grid_search"; "run_sdms"; "score_sdms"].
Proof.
  destruct (exceptions_only_cut_the_pipeline_short all_return)
    as (_ & Hcalled & _ & Hret & _).
  rewrite (Hret eq_refl). exact Hcalled.
Defined.

(** Without the flag [synthetic], in an environment in which nothing
    raises, the script ends at its [raise ValueError]. *)
Lemma exceptions_only_cut_the_script_short_witness :
  trace (imagenet_synthetic_method all_return
           {| worker_idx := 0; num_workers := 1; sanity := true;
              synthetic := false |})
  = trace (imagenet_synthetic_method (calm all_return)
             {| worker_idx := 0; num_workers := 1; sanity := true;
                synthetic := false |}).
Proof.
  destruct (exceptions_only_cut_the_script_short all_return
              {| worker_idx := 0; num_workers := 1; sanity := true;
                 synthetic := false |})
    as (_ & _ & _ & _ & Hraise).
  destruct (Hraise (ValueError "") eq_refl)
    as [(_ & _ & Heq)|(f & args & kwargs & _ & Hnone)].
  - exact Heq.
  - discriminate Hnone.
Defined.

End FlowFacts.
